(** * QuickBuildEstimate: the cost engine

    A shallow embedding of [cost_engine.py] (with the parts of [models.py]
    it reads) and the proofs of its specification.

    - Python floats are IEEE binary64 numbers: Rocq's primitive [float],
      with [PrimFloat.add], [PrimFloat.mul] and [PrimFloat.div] for [+],
      [*] and [/].
    - Values decoded from the JSON text columns are [pyval]s; a JSON object
      is a [gmap] from its (string) keys.
    - A Python exception is a [pyexc]; fallible code returns a [result].
    - [calculate_estimate_totals] mutates the estimate it is given: it is
      a computation in the state-and-exception monad [M] over
      [Estimate.t]. *)

From Stdlib Require Import ZArith Lia List Ascii String Bool.
From Stdlib Require Import PrimFloat SpecFloat FloatOps.
From stdpp Require Import gmap strings.

#[local] Set Warnings "-register-all,-inexact-float".
#[local] Open Scope string_scope.
#[local] Open Scope Z_scope.

(* ===================================================================== *)
(** ** Python values *)
(* ===================================================================== *)

(** What [json.loads] returns: [None], [bool], [int], [float], [str],
    [list], and [dict] with string keys. *)
Inductive pyval :=
| VNone
| VBool (b : bool)
| VInt (z : Z)
| VFloat (f : float)
| VStr (s : string)
| VList (l : list pyval)
| VDict (d : gmap string pyval).

(** [type(v).__name__], as it appears in the interpreter's messages. *)
Definition py_type_name (v : pyval) : string :=
  match v with
  | VNone => "NoneType"
  | VBool _ => "bool"
  | VInt _ => "int"
  | VFloat _ => "float"
  | VStr _ => "str"
  | VList _ => "list"
  | VDict _ => "dict"
  end.

(** An exception: its class and [str(e)]. *)
Record pyexc := PyExc { exc_class : string; exc_msg : string }.

Definition py_str_exc (e : pyexc) : string := exc_msg e.

Inductive result (A : Type) :=
| Ok (a : A)
| Raise (e : pyexc).
Arguments Ok {A} a.
Arguments Raise {A} e.

#[export] Instance result_ret : MRet result := fun A a => Ok a.
#[export] Instance result_bind : MBind result := fun A B f r =>
  match r with
  | Ok a => f a
  | Raise e => Raise e
  end.

Definition AttributeError (v : pyval) (attr : string) : pyexc :=
  PyExc "AttributeError"
        ("'" ++ py_type_name v ++ "' object has no attribute '" ++ attr ++ "'").

Definition TypeError_operand (op : string) (a b : string) : pyexc :=
  PyExc "TypeError"
        ("unsupported operand type(s) for " ++ op ++ ": '" ++ a ++ "' and '" ++ b ++ "'").

Definition TypeError_sequence : pyexc :=
  PyExc "TypeError" "can't multiply sequence by non-int of type 'float'".

Definition TypeError_unhashable (v : pyval) : pyexc :=
  PyExc "TypeError" ("unhashable type: '" ++ py_type_name v ++ "'").

Definition TypeError_not_iterable (v : pyval) : pyexc :=
  PyExc "TypeError" ("'" ++ py_type_name v ++ "' object is not iterable").

Definition OverflowError_int : pyexc :=
  PyExc "OverflowError" "int too large to convert to float".

(* ===================================================================== *)
(** ** Floats *)
(* ===================================================================== *)

(** [bool(x)] of a float: [x != 0.0] (a NaN is true, [-0.0] is false). *)
Definition float_truthy (x : float) : bool := negb (PrimFloat.eqb x 0%float).

(** [x or d] where [x] is a nullable Float column. *)
Definition py_or_float (x : option float) (d : float) : float :=
  match x with
  | Some f => if float_truthy f then f else d
  | None => d
  end.

(** [x or d] where [x] is a nullable String column: [None] and [''] are
    false. *)
Definition str_truthy (x : option string) : bool :=
  match x with
  | Some s => negb (String.eqb s "")
  | None => false
  end.

Definition py_or_str (x : option string) (d : string) : string :=
  match x with
  | Some s => if String.eqb s "" then d else s
  | None => d
  end.

(** [float(z)] of an int: the nearest binary64 number, ties to even;
    [OverflowError] when that is not finite. *)
Definition float_of_Z (z : Z) : float :=
  SF2Prim (binary_normalize prec emax z 0 false).

Definition py_float_of_int (z : Z) : result float :=
  let f := float_of_Z z in
  if is_infinity f then Raise OverflowError_int else Ok f.

(** The integer nearest to [n / d], ties to the even one ([0 <= n], [0 < d]). *)
Definition div_half_even (n d : Z) : Z :=
  let q := n / d in
  let r := n mod d in
  match 2 * r ?= d with
  | Lt => q
  | Gt => q + 1
  | Eq => if Z.even q then q else q + 1
  end.

(** The binary64 number nearest to [k / 100] (ties to even), signed by
    [s]: what [float("k/100")] reads from the decimal string. *)
Definition hundredths (s : bool) (k : Z) : float :=
  match k with
  | Z.pos k' =>
      SF2Prim (SFdiv prec emax (S754_finite s k' 0) (S754_finite false 100 0))
  | _ => if s then neg_zero else zero
  end.

(** [round(x, 2)] of a float.  NaN and the infinities round to themselves.
    A finite [x = (-1)^s * m * 2^e] is rounded, from its exact value, to
    the nearest multiple [k / 100] of a hundredth (ties to even [k]), and
    the result is the binary64 number nearest to [k / 100], with the sign
    of [x]. *)
Definition py_round2 (x : float) : float :=
  match Prim2SF x with
  | S754_finite s m e =>
      hundredths s (if 0 <=? e then Z.pos m * 2 ^ e * 100
                    else div_half_even (Z.pos m * 100) (2 ^ (- e)))
  | _ => x
  end.

(* ===================================================================== *)
(** ** Strings *)
(* ===================================================================== *)

(** [str.lower()]: strings are byte strings here, and the letters [A]-[Z]
    are the only bytes it changes.  (No character outside ASCII lowers to
    a string of the letters of ['exterior'] or ['utility'], so the
    comparisons below come out as in Python.) *)
Definition lower_ascii (c : ascii) : ascii :=
  let n := N_of_ascii c in
  if ((65 <=? n) && (n <=? 90))%N then ascii_of_N (n + 32) else c.

Fixpoint lower (s : string) : string :=
  match s with
  | EmptyString => EmptyString
  | String c r => String (lower_ascii c) (lower r)
  end.

(* ===================================================================== *)
(** ** Operations on decoded JSON values *)
(* ===================================================================== *)

(** [area.get(key, default)]: only a dict has the method. *)
Definition py_get (area : pyval) (key : string) (fallback : pyval) : result pyval :=
  match area with
  | VDict d => Ok (default fallback (d !! key))
  | _ => Raise (AttributeError area "get")
  end.

(** [category.lower()]: only a str has the method. *)
Definition py_lower (category : pyval) : result string :=
  match category with
  | VStr s => Ok (lower s)
  | _ => Raise (AttributeError category "lower")
  end.

(** [for area in areas]: the elements of a list, the keys of a dict, the
    characters of a str; nothing else decoded from JSON is iterable. *)
Definition py_iter (v : pyval) : result (list pyval) :=
  match v with
  | VList l => Ok l
  | VDict d => Ok (VStr <$> (map_to_list d).*1)
  | VStr s => Ok ((fun c => VStr (String c EmptyString)) <$> list_ascii_of_string s)
  | _ => Raise (TypeError_not_iterable v)
  end.

(** [area_ft2 * psf_rate] with a float rate: a float is multiplied, an int
    (or a bool, which is an int) is converted first. *)
Definition py_mul_float (v : pyval) (rate : float) : result float :=
  match v with
  | VFloat f => Ok (f * rate)%float
  | VInt z => f ← py_float_of_int z; Ok (f * rate)%float
  | VBool b => Ok ((if b then 1 else 0) * rate)%float
  | VStr _ | VList _ => Raise TypeError_sequence
  | VNone | VDict _ => Raise (TypeError_operand "*" (py_type_name v) "float")
  end.

(** [a + b] inside [sum(...)], which starts from the int [0]: the
    accumulator [a] is an int or a float.  (The sum is not used by the
    engine, its exceptions are.) *)
Definition py_add (a b : pyval) : result pyval :=
  let wrong := Raise (TypeError_operand "+" (py_type_name a) (py_type_name b)) in
  match a, b with
  | VInt x, VInt y => Ok (VInt (x + y))
  | VInt x, VBool y => Ok (VInt (x + Z.b2z y))
  | VInt x, VFloat y => f ← py_float_of_int x; Ok (VFloat (f + y)%float)
  | VFloat x, VFloat y => Ok (VFloat (x + y)%float)
  | VFloat x, VInt y => f ← py_float_of_int y; Ok (VFloat (x + f)%float)
  | VFloat x, VBool y => Ok (VFloat (x + (if y then 1 else 0))%float)
  | _, _ => wrong
  end.

(** A dict key must be hashable: a list or a dict is not. *)
Definition py_hashable (v : pyval) : bool :=
  match v with
  | VList _ | VDict _ => false
  | _ => true
  end.

(** Is the int [z] the exact value of the float [f]? *)
Definition float_is_Z (f : float) (z : Z) : bool :=
  match Prim2SF f with
  | S754_zero _ => z =? 0
  | S754_finite s m e =>
      let v := if s then Z.neg m else Z.pos m in
      if 0 <=? e then z =? v * 2 ^ e else z * 2 ^ (- e) =? v
  | _ => false
  end.

(** Are two hashable values the same dict key?  Numbers compare by value
    ([True == 1 == 1.0]); the NaN decoded from JSON is one shared object,
    found again by identity. *)
Definition py_key_eqb (a b : pyval) : bool :=
  match a, b with
  | VNone, VNone => true
  | VStr s, VStr t => String.eqb s t
  | VBool x, VBool y => Bool.eqb x y
  | VBool x, VInt y | VInt y, VBool x => Z.b2z x =? y
  | VInt x, VInt y => x =? y
  | VBool x, VFloat f | VFloat f, VBool x => float_is_Z f (Z.b2z x)
  | VInt x, VFloat f | VFloat f, VInt x => float_is_Z f x
  | VFloat f, VFloat g => PrimFloat.eqb f g || (is_nan f && is_nan g)
  | _, _ => false
  end.

(** A Python dict keeps its keys in insertion order: an association list.
    [d[k] = v] replaces the value of an existing key where it stands and
    appends a new key. *)
Fixpoint dict_set {V : Type} (d : list (pyval * V)) (k : pyval) (v : V)
  : list (pyval * V) :=
  match d with
  | [] => [(k, v)]
  | (k', v') :: rest =>
      if py_key_eqb k' k then (k', v) :: rest else (k', v') :: dict_set rest k v
  end.

(** [if k not in d: d[k] = []] and then [d[k].append(x)], for str keys. *)
Fixpoint group_append {V : Type} (d : list (string * list V)) (k : string) (x : V)
  : list (string * list V) :=
  match d with
  | [] => [(k, [x])]
  | (k', xs) :: rest =>
      if String.eqb k' k then (k', (xs ++ [x])%list) :: rest
      else (k', xs) :: group_append rest k x
  end.

(** [bundle in active_bundles] for a str [bundle] and a list: some element
    is equal to it, and only a str is equal to a str. *)
Definition py_str_in (bundle : string) (active_bundles : list pyval) : bool :=
  existsb (fun x => match x with VStr s => String.eqb s bundle | _ => false end)
          active_bundles.

(* ===================================================================== *)
(** ** The data model ([models.py]) *)
(* ===================================================================== *)

(** A nullable [Float] column is an [option float], a nullable [String]
    column an [option string].  (Between [update_estimate_settings] and
    the commit a percentage clamped to a bound is the int [0] or [100];
    [or] and [/ 100.0] treat it as the float of the same value.)  A JSON
    text column is held decoded: [None] is a NULL or empty text, which the
    getters read as [[]].  Every writer of [active_bundles_json] stores a
    list ([list(set(...))], or a list after [append]/[remove]);
    [areas_json] holds whatever the blueprint analysis answered under
    ["areas"]. *)
Module Estimate.
Record t := mk {
  id : Z;
  name : string;
  areas_json : option pyval;
  active_bundles_json : option (list pyval);
  profit_percentage : option float;
  contingency_percentage : option float;
  subtotal : option float;
  profit_amount : option float;
  contingency_amount : option float;
  grand_total : option float
}.

Definition get_areas (self : t) : pyval :=
  match areas_json self with
  | Some areas => areas
  | None => VList []
  end.

Definition get_active_bundles (self : t) : list pyval :=
  match active_bundles_json self with
  | Some bundles => bundles
  | None => []
  end.

(** [estimate.subtotal = v] and its three siblings. *)
Definition set_subtotal (v : float) (self : t) : t :=
  mk (id self) (name self) (areas_json self) (active_bundles_json self)
     (profit_percentage self) (contingency_percentage self)
     (Some v) (profit_amount self) (contingency_amount self) (grand_total self).

Definition set_profit_amount (v : float) (self : t) : t :=
  mk (id self) (name self) (areas_json self) (active_bundles_json self)
     (profit_percentage self) (contingency_percentage self)
     (subtotal self) (Some v) (contingency_amount self) (grand_total self).

Definition set_contingency_amount (v : float) (self : t) : t :=
  mk (id self) (name self) (areas_json self) (active_bundles_json self)
     (profit_percentage self) (contingency_percentage self)
     (subtotal self) (profit_amount self) (Some v) (grand_total self).

Definition set_grand_total (v : float) (self : t) : t :=
  mk (id self) (name self) (areas_json self) (active_bundles_json self)
     (profit_percentage self) (contingency_percentage self)
     (subtotal self) (profit_amount self) (contingency_amount self) (Some v).

(** The four computed fields. *)
Definition computed (self : t) : option float * option float * option float * option float :=
  (subtotal self, profit_amount self, contingency_amount self, grand_total self).
End Estimate.

Module MaterialItem.
Record t := mk {
  id : Z;
  estimate_id : Z;
  name : string;
  unit : option string;
  unit_cost : option float;
  quantity : option float;
  total_cost : option float;
  bundle : option string;
  category : option string
}.
End MaterialItem.

Module LaborItem.
Record t := mk {
  id : Z;
  estimate_id : Z;
  task : string;
  hours : option float;
  hourly_rate : option float;
  total_cost : option float;
  category : option string
}.
End LaborItem.

(** The two tables the engine queries. *)
Record Db := mkDb {
  material_items : list MaterialItem.t;
  labor_items : list LaborItem.t
}.

(** [MaterialItem.query.filter_by(estimate_id=i).all()] *)
Definition query_materials (db : Db) (i : Z) : list MaterialItem.t :=
  List.filter (fun m => MaterialItem.estimate_id m =? i) (material_items db).

(** [LaborItem.query.filter_by(estimate_id=i).all()] *)
Definition query_labor (db : Db) (i : Z) : list LaborItem.t :=
  List.filter (fun l => LaborItem.estimate_id l =? i) (labor_items db).

(* ===================================================================== *)
(** ** State and exceptions *)
(* ===================================================================== *)

(** A computation over the estimate being updated.  An exception leaves
    the estimate as it was when it was raised: nothing is rolled back. *)
Definition M (A : Type) : Type := Estimate.t → Estimate.t * result A.

#[export] Instance M_ret : MRet M := fun A a st => (st, Ok a).
#[export] Instance M_bind : MBind M := fun A B f m st =>
  match m st with
  | (st', Ok a) => f a st'
  | (st', Raise e) => (st', Raise e)
  end.

Definition lift {A : Type} (r : result A) : M A := fun st => (st, r).
Definition read {A : Type} (f : Estimate.t → A) : M A := fun st => (st, Ok (f st)).
Definition write (f : Estimate.t → Estimate.t) : M unit := fun st => (f st, Ok tt).

(** [try: body except Exception as e: handler(e)] *)
Definition try_except {A : Type} (body : M A) (handler : pyexc → M A) : M A :=
  fun st =>
    match body st with
    | (st', Ok a) => (st', Ok a)
    | (st', Raise e) => handler e st'
    end.

Definition raise {A : Type} (e : pyexc) : M A := fun st => (st, Raise e).

(* ===================================================================== *)
(** ** [calculate_estimate_totals] ([cost_engine.py], lines 5-71) *)
(* ===================================================================== *)

(** Line 16: [not material.bundle or material.bundle in active_bundles] *)
Definition material_included (active_bundles : list pyval) (material : MaterialItem.t) : bool :=
  negb (str_truthy (MaterialItem.bundle material))
  || match MaterialItem.bundle material with
     | Some bundle => py_str_in bundle active_bundles
     | None => false
     end.

(** Lines 15-17: the loop over the materials, from [material_total]. *)
Fixpoint material_loop (active_bundles : list pyval) (materials : list MaterialItem.t)
                       (material_total : float) : float :=
  match materials with
  | [] => material_total
  | material :: rest =>
      material_loop active_bundles rest
        (if material_included active_bundles material
         then (material_total + py_or_float (MaterialItem.total_cost material) 0)%float
         else material_total)
  end.

(** Lines 23-25: the loop over the labor items. *)
Fixpoint labor_loop (labor_items : list LaborItem.t) (labor_total : float) : float :=
  match labor_items with
  | [] => labor_total
  | labor :: rest =>
      labor_loop rest (labor_total + py_or_float (LaborItem.total_cost labor) 0)%float
  end.

(** Line 29: [sum(area.get('area_ft2', 0) for area in areas)]; the
    generator reads one record, then adds. *)
Fixpoint total_area_loop (areas : list pyval) (acc : pyval) : result pyval :=
  match areas with
  | [] => Ok acc
  | area :: rest =>
      v ← py_get area "area_ft2" (VInt 0);
      acc' ← py_add acc v;
      total_area_loop rest acc'
  end.

(** Lines 38-43: the rate of a lowered category. *)
Definition psf_rate_of (category : string) : float :=
  if String.eqb category "exterior" then 15%float
  else if String.eqb category "utility" then 25%float
  else 20%float.

(** Lines 34-45: one turn of the loop over the areas. *)
Definition area_step (area : pyval) (area_cost : float) : result float :=
  area_ft2 ← py_get area "area_ft2" (VInt 0);
  default_category ← py_get area "category" (VStr "Interior");
  category ← py_lower default_category;
  let psf_rate := psf_rate_of category in
  product ← py_mul_float area_ft2 psf_rate;
  Ok (area_cost + product)%float.

(** Lines 33-45. *)
Fixpoint area_loop (areas : list pyval) (area_cost : float) : result float :=
  match areas with
  | [] => Ok area_cost
  | area :: rest =>
      area_cost' ← area_step area area_cost;
      area_loop rest area_cost'
  end.

(** The local variables of the function when it reaches line 61. *)
Module Locals.
Record t := mk {
  material_total : float;
  labor_total : float;
  area_cost : float;
  subtotal : float;
  profit_amount : float;
  contingency_amount : float;
  grand_total : float
}.
End Locals.

(** Lines 9-59: everything before the estimate is updated. *)
Definition compute_locals (db : Db) : M Locals.t :=
  active_bundles ← read Estimate.get_active_bundles;
  materials ← read (fun estimate => query_materials db (Estimate.id estimate));
  let material_total := material_loop active_bundles materials 0%float in
  labor_items ← read (fun estimate => query_labor db (Estimate.id estimate));
  let labor_total := labor_loop labor_items 0%float in
  areas ← read Estimate.get_areas;
  area_list ← lift (py_iter areas);
  total_area ← lift (total_area_loop area_list (VInt 0));
  area_cost ← lift (area_loop area_list 0%float);
  let subtotal := (material_total + labor_total + area_cost)%float in
  profit_percentage ← read (fun estimate =>
                              py_or_float (Estimate.profit_percentage estimate) 15%float);
  let profit_amount := (subtotal * (profit_percentage / 100))%float in
  contingency_percentage ← read (fun estimate =>
                              py_or_float (Estimate.contingency_percentage estimate) 10%float);
  let contingency_amount :=
    ((subtotal + profit_amount) * (contingency_percentage / 100))%float in
  let grand_total := (subtotal + profit_amount + contingency_amount)%float in
  mret (Locals.mk material_total labor_total area_cost
                  subtotal profit_amount contingency_amount grand_total).

(** Lines 62-65: the four assignments. *)
Definition update_estimate (l : Locals.t) : M unit :=
  write (Estimate.set_subtotal (py_round2 (Locals.subtotal l)));;
  write (Estimate.set_profit_amount (py_round2 (Locals.profit_amount l)));;
  write (Estimate.set_contingency_amount (py_round2 (Locals.contingency_amount l)));;
  write (Estimate.set_grand_total (py_round2 (Locals.grand_total l))).

(** Lines 9-67, the body of the [try].  (Line 67 logs two floats, which
    cannot fail and changes nothing.) *)
Definition calculate_body (db : Db) : M unit :=
  l ← compute_locals db;
  update_estimate l.

(** Lines 69-71: [raise Exception(f"Failed to calculate estimate totals: {str(e)}")] *)
Definition calculate_failed (e : pyexc) : pyexc :=
  PyExc "Exception" ("Failed to calculate estimate totals: " ++ py_str_exc e).

Definition calculate_estimate_totals (db : Db) : M unit :=
  try_except (calculate_body db) (fun e => raise (calculate_failed e)).

(* ===================================================================== *)
(** ** [get_cost_breakdown] ([cost_engine.py], lines 73-149) *)
(* ===================================================================== *)

Module MaterialEntry.
Record t := mk {
  name : string;
  quantity : option float;
  unit : option string;
  unit_cost : option float;
  total_cost : option float
}.
End MaterialEntry.

Module LaborEntry.
Record t := mk {
  task : string;
  hours : option float;
  hourly_rate : option float;
  total_cost : option float
}.
End LaborEntry.

Module AreaEntry.
Record t := mk {
  area_ft2 : pyval;
  psf_rate : float;
  total_cost : float;
  category : pyval
}.
End AreaEntry.

Module Totals.
Record t := mk {
  materials : float;
  labor : float;
  area_costs : float;
  subtotal : option float;
  profit : option float;
  contingency : option float;
  grand_total : option float
}.

Definition add_materials (x : float) (self : t) : t :=
  mk (materials self + x)%float (labor self) (area_costs self)
     (subtotal self) (profit self) (contingency self) (grand_total self).

Definition add_labor (x : float) (self : t) : t :=
  mk (materials self) (labor self + x)%float (area_costs self)
     (subtotal self) (profit self) (contingency self) (grand_total self).

Definition add_area_costs (x : float) (self : t) : t :=
  mk (materials self) (labor self) (area_costs self + x)%float
     (subtotal self) (profit self) (contingency self) (grand_total self).
End Totals.

(** The [breakdown] dict: its four keys are fixed, its three groupings are
    dicts in insertion order. *)
Module Breakdown.
Record t := mk {
  materials : list (string * list MaterialEntry.t);
  labor : list (string * list LaborEntry.t);
  area_costs : list (pyval * AreaEntry.t);
  totals : Totals.t
}.
End Breakdown.

(** Lines 78-91. *)
Definition breakdown_init (estimate : Estimate.t) : Breakdown.t :=
  Breakdown.mk [] [] []
    (Totals.mk 0%float 0%float 0%float
       (Estimate.subtotal estimate) (Estimate.profit_amount estimate)
       (Estimate.contingency_amount estimate) (Estimate.grand_total estimate)).

(** Lines 96-108: one turn of the loop over the materials. *)
Definition breakdown_material_step (active_bundles : list pyval)
    (material : MaterialItem.t) (breakdown : Breakdown.t) : Breakdown.t :=
  if negb (str_truthy (MaterialItem.bundle material))
     || match MaterialItem.bundle material with
        | Some bundle => py_str_in bundle active_bundles
        | None => false
        end
  then
    let bundle := py_or_str (MaterialItem.bundle material) "Miscellaneous" in
    let entry := MaterialEntry.mk (MaterialItem.name material)
                   (MaterialItem.quantity material) (MaterialItem.unit material)
                   (MaterialItem.unit_cost material) (MaterialItem.total_cost material) in
    Breakdown.mk
      (group_append (Breakdown.materials breakdown) bundle entry)
      (Breakdown.labor breakdown)
      (Breakdown.area_costs breakdown)
      (Totals.add_materials (py_or_float (MaterialItem.total_cost material) 0)
                            (Breakdown.totals breakdown))
  else breakdown.

Fixpoint breakdown_material_loop (active_bundles : list pyval)
    (materials : list MaterialItem.t) (breakdown : Breakdown.t) : Breakdown.t :=
  match materials with
  | [] => breakdown
  | material :: rest =>
      breakdown_material_loop active_bundles rest
        (breakdown_material_step active_bundles material breakdown)
  end.

(** Lines 113-123: one turn of the loop over the labor items. *)
Definition breakdown_labor_step (labor : LaborItem.t) (breakdown : Breakdown.t)
  : Breakdown.t :=
  let category := py_or_str (LaborItem.category labor) "General Labor" in
  let entry := LaborEntry.mk (LaborItem.task labor) (LaborItem.hours labor)
                 (LaborItem.hourly_rate labor) (LaborItem.total_cost labor) in
  Breakdown.mk
    (Breakdown.materials breakdown)
    (group_append (Breakdown.labor breakdown) category entry)
    (Breakdown.area_costs breakdown)
    (Totals.add_labor (py_or_float (LaborItem.total_cost labor) 0)
                      (Breakdown.totals breakdown)).

Fixpoint breakdown_labor_loop (labor_items : list LaborItem.t) (breakdown : Breakdown.t)
  : Breakdown.t :=
  match labor_items with
  | [] => breakdown
  | labor :: rest => breakdown_labor_loop rest (breakdown_labor_step labor breakdown)
  end.

(** Lines 133-138: [category.lower()] is called for each comparison. *)
Definition breakdown_psf_rate (category : pyval) : result float :=
  c ← py_lower category;
  if String.eqb c "exterior" then Ok 15%float
  else
    c' ← py_lower category;
    if String.eqb c' "utility" then Ok 25%float else Ok 20%float.

(** Lines 128-147: one turn of the loop over the areas. *)
Definition breakdown_area_step (area : pyval) (breakdown : Breakdown.t)
  : result Breakdown.t :=
  area_ft2 ← py_get area "area_ft2" (VInt 0);
  category ← py_get area "category" (VStr "Interior");
  room ← py_get area "room" (VStr "Unknown");
  psf_rate ← breakdown_psf_rate category;
  area_cost ← py_mul_float area_ft2 psf_rate;
  if py_hashable room then
    Ok (Breakdown.mk
          (Breakdown.materials breakdown)
          (Breakdown.labor breakdown)
          (dict_set (Breakdown.area_costs breakdown) room
                    (AreaEntry.mk area_ft2 psf_rate area_cost category))
          (Totals.add_area_costs area_cost (Breakdown.totals breakdown)))
  else Raise (TypeError_unhashable room).

Fixpoint breakdown_area_loop (areas : list pyval) (breakdown : Breakdown.t)
  : result Breakdown.t :=
  match areas with
  | [] => Ok breakdown
  | area :: rest =>
      breakdown' ← breakdown_area_step area breakdown;
      breakdown_area_loop rest breakdown'
  end.

Definition get_cost_breakdown (db : Db) (estimate : Estimate.t) : result Breakdown.t :=
  let active_bundles := Estimate.get_active_bundles estimate in
  let breakdown := breakdown_init estimate in
  let materials := query_materials db (Estimate.id estimate) in
  let breakdown := breakdown_material_loop active_bundles materials breakdown in
  let labor_items := query_labor db (Estimate.id estimate) in
  let breakdown := breakdown_labor_loop labor_items breakdown in
  let areas := Estimate.get_areas estimate in
  area_list ← py_iter areas;
  breakdown_area_loop area_list breakdown.

(* ===================================================================== *)
(** ** The monadic code as a function *)
(* ===================================================================== *)

Arguments py_round2 : simpl never.
Arguments float_of_Z : simpl never.

(** What [compute_locals] returns, as a [result]: the estimate is only read. *)
Definition locals_result (db : Db) (estimate : Estimate.t) : result Locals.t :=
  area_list ← py_iter (Estimate.get_areas estimate);
  total_area ← total_area_loop area_list (VInt 0);
  area_cost ← area_loop area_list 0%float;
  let material_total :=
    material_loop (Estimate.get_active_bundles estimate)
                  (query_materials db (Estimate.id estimate)) 0%float in
  let labor_total := labor_loop (query_labor db (Estimate.id estimate)) 0%float in
  let subtotal := (material_total + labor_total + area_cost)%float in
  let profit_percentage := py_or_float (Estimate.profit_percentage estimate) 15%float in
  let profit_amount := (subtotal * (profit_percentage / 100))%float in
  let contingency_percentage :=
    py_or_float (Estimate.contingency_percentage estimate) 10%float in
  let contingency_amount :=
    ((subtotal + profit_amount) * (contingency_percentage / 100))%float in
  Ok (Locals.mk material_total labor_total area_cost subtotal profit_amount
                contingency_amount (subtotal + profit_amount + contingency_amount)%float).

(** The estimate after lines 62-65. *)
Definition stored (l : Locals.t) (estimate : Estimate.t) : Estimate.t :=
  Estimate.set_grand_total (py_round2 (Locals.grand_total l))
    (Estimate.set_contingency_amount (py_round2 (Locals.contingency_amount l))
       (Estimate.set_profit_amount (py_round2 (Locals.profit_amount l))
          (Estimate.set_subtotal (py_round2 (Locals.subtotal l)) estimate))).

(** The locals depend on the fields the function reads, and on nothing
    that it writes. *)
Definition same_inputs (e1 e2 : Estimate.t) : Prop :=
  Estimate.id e1 = Estimate.id e2
  ∧ Estimate.areas_json e1 = Estimate.areas_json e2
  ∧ Estimate.active_bundles_json e1 = Estimate.active_bundles_json e2
  ∧ Estimate.profit_percentage e1 = Estimate.profit_percentage e2
  ∧ Estimate.contingency_percentage e1 = Estimate.contingency_percentage e2.

(* ===================================================================== *)
(** ** The specification's vocabulary *)
(* ===================================================================== *)

(** The inclusion rule for a material: its bundle is absent or empty, or
    its bundle name is a member of the active bundles. *)
Definition bundle_empty_or_active (active_bundles : list pyval)
                                  (material : MaterialItem.t) : Prop :=
  MaterialItem.bundle material = None
  ∨ MaterialItem.bundle material = Some ""
  ∨ ∃ bundle, MaterialItem.bundle material = Some bundle ∧ VStr bundle ∈ active_bundles.

(** The sum of [total_cost or 0.0] over materials, from [0.0], in order. *)
Definition sum_material_costs (materials : list MaterialItem.t) : float :=
  fold_left (fun acc m => (acc + py_or_float (MaterialItem.total_cost m) 0)%float)
            materials 0%float.

(** The sum of [total_cost or 0.0] over labor items, from [0.0], in order. *)
Definition sum_labor_costs (labor_items : list LaborItem.t) : float :=
  fold_left (fun acc l => (acc + py_or_float (LaborItem.total_cost l) 0)%float)
            labor_items 0%float.

(** The rate table: exterior 15, utility 25, anything else 20, matched
    without regard to case. *)
Definition rate_for_category (category : string) : float :=
  if String.eqb (lower category) "exterior" then 15%float
  else if String.eqb (lower category) "utility" then 25%float
  else 20%float.

(** The float a decoded number stands for, when it has one. *)
Definition number_value (v : pyval) : option float :=
  match v with
  | VFloat f => Some f
  | VInt z => if is_infinity (float_of_Z z) then None else Some (float_of_Z z)
  | VBool b => Some (if b then 1 else 0)%float
  | _ => None
  end.

(** An area record that reads as [area_ft2] square feet of [category]: a
    dict whose ['area_ft2'] (0 when absent) is that number and whose
    ['category'] (['Interior'] when absent) is that string. *)
Definition area_record_reads (area : pyval) (area_ft2 : float) (category : string) : Prop :=
  ∃ d, area = VDict d
       ∧ number_value (default (VInt 0) (d !! "area_ft2")) = Some area_ft2
       ∧ default (VStr "Interior") (d !! "category") = VStr category.

(** The sum of area * rate over (area, category) pairs, from [acc], in order. *)
Definition sum_area_costs (records : list (float * string)) (acc : float) : float :=
  fold_left (fun acc r => (acc + r.1 * rate_for_category r.2)%float) records acc.

(** The key of an area record in the report: its ['room'], or
    ['Unknown']. *)
Definition room_key (area : pyval) : pyval :=
  match area with
  | VDict d => default (VStr "Unknown") (d !! "room")
  | _ => VNone
  end.

(** [k] hundredths is a nearest multiple of a hundredth to [m * 2^e]:
    [|100 * m * 2^e - k| <= 1/2], written without fractions. *)
Definition nearest_hundredth (m : positive) (e : Z) (k : Z) : Prop :=
  if 0 <=? e then k = 100 * Z.pos m * 2 ^ e
  else 2 * Z.abs (100 * Z.pos m - k * 2 ^ (- e)) ≤ 2 ^ (- e).

(** An area record the report can price: a dict whose category, when
    present, is a string, whose area, when present, is a number that has
    a float value ([number_value]: a float, a bool, or an int that
    converts to a float without overflow), and whose room, when present,
    is hashable. *)
Definition area_record_ok (area : pyval) : Prop :=
  ∃ d, area = VDict d
       ∧ (∃ c, default (VStr "Interior") (d !! "category") = VStr c)
       ∧ is_Some (number_value (default (VInt 0) (d !! "area_ft2")))
       ∧ py_hashable (default (VStr "Unknown") (d !! "room")) = true.

(** The report entry of one area record. *)
Definition area_entry (area : pyval) : result AreaEntry.t :=
  match area with
  | VDict d =>
      let area_ft2 := default (VInt 0) (d !! "area_ft2") in
      let category := default (VStr "Interior") (d !! "category") in
      c ← py_lower category;
      area_cost ← py_mul_float area_ft2 (psf_rate_of c);
      Ok (AreaEntry.mk area_ft2 (psf_rate_of c) area_cost category)
  | _ => Raise (AttributeError area "get")
  end.

(** The items of the [area_costs] dict under the room name [room]. *)
Definition entries_at (area_costs : list (pyval * AreaEntry.t)) (room : string)
  : list (pyval * AreaEntry.t) :=
  List.filter (fun kv => py_key_eqb kv.1 (VStr room)) area_costs.

(** The sum of the entries' costs, from [acc], in order. *)
Definition sum_entry_costs (entries : list AreaEntry.t) (acc : float) : float :=
  fold_left (fun acc entry => (acc + AreaEntry.total_cost entry)%float) entries acc.

(* ===================================================================== *)
(** ** Sample data: the end-to-end scenario of the specification *)
(* ===================================================================== *)

Module Sample.
Definition material (bundle : option string) (total_cost : option float)
  : MaterialItem.t :=
  MaterialItem.mk 1 7 "item" (Some "ea") None None total_cost bundle None.

Definition labor (total_cost : option float) : LaborItem.t :=
  LaborItem.mk 1 7 "task" None None total_cost None.

Definition area (room category : pyval) (area_ft2 : pyval) : pyval :=
  VDict (<["room" := room]> (<["category" := category]> (<["area_ft2" := area_ft2]> ∅))).

Definition estimate (areas : pyval) (active_bundles : list pyval)
                    (profit contingency : option float) : Estimate.t :=
  Estimate.mk 7 "Sample" (Some areas) (Some active_bundles) profit contingency
              (Some 0%float) (Some 0%float) (Some 0%float) (Some 0%float).

(** One material in bundle Kitchen (500), one without bundle (200), one
    labor item (300); a material of another estimate is never read. *)
Definition db : Db :=
  mkDb [material (Some "Kitchen") (Some 500%float);
        MaterialItem.mk 2 8 "other" None None None (Some 9999%float) None None;
        material None (Some 200%float)]
       [labor (Some 300%float)].

Definition interior50 : pyval := area (VStr "Living") (VStr "Interior") (VFloat 50).

(** Kitchen active, default percentages: 2000 / 300 / 230 / 2530. *)
Definition kitchen_on : Estimate.t :=
  estimate (VList [interior50]) [VStr "Kitchen"] None None.

(** Kitchen toggled off: 1500 / 225 / 172.5 / 1897.5. *)
Definition kitchen_off : Estimate.t :=
  estimate (VList [interior50]) [] (Some 15%float) (Some 10%float).

(** No area record, Kitchen active, 15% and 10%: the subtotal is 1000. *)
Definition thousand : Estimate.t :=
  estimate (VList []) [VStr "Kitchen"] (Some 15%float) (Some 10%float).

(** One record of 100 square feet, category in mixed case. *)
Definition exterior100 : Estimate.t :=
  estimate (VList [area (VStr "Patio") (VStr "ExTeRiOr") (VInt 100)]) [] None None.

(** As [thousand], with the profit percentage set to 0. *)
Definition zero_profit : Estimate.t :=
  estimate (VList []) [VStr "Kitchen"] (Some 0%float) (Some 10%float).

(** As [thousand], with both percentages set to 0. *)
Definition zero_percentages : Estimate.t :=
  estimate (VList []) [VStr "Kitchen"] (Some 0%float) (Some 0%float).

(** A record whose area is an int beyond the range of a float. *)
Definition huge_area : Estimate.t :=
  estimate (VList [area (VStr "Hall") (VStr "Interior") (VInt (10 ^ 400))])
           [VStr "Kitchen"] None None.

(** A record whose category is the JSON [null]. *)
Definition null_category : Estimate.t :=
  estimate (VList [interior50; area (VStr "Hall") VNone (VFloat 50)])
           [VStr "Kitchen"] None None.

(** A record with none of the three keys. *)
Definition bare_record : Estimate.t :=
  estimate (VList [VDict ∅]) [VStr "Kitchen"] None None.

(** Costs with no exact binary form: 0.1 + 0.2 is not 0.3. *)
Definition fractions_db : Db :=
  mkDb [material None (Some 0.1%float); material None (Some 0.2%float)] [].

Definition fractions : Estimate.t := estimate (VList []) [] None None.

(** Two records with the same room name. *)
Definition shared_room : Estimate.t :=
  estimate (VList [interior50; area (VStr "Living") (VStr "Exterior") (VInt 100)])
           [VStr "Kitchen"] None None.
End Sample.

(* ===================================================================== *)
(** ** Reading the report *)
(* ===================================================================== *)

(** [d.get(k)] on a grouping of the report. *)
Fixpoint group_get {V : Type} (d : list (string * list V)) (k : string)
  : option (list V) :=
  match d with
  | [] => None
  | (k', xs) :: rest => if String.eqb k' k then Some xs else group_get rest k
  end.

(** Lines 97 and 101-107: the group and the entry of a material. *)
Definition material_label (material : MaterialItem.t) : string :=
  py_or_str (MaterialItem.bundle material) "Miscellaneous".

Definition material_entry (material : MaterialItem.t) : MaterialEntry.t :=
  MaterialEntry.mk (MaterialItem.name material) (MaterialItem.quantity material)
                   (MaterialItem.unit material) (MaterialItem.unit_cost material)
                   (MaterialItem.total_cost material).

(** Lines 113 and 117-122: the group and the entry of a labor item. *)
Definition labor_label (labor : LaborItem.t) : string :=
  py_or_str (LaborItem.category labor) "General Labor".

Definition labor_entry (labor : LaborItem.t) : LaborEntry.t :=
  LaborEntry.mk (LaborItem.task labor) (LaborItem.hours labor)
                (LaborItem.hourly_rate labor) (LaborItem.total_cost labor).

(** What a grouping holds under [k] when [items] were appended in order:
    nothing when none of them has the label. *)
Definition grouped {A V : Type} (label : A → string) (entry : A → V)
                   (items : list A) (k : string) : option (list V) :=
  match List.filter (fun x => String.eqb (label x) k) items with
  | [] => None
  | x :: xs => Some (entry <$> (x :: xs))
  end.

(** The running sum of line 29 is an int or a float. *)
Definition is_number_acc (acc : pyval) : Prop :=
  match acc with VInt _ | VFloat _ => True | _ => False end.

(** The four fields of the report that are copied from the estimate. *)
Definition copied_totals (t : Totals.t)
  : option float * option float * option float * option float :=
  (Totals.subtotal t, Totals.profit t, Totals.contingency t, Totals.grand_total t).

(** Lines 97-107 and 117-122 as one append per row. *)
Definition append_material (d : list (string * list MaterialEntry.t))
                           (material : MaterialItem.t) :=
  group_append d (material_label material) (material_entry material).

Definition append_labor (d : list (string * list LaborEntry.t)) (labor : LaborItem.t) :=
  group_append d (labor_label labor) (labor_entry labor).

Module Overflow.
(** Two int areas of 2^1023 square feet, then a float: each int has a
    float, their sum has none. *)
Definition areas : pyval :=
  VList [Sample.area (VStr "A") (VStr "Interior") (VInt (2 ^ 1023));
         Sample.area (VStr "B") (VStr "Interior") (VInt (2 ^ 1023));
         Sample.area (VStr "C") (VStr "Interior") (VFloat 1.5)].

Definition estimate : Estimate.t := Sample.estimate areas [] None None.
End Overflow.

(* ===================================================================== *)
(** ** The session and the store ([auth.py], [routes.py]) *)
(* ===================================================================== *)

(** [bool(v)] *)
Definition py_truthy (v : pyval) : bool :=
  match v with
  | VNone => false
  | VBool b => b
  | VInt z => negb (z =? 0)
  | VFloat f => float_truthy f
  | VStr s => negb (String.eqb s "")
  | VList l => match l with [] => false | _ => true end
  | VDict d => match map_to_list d with [] => false | _ => true end
  end.

(** What a view returns: [redirect(url_for(endpoint, estimate_id=...))] or
    [render_template(name)]. *)
Inductive response :=
| Redirect (endpoint : string) (estimate_id : option Z)
| RenderTemplate (name : string).

(** The state a request works on: the Flask session, the flashed
    messages (message and category, in order; Flask keeps them in the
    session under a key the views never read), and the committed rows:
    the estimates by primary key, and the two tables of the engine.  A
    view that raises has committed nothing: the store it leaves is the one
    it found. *)
Record Web := mkWeb {
  session : gmap string pyval;
  flashes : list (string * string);
  estimates : gmap Z Estimate.t;
  tables : Db
}.

(** [flash(message, category)] *)
Definition flash (message category : string) (w : Web) : Web :=
  mkWeb (session w) (flashes w ++ [(message, category)])%list (estimates w) (tables w).

Definition set_session (s : gmap string pyval) (w : Web) : Web :=
  mkWeb s (flashes w) (estimates w) (tables w).

(** [db.session.commit()] with one estimate changed or added. *)
Definition commit_estimate (estimate : Estimate.t) (w : Web) : Web :=
  mkWeb (session w) (flashes w) (<[Estimate.id estimate := estimate]> (estimates w))
        (tables w).

Definition NotFound : pyexc :=
  PyExc "NotFound"
        "404 Not Found: The requested URL was not found on the server. If you entered the URL manually please check your spelling and try again.".

(** [Estimate.query.get_or_404(estimate_id)] *)
Definition get_or_404 (estimate_id : Z) (w : Web) : result Estimate.t :=
  match estimates w !! estimate_id with
  | Some estimate => Ok estimate
  | None => Raise NotFound
  end.

(** [auth.py], lines 5-7: [session.get('authenticated', False)] *)
Definition is_authenticated (w : Web) : pyval :=
  default (VBool false) (session w !! "authenticated").

(** [auth.py], lines 9-17. *)
Definition login_required (view : Web → Web * result response) (w : Web)
  : Web * result response :=
  if negb (py_truthy (is_authenticated w)) then
    (flash "Please log in to access this page." "error" w, Ok (Redirect "login" None))
  else view w.

(** [routes.py], lines 17-19, run by Flask before every view:
    [session.permanent = True] stores [True] under ['_permanent']. *)
Definition make_session_permanent (w : Web) : Web :=
  set_session (<["_permanent" := VBool true]> (session w)) w.

(** [routes.py], lines 31-45.  [environ] is [os.environ]; [form] is
    [request.form], whose values are strings. *)
Definition login (method : string) (form environ : gmap string string) (w : Web)
  : Web * result response :=
  if String.eqb method "POST" then
    let password := form !! "password" in
    let admin_password := default "admin123" (environ !! "ADMIN_PASSWORD") in
    if match password with
       | Some p => String.eqb p admin_password
       | None => false
       end
    then
      let w := set_session (<["authenticated" := VBool true]> (session w)) w in
      let w := set_session (<["_permanent" := VBool true]> (session w)) w in
      (flash "Successfully logged in!" "success" w, Ok (Redirect "index" None))
    else
      (flash "Invalid password. Please try again." "error" w,
       Ok (RenderTemplate "login.html"))
  else (w, Ok (RenderTemplate "login.html")).

(** [routes.py], lines 47-51: [session.pop('authenticated', None)]. *)
Definition logout (w : Web) : Web * result response :=
  let w := set_session (delete "authenticated" (session w)) w in
  (flash "Successfully logged out!" "success" w, Ok (Redirect "login" None)).

(* ===================================================================== *)
(** ** Toggling a bundle ([routes.py], lines 188-206) *)
(* ===================================================================== *)

(** [request.form.get('bundle_name')]: a str, or [None] when the field is
    missing. *)
Definition form_value (name : option string) : pyval :=
  match name with
  | Some s => VStr s
  | None => VNone
  end.

(** [x == name] for an element [x] of the list: a str is equal to the
    same str, [None] to [None], and to nothing else. *)
Definition name_eqb (name : option string) (x : pyval) : bool :=
  match name, x with
  | Some s, VStr t => String.eqb t s
  | None, VNone => true
  | _, _ => false
  end.

(** [bundle_name in active_bundles] *)
Definition py_name_in (name : option string) (active_bundles : list pyval) : bool :=
  existsb (name_eqb name) active_bundles.

(** [active_bundles.remove(bundle_name)]: the first equal element goes.
    (It raises when there is none; line 196 has checked.) *)
Fixpoint py_list_remove (name : option string) (l : list pyval) : list pyval :=
  match l with
  | [] => []
  | x :: rest => if name_eqb name x then rest else x :: py_list_remove name rest
  end.

(** Lines 196-199. *)
Definition toggled (name : option string) (active_bundles : list pyval) : list pyval :=
  if py_name_in name active_bundles then py_list_remove name active_bundles
  else (active_bundles ++ [form_value name])%list.

(** [estimate.set_active_bundles(bundles)] ([models.py], lines 72-73): the
    text of a list is never empty. *)
Definition set_active_bundles (bundles : list pyval) (self : Estimate.t) : Estimate.t :=
  Estimate.mk (Estimate.id self) (Estimate.name self) (Estimate.areas_json self)
    (Some bundles)
    (Estimate.profit_percentage self) (Estimate.contingency_percentage self)
    (Estimate.subtotal self) (Estimate.profit_amount self)
    (Estimate.contingency_amount self) (Estimate.grand_total self).

(** The view under its decorator. *)
Definition toggle_bundle_view (estimate_id : Z) (form : gmap string string) (w : Web)
  : Web * result response :=
  match get_or_404 estimate_id w with
  | Raise e => (w, Raise e)
  | Ok estimate =>
      let bundle_name := form !! "bundle_name" in
      let active_bundles := Estimate.get_active_bundles estimate in
      let active_bundles := toggled bundle_name active_bundles in
      let estimate := set_active_bundles active_bundles estimate in
      match calculate_estimate_totals (tables w) estimate with
      | (_, Raise e) => (w, Raise e)
      | (estimate, Ok _) =>
          (commit_estimate estimate w, Ok (Redirect "view_estimate" (Some estimate_id)))
      end
  end.

Definition toggle_bundle (estimate_id : Z) (form : gmap string string) (w : Web)
  : Web * result response :=
  login_required (toggle_bundle_view estimate_id form) w.

(* ===================================================================== *)
(** ** Updating the settings ([routes.py], lines 208-227) *)
(* ===================================================================== *)

(** Lines 217-218: [max(0, min(100, x))].  [min] keeps 100 unless
    [x < 100], [max] keeps 0 unless the other is [> 0]; the ints 0 and 100
    are held as floats (see [Estimate.t]). *)
Definition clamp_percentage (x : float) : float :=
  let m := if (x <? 100)%float then x else 100%float in
  if (0 <? m)%float then m else 0%float.

(** Lines 214-215: [float(request.form.get(key, fallback))].  [py_float]
    is [float] on strings, [None] being a [ValueError]; a missing field
    is the int [fallback], whose float needs no parsing. *)
Definition form_float (py_float : string → option float) (form : gmap string string)
                      (key : string) (fallback : float) : option float :=
  match form !! key with
  | Some text => py_float text
  | None => Some fallback
  end.

Definition set_percentages (profit contingency : float) (self : Estimate.t) : Estimate.t :=
  Estimate.mk (Estimate.id self) (Estimate.name self) (Estimate.areas_json self)
    (Estimate.active_bundles_json self)
    (Some profit) (Some contingency)
    (Estimate.subtotal self) (Estimate.profit_amount self)
    (Estimate.contingency_amount self) (Estimate.grand_total self).

Definition update_estimate_settings_view (py_float : string → option float)
    (estimate_id : Z) (form : gmap string string) (w : Web) : Web * result response :=
  match get_or_404 estimate_id w with
  | Raise e => (w, Raise e)
  | Ok estimate =>
      match form_float py_float form "profit_percentage" 15,
            form_float py_float form "contingency_percentage" 10 with
      | Some profit_percentage, Some contingency_percentage =>
          let estimate :=
            set_percentages (clamp_percentage profit_percentage)
                            (clamp_percentage contingency_percentage) estimate in
          match calculate_estimate_totals (tables w) estimate with
          | (_, Raise e) => (w, Raise e)
          | (estimate, Ok _) =>
              (flash "Settings updated successfully!" "success"
                     (commit_estimate estimate w),
               Ok (Redirect "view_estimate" (Some estimate_id)))
          end
      | _, _ =>
          (flash "Invalid percentage values. Please enter numbers only." "error" w,
           Ok (Redirect "view_estimate" (Some estimate_id)))
      end
  end.

Definition update_estimate_settings (py_float : string → option float)
    (estimate_id : Z) (form : gmap string string) (w : Web) : Web * result response :=
  login_required (update_estimate_settings_view py_float estimate_id form) w.

(** How often [name] stands in the list. *)
Definition occurrences (name : option string) (l : list pyval) : nat :=
  length (List.filter (name_eqb name) l).

(* ===================================================================== *)
(** ** Duplicating an estimate ([routes.py], lines 254-304) *)
(* ===================================================================== *)

(** Lines 260-272: the new row once flushed.  [new_id] is the primary key
    the database gives it; a column for which no value (or [None]) was
    given holds its default: 15.0 and 10.0 for the percentages, 0.0 for
    the four computed fields. *)
Definition duplicate_row (new_id : Z) (original : Estimate.t) : Estimate.t :=
  Estimate.mk new_id (Estimate.name original ++ " (Copy)")
    (Estimate.areas_json original) (Estimate.active_bundles_json original)
    (Some (default 15%float (Estimate.profit_percentage original)))
    (Some (default 10%float (Estimate.contingency_percentage original)))
    (Some 0%float) (Some 0%float) (Some 0%float) (Some 0%float).

(** Lines 275-286: the copies of the materials; [row_id i] is the primary
    key the database gives the [i]-th of them. *)
Fixpoint copy_materials (duplicate_id : Z) (row_id : nat → Z) (i : nat)
                        (materials : list MaterialItem.t) : list MaterialItem.t :=
  match materials with
  | [] => []
  | material :: rest =>
      MaterialItem.mk (row_id i) duplicate_id
        (MaterialItem.name material) (MaterialItem.unit material)
        (MaterialItem.unit_cost material) (MaterialItem.quantity material)
        (MaterialItem.total_cost material) (MaterialItem.bundle material)
        (MaterialItem.category material)
      :: copy_materials duplicate_id row_id (S i) rest
  end.

(** Lines 289-298: the copies of the labor items. *)
Fixpoint copy_labor (duplicate_id : Z) (row_id : nat → Z) (i : nat)
                    (labor_items : list LaborItem.t) : list LaborItem.t :=
  match labor_items with
  | [] => []
  | labor :: rest =>
      LaborItem.mk (row_id i) duplicate_id
        (LaborItem.task labor) (LaborItem.hours labor) (LaborItem.hourly_rate labor)
        (LaborItem.total_cost labor) (LaborItem.category labor)
      :: copy_labor duplicate_id row_id (S i) rest
  end.

(** The tables as the queries of line 300 see them: the pending copies are
    flushed before a query runs. *)
Definition tables_with_copies (new_id : Z) (material_id labor_id : nat → Z)
                              (original : Estimate.t) (db : Db) : Db :=
  mkDb (material_items db
        ++ copy_materials new_id material_id 0 (query_materials db (Estimate.id original)))
       (labor_items db
        ++ copy_labor new_id labor_id 0 (query_labor db (Estimate.id original))).

Definition duplicate_estimate_view (new_id : Z) (material_id labor_id : nat → Z)
    (estimate_id : Z) (w : Web) : Web * result response :=
  match get_or_404 estimate_id w with
  | Raise e => (w, Raise e)
  | Ok original =>
      let duplicate := duplicate_row new_id original in
      let db := tables_with_copies new_id material_id labor_id original (tables w) in
      match calculate_estimate_totals db duplicate with
      | (_, Raise e) => (w, Raise e)
      | (duplicate, Ok _) =>
          (flash "Estimate duplicated successfully!" "success"
                 (mkWeb (session w) (flashes w)
                        (<[Estimate.id duplicate := duplicate]> (estimates w)) db),
           Ok (Redirect "view_estimate" (Some (Estimate.id duplicate))))
      end
  end.

Definition duplicate_estimate (new_id : Z) (material_id labor_id : nat → Z)
    (estimate_id : Z) (w : Web) : Web * result response :=
  login_required (duplicate_estimate_view new_id material_id labor_id estimate_id) w.

(* ===================================================================== *)
(** ** Upload names ([utils.py], lines 7-17) *)
(* ===================================================================== *)

(** [s.endswith(suffix)]: some tail of [s] is [suffix]. *)
Fixpoint endswith (s suffix : string) : bool :=
  String.eqb s suffix
  || match s with
     | EmptyString => false
     | String _ rest => endswith rest suffix
     end.

(** [filename] is a str or [None]. *)
Definition allowed_file (filename : option string) (file_type : string) : bool :=
  if negb (str_truthy filename) then false
  else
    let name := default "" filename in
    if String.eqb file_type "pdf" then endswith (lower name) ".pdf"
    else if String.eqb file_type "csv" then endswith (lower name) ".csv"
    else false.

(* ===================================================================== *)
(** ** Sample requests *)
(* ===================================================================== *)

Module Site.
(** A logged-in session over a store holding [Sample.kitchen_on]. *)
Definition web : Web :=
  mkWeb {[ "authenticated" := VBool true ]} [] {[ 7 := Sample.kitchen_on ]} Sample.db.

(** The same store, nobody logged in. *)
Definition anonymous : Web := mkWeb ∅ [] {[ 7 := Sample.kitchen_on ]} Sample.db.

Definition kitchen_form : gmap string string := {[ "bundle_name" := "Kitchen" ]}.

(** A profit percentage below zero and a contingency that is not a number. *)
Definition settings_form : gmap string string :=
  {[ "profit_percentage" := "-5"; "contingency_percentage" := "nan" ]}.

(** [float] on the few texts the sample forms hold. *)
Definition py_float (text : string) : option float :=
  if String.eqb text "0" then Some 0%float
  else if String.eqb text "-5" then Some (-5)%float
  else if String.eqb text "12.5" then Some 12.5%float
  else if String.eqb text "250" then Some 250%float
  else if String.eqb text "nan" then Some nan
  else None.
End Site.

(** An entry of [area_costs] that is priced: its key is hashable, its
    category is a string, its rate is the rate of that category, and its
    cost is its (numeric) area times its rate. *)
Definition priced_entry (item : pyval * AreaEntry.t) : Prop :=
  py_hashable item.1 = true
  ∧ ∃ a c,
      number_value (AreaEntry.area_ft2 item.2) = Some a
      ∧ AreaEntry.category item.2 = VStr c
      ∧ AreaEntry.psf_rate item.2 = rate_for_category c
      ∧ AreaEntry.total_cost item.2 = (a * AreaEntry.psf_rate item.2)%float.

(* ===================================================================== *)
(** ** The spend ledger ([openai_services.py], lines 22-42) *)
(* ===================================================================== *)

Module OpenAIUsage.
Record t := mk {
  id : Z;
  month : string;
  total_spent : option float
}.
End OpenAIUsage.

(** [OpenAIUsage.query.filter_by(month=current_month).first()] *)
Fixpoint usage_first (ledger : list OpenAIUsage.t) (current_month : string)
  : option OpenAIUsage.t :=
  match ledger with
  | [] => None
  | usage :: rest =>
      if String.eqb (OpenAIUsage.month usage) current_month then Some usage
      else usage_first rest current_month
  end.

Definition TypeError_compare (op a b : string) : pyexc :=
  PyExc "TypeError"
        ("'" ++ op ++ "' not supported between instances of '" ++ a ++ "' and '" ++ b ++ "'").

(** Lines 22-28.  [cap] is [OPENAI_SPEND_CAP] and [cap_text] its [str];
    [current_month] is the month of the clock. *)
Definition check_spend_limit (cap : float) (cap_text : string) (current_month : string)
                             (ledger : list OpenAIUsage.t) : result unit :=
  match usage_first ledger current_month with
  | None => Ok tt
  | Some usage =>
      match OpenAIUsage.total_spent usage with
      | None => Raise (TypeError_compare ">=" "NoneType" "float")
      | Some total_spent =>
          if (cap <=? total_spent)%float
          then Raise (PyExc "Exception"
                        ("Monthly OpenAI spend limit of $" ++ cap_text ++ " exceeded"))
          else Ok tt
      end
  end.

(** [usage.total_spent += estimated_cost] on the first row of the month. *)
Fixpoint add_to_first (ledger : list OpenAIUsage.t) (current_month : string)
                      (estimated_cost : float) : result (list OpenAIUsage.t) :=
  match ledger with
  | [] => Ok []
  | usage :: rest =>
      if String.eqb (OpenAIUsage.month usage) current_month then
        match OpenAIUsage.total_spent usage with
        | None => Raise (TypeError_operand "+=" "NoneType" "float")
        | Some total_spent =>
            Ok (OpenAIUsage.mk (OpenAIUsage.id usage) (OpenAIUsage.month usage)
                               (Some (total_spent + estimated_cost)%float) :: rest)
        end
      else
        rest' ← add_to_first rest current_month estimated_cost;
        Ok (usage :: rest')
  end.

(** Lines 30-42.  [new_id] is the primary key a new row gets; the ledger
    returned is the committed one. *)
Definition update_spend_tracking (new_id : Z) (current_month : string)
    (estimated_cost : float) (ledger : list OpenAIUsage.t)
  : result (list OpenAIUsage.t) :=
  match usage_first ledger current_month with
  | None =>
      Ok (ledger ++ [OpenAIUsage.mk new_id current_month
                                    (Some (0 + estimated_cost)%float)])%list
  | Some _ => add_to_first ledger current_month estimated_cost
  end.

(** The number of entries in all the groups of a grouping. *)
Definition group_size {V : Type} (d : list (string * list V)) : nat :=
  length (concat d.*2).

Module Forms.
(** A form whose profit percentage is a number and whose contingency is
    not. *)
Definition half_valid_form : gmap string string :=
  {[ "profit_percentage" := "12.5"; "contingency_percentage" := "ten" ]}.
End Forms.

(* ===================================================================== *)
(** ** Unfolding the monadic code *)
(* ===================================================================== *)

Lemma compute_locals_unfold (db : Db) (estimate : Estimate.t) :
  compute_locals db estimate = (estimate, locals_result db estimate).
Proof.
  unfold compute_locals, locals_result, mbind, M_bind, result_bind, read, lift, mret, M_ret.
  destruct (py_iter (Estimate.get_areas estimate)) as [area_list|x]; [|reflexivity].
  destruct (total_area_loop area_list (VInt 0)) as [total|x]; [|reflexivity].
  destruct (area_loop area_list 0%float) as [cost|x]; reflexivity.
Qed.

Lemma update_estimate_unfold (l : Locals.t) (estimate : Estimate.t) :
  update_estimate l estimate = (stored l estimate, Ok tt).
Proof. reflexivity. Qed.

Lemma calculate_body_unfold (db : Db) (estimate : Estimate.t) :
  calculate_body db estimate =
  match locals_result db estimate with
  | Ok l => (stored l estimate, Ok tt)
  | Raise x => (estimate, Raise x)
  end.
Proof.
  unfold calculate_body, mbind, M_bind.
  rewrite compute_locals_unfold.
  destruct (locals_result db estimate) as [l|x]; [|reflexivity].
  apply update_estimate_unfold.
Qed.

Lemma calculate_estimate_totals_unfold (db : Db) (estimate : Estimate.t) :
  calculate_estimate_totals db estimate =
  match locals_result db estimate with
  | Ok l => (stored l estimate, Ok tt)
  | Raise x => (estimate, Raise (calculate_failed x))
  end.
Proof.
  unfold calculate_estimate_totals, try_except.
  rewrite calculate_body_unfold.
  destruct (locals_result db estimate); reflexivity.
Qed.

Lemma locals_result_same_inputs (db : Db) (e1 e2 : Estimate.t) :
  same_inputs e1 e2 → locals_result db e1 = locals_result db e2.
Proof.
  intros (Hid & Ha & Hb & Hp & Hc).
  unfold locals_result, Estimate.get_areas, Estimate.get_active_bundles.
  rewrite Hid, Ha, Hb, Hp, Hc. reflexivity.
Qed.

Lemma stored_same_inputs (l : Locals.t) (estimate : Estimate.t) :
  same_inputs estimate (stored l estimate).
Proof. repeat split. Qed.

Lemma stored_stored (l : Locals.t) (estimate : Estimate.t) :
  stored l (stored l estimate) = stored l estimate.
Proof. reflexivity. Qed.

Lemma stored_computed (l : Locals.t) (estimate : Estimate.t) :
  Estimate.computed (stored l estimate) =
  (Some (py_round2 (Locals.subtotal l)), Some (py_round2 (Locals.profit_amount l)),
   Some (py_round2 (Locals.contingency_amount l)), Some (py_round2 (Locals.grand_total l))).
Proof. reflexivity. Qed.

(* ===================================================================== *)
(** ** Materials and labor *)
(* ===================================================================== *)

Lemma py_str_in_elem_of (bundle : string) (active_bundles : list pyval) :
  py_str_in bundle active_bundles = true ↔ VStr bundle ∈ active_bundles.
Proof.
  unfold py_str_in. rewrite existsb_exists. split.
  - intros (x & Hin & Hx). destruct x; try discriminate.
    apply String.eqb_eq in Hx. subst. by apply list_elem_of_In.
  - intros Hin. exists (VStr bundle). split; [by apply list_elem_of_In|].
    apply String.eqb_refl.
Qed.

Lemma material_included_spec (active_bundles : list pyval) (material : MaterialItem.t) :
  material_included active_bundles material = true
  ↔ bundle_empty_or_active active_bundles material.
Proof.
  unfold material_included, bundle_empty_or_active, str_truthy.
  destruct (MaterialItem.bundle material) as [b|]; simpl.
  - destruct (String.eqb_spec b "") as [->|Hne]; simpl.
    + split; [intros _; right; left; reflexivity | reflexivity].
    + rewrite py_str_in_elem_of. split.
      * intros Hin. right. right. by exists b.
      * intros [H|[H|(b' & H & Hin)]]; try congruence.
  - split; [intros _; by left | reflexivity].
Qed.

Lemma material_loop_filter (active_bundles : list pyval) (materials : list MaterialItem.t)
                           (acc : float) :
  material_loop active_bundles materials acc =
  fold_left (fun acc m => (acc + py_or_float (MaterialItem.total_cost m) 0)%float)
            (List.filter (material_included active_bundles) materials) acc.
Proof.
  revert acc. induction materials as [|m rest IH]; intros acc; simpl; [reflexivity|].
  destruct (material_included active_bundles m); simpl; apply IH.
Qed.

Lemma labor_loop_fold (labor_items : list LaborItem.t) (acc : float) :
  labor_loop labor_items acc =
  fold_left (fun acc l => (acc + py_or_float (LaborItem.total_cost l) 0)%float)
            labor_items acc.
Proof.
  revert acc. induction labor_items as [|l rest IH]; intros acc; simpl; [reflexivity|].
  apply IH.
Qed.

Lemma locals_result_material_total (db : Db) (estimate : Estimate.t) (l : Locals.t) :
  locals_result db estimate = Ok l →
  Locals.material_total l =
  material_loop (Estimate.get_active_bundles estimate)
                (query_materials db (Estimate.id estimate)) 0%float.
Proof.
  unfold locals_result, mbind, result_bind.
  destruct (py_iter _); [|discriminate].
  destruct (total_area_loop _ _); [|discriminate].
  destruct (area_loop _ _); [|discriminate].
  intros [= <-]. reflexivity.
Qed.

(** C1: the material total of [calculate_estimate_totals] is the sum of
    [total_cost or 0.0] over exactly the materials whose bundle is absent
    or empty or is a member of the active bundles; a material without
    bundle is counted even when no bundle is active, and one whose
    non-empty bundle is not active is left out. *)
Theorem material_total_inclusion (db : Db) (estimate st : Estimate.t) (l : Locals.t) :
  compute_locals db estimate = (st, Ok l) →
  let active_bundles := Estimate.get_active_bundles estimate in
  let materials := query_materials db (Estimate.id estimate) in
  Locals.material_total l =
    sum_material_costs (List.filter (material_included active_bundles) materials)
  ∧ (∀ m, material_included active_bundles m = true
          ↔ bundle_empty_or_active active_bundles m)
  ∧ (∀ m, MaterialItem.bundle m = None ∨ MaterialItem.bundle m = Some "" →
          material_included [] m = true)
  ∧ (∀ m bundle, MaterialItem.bundle m = Some bundle → bundle ≠ "" →
          VStr bundle ∉ active_bundles → material_included active_bundles m = false).
Proof.
  rewrite compute_locals_unfold. intros [= _ Hl]. cbv zeta.
  split; [|split; [|split]].
  - rewrite (locals_result_material_total _ _ _ Hl). apply material_loop_filter.
  - intros m. apply material_included_spec.
  - intros m Hm. apply material_included_spec.
    destruct Hm as [Hm|Hm]; [by left | by right; left].
  - intros m b Hb Hne Hnotin.
    apply not_true_is_false. rewrite material_included_spec.
    intros [H|[H|(b' & H & Hin)]]; congruence.
Qed.

Lemma material_total_inclusion_witness :
  compute_locals Sample.db Sample.kitchen_on
  = (Sample.kitchen_on,
     Ok (Locals.mk 700 300 1000 2000 300 230 2530))
  ∧ Locals.material_total (Locals.mk 700 300 1000 2000 300 230 2530) =
    sum_material_costs
      (List.filter (material_included (Estimate.get_active_bundles Sample.kitchen_on))
                   (query_materials Sample.db (Estimate.id Sample.kitchen_on))).
Proof.
  assert (H : compute_locals Sample.db Sample.kitchen_on
              = (Sample.kitchen_on, Ok (Locals.mk 700 300 1000 2000 300 230 2530)))
    by (vm_compute; reflexivity).
  split; [exact H|].
  exact (proj1 (material_total_inclusion _ _ _ _ H)).
Defined.

(* ===================================================================== *)
(** ** The layers: subtotal, profit, contingency, grand total *)
(* ===================================================================== *)

(** The locals, once the area cost is known. *)
Lemma locals_result_Ok (db : Db) (estimate : Estimate.t) (l : Locals.t) :
  locals_result db estimate = Ok l →
  ∃ area_list total_area,
    py_iter (Estimate.get_areas estimate) = Ok area_list
    ∧ total_area_loop area_list (VInt 0) = Ok total_area
    ∧ area_loop area_list 0%float = Ok (Locals.area_cost l)
    ∧ Locals.material_total l =
        material_loop (Estimate.get_active_bundles estimate)
                      (query_materials db (Estimate.id estimate)) 0%float
    ∧ Locals.labor_total l = labor_loop (query_labor db (Estimate.id estimate)) 0%float
    ∧ Locals.subtotal l =
        (Locals.material_total l + Locals.labor_total l + Locals.area_cost l)%float
    ∧ Locals.profit_amount l =
        (Locals.subtotal l
         * (py_or_float (Estimate.profit_percentage estimate) 15 / 100))%float
    ∧ Locals.contingency_amount l =
        ((Locals.subtotal l + Locals.profit_amount l)
         * (py_or_float (Estimate.contingency_percentage estimate) 10 / 100))%float
    ∧ Locals.grand_total l =
        (Locals.subtotal l + Locals.profit_amount l + Locals.contingency_amount l)%float.
Proof.
  unfold locals_result, mbind, result_bind.
  destruct (py_iter _) as [area_list|]; [|discriminate].
  destruct (total_area_loop _ _) as [total_area|] eqn:Ht; [|discriminate].
  destruct (area_loop _ _) as [cost|] eqn:Ha; [|discriminate].
  intros [= <-]. exists area_list, total_area. simpl. repeat split; assumption.
Qed.

Lemma calculate_Ok (db : Db) (estimate estimate' : Estimate.t) (u : unit) :
  calculate_estimate_totals db estimate = (estimate', Ok u) →
  ∃ l, locals_result db estimate = Ok l ∧ estimate' = stored l estimate.
Proof.
  rewrite calculate_estimate_totals_unfold.
  destruct (locals_result db estimate) as [l|x]; [|discriminate].
  intros [= <-]. by exists l.
Qed.

Lemma py_or_float_truthy (p d : float) :
  float_truthy p = true → py_or_float (Some p) d = p.
Proof. intros H. unfold py_or_float. by rewrite H. Qed.

(** The layers of lines 48-59 on every returning call: the labor total is
    the sum over all labor items, the subtotal is material total + labor
    total + area cost, the profit amount is subtotal * (profit % / 100),
    the contingency amount is (subtotal + profit amount) * (contingency %
    / 100), the grand total is their sum, and the four fields hold these
    values rounded.  The percentages are the locals of lines 51 and 55:
    the estimate's own only when these are set and not zero.  A subtotal
    of 1000 with 15% and 10% stores 1000, 150, 115 and 1265. *)
Lemma layered_totals (db : Db) (estimate estimate' : Estimate.t) :
  calculate_estimate_totals db estimate = (estimate', Ok tt) →
  ∃ l,
    compute_locals db estimate = (estimate, Ok l)
    ∧ Locals.labor_total l = sum_labor_costs (query_labor db (Estimate.id estimate))
    ∧ Locals.subtotal l =
        (Locals.material_total l + Locals.labor_total l + Locals.area_cost l)%float
    ∧ Locals.profit_amount l =
        (Locals.subtotal l
         * (py_or_float (Estimate.profit_percentage estimate) 15 / 100))%float
    ∧ Locals.contingency_amount l =
        ((Locals.subtotal l + Locals.profit_amount l)
         * (py_or_float (Estimate.contingency_percentage estimate) 10 / 100))%float
    ∧ (∀ p, Estimate.profit_percentage estimate = Some p → float_truthy p = true →
            Locals.profit_amount l = (Locals.subtotal l * (p / 100))%float)
    ∧ (∀ c, Estimate.contingency_percentage estimate = Some c → float_truthy c = true →
            Locals.contingency_amount l =
              ((Locals.subtotal l + Locals.profit_amount l) * (c / 100))%float)
    ∧ Locals.grand_total l =
        (Locals.subtotal l + Locals.profit_amount l + Locals.contingency_amount l)%float
    ∧ Estimate.computed estimate' =
        (Some (py_round2 (Locals.subtotal l)), Some (py_round2 (Locals.profit_amount l)),
         Some (py_round2 (Locals.contingency_amount l)),
         Some (py_round2 (Locals.grand_total l)))
    ∧ (Locals.subtotal l = 1000%float →
       Estimate.profit_percentage estimate = Some 15%float →
       Estimate.contingency_percentage estimate = Some 10%float →
       Estimate.computed estimate' =
         (Some 1000%float, Some 150%float, Some 115%float, Some 1265%float)).
Proof.
  intros Hcalc. destruct (calculate_Ok _ _ _ _ Hcalc) as (l & Hl & ->).
  exists l. rewrite compute_locals_unfold, Hl.
  destruct (locals_result_Ok _ _ _ Hl)
    as (area_list & total_area & _ & _ & _ & _ & Hlab & Hsub & Hprofit & Hcont & Hgrand).
  split; [reflexivity|].
  split; [rewrite Hlab; apply labor_loop_fold|].
  split; [exact Hsub|].
  split; [exact Hprofit|].
  split; [exact Hcont|].
  split; [intros p Hp Ht; rewrite Hprofit, Hp, (py_or_float_truthy _ _ Ht); reflexivity|].
  split; [intros c Hc Ht; rewrite Hcont, Hc, (py_or_float_truthy _ _ Ht); reflexivity|].
  split; [exact Hgrand|].
  split; [apply stored_computed|].
  intros H1000 Hp Hc. rewrite stored_computed.
  rewrite Hgrand, Hcont, Hprofit, Hp, Hc, H1000.
  vm_compute. reflexivity.
Qed.

Lemma layered_totals_witness :
  calculate_estimate_totals Sample.db Sample.thousand
  = (stored (Locals.mk 700 300 0 1000 150 115 1265) Sample.thousand, Ok tt)
  ∧ Estimate.computed (stored (Locals.mk 700 300 0 1000 150 115 1265) Sample.thousand)
    = (Some 1000%float, Some 150%float, Some 115%float, Some 1265%float).
Proof.
  assert (H : calculate_estimate_totals Sample.db Sample.thousand
              = (stored (Locals.mk 700 300 0 1000 150 115 1265) Sample.thousand, Ok tt))
    by (vm_compute; reflexivity).
  split; [exact H|].
  destruct (layered_totals _ _ _ H) as (l & Hl & _ & _ & _ & _ & _ & _ & _ & _ & Hexample).
  vm_compute in Hl. injection Hl as <-.
  apply Hexample; reflexivity.
Defined.

(** The end-to-end scenario: Kitchen active, then toggled off. *)
Example scenario_kitchen_on :
  Estimate.computed (calculate_estimate_totals Sample.db Sample.kitchen_on).1
  = (Some 2000%float, Some 300%float, Some 230%float, Some 2530%float).
Proof. vm_compute. reflexivity. Qed.

Example scenario_kitchen_off :
  Estimate.computed (calculate_estimate_totals Sample.db Sample.kitchen_off).1
  = (Some 1500%float, Some 225%float, Some 172.5%float, Some 1897.5%float).
Proof. vm_compute. reflexivity. Qed.

(* ===================================================================== *)
(** ** Area costs *)
(* ===================================================================== *)

Lemma py_mul_float_number (v : pyval) (a rate : float) :
  number_value v = Some a → py_mul_float v rate = Ok (a * rate)%float.
Proof.
  destruct v as [|b|z|f|s|l|d]; simpl; try discriminate.
  - by intros [= <-].
  - unfold py_float_of_int. destruct (is_infinity (float_of_Z z)); [discriminate|].
    by intros [= <-].
  - by intros [= <-].
Qed.

Lemma psf_rate_of_lower (category : string) :
  psf_rate_of (lower category) = rate_for_category category.
Proof. reflexivity. Qed.

Lemma area_step_reads (area : pyval) (a : float) (category : string) (acc : float) :
  area_record_reads area a category →
  area_step area acc = Ok (acc + a * rate_for_category category)%float.
Proof.
  intros (d & -> & Ha & Hc). unfold area_step. simpl.
  rewrite Hc. simpl.
  rewrite psf_rate_of_lower, (py_mul_float_number _ _ _ Ha). reflexivity.
Qed.

Lemma area_loop_reads (areas : list pyval) (records : list (float * string)) (acc : float) :
  Forall2 (fun area r => area_record_reads area r.1 r.2) areas records →
  area_loop areas acc = Ok (sum_area_costs records acc).
Proof.
  intros H. revert acc. induction H as [|area r areas records Hr _ IH]; intros acc.
  - reflexivity.
  - simpl. rewrite (area_step_reads _ _ _ _ Hr). simpl. apply IH.
Qed.

Lemma rate_for_category_cases (category : string) :
  (lower category = "exterior" → rate_for_category category = 15%float)
  ∧ (lower category = "utility" → rate_for_category category = 25%float)
  ∧ (lower category ≠ "exterior" → lower category ≠ "utility" →
     rate_for_category category = 20%float).
Proof.
  unfold rate_for_category. repeat split.
  - by intros ->.
  - by intros ->.
  - intros H1 H2.
    destruct (String.eqb_spec (lower category) "exterior"); [done|].
    destruct (String.eqb_spec (lower category) "utility"); done.
Qed.

(** C3: the area cost of [calculate_estimate_totals] is the sum, over all
    area records, of the record's area times the rate of its category:
    15 for 'exterior', 25 for 'utility', 20 for anything else, compared
    in lower case, an absent category being 'Interior'; no record costs 0;
    one record of 100 square feet costs 1500, 2500 or 2000. *)
Theorem area_cost_by_category (db : Db) (estimate st : Estimate.t) (l : Locals.t)
    (areas : list pyval) (records : list (float * string)) :
  compute_locals db estimate = (st, Ok l) →
  Estimate.get_areas estimate = VList areas →
  Forall2 (fun area r => area_record_reads area r.1 r.2) areas records →
  Locals.area_cost l = sum_area_costs records 0%float
  ∧ (records = [] → Locals.area_cost l = 0%float)
  ∧ (∀ category,
       (lower category = "exterior" → rate_for_category category = 15%float)
       ∧ (lower category = "utility" → rate_for_category category = 25%float)
       ∧ (lower category ≠ "exterior" → lower category ≠ "utility" →
          rate_for_category category = 20%float))
  ∧ rate_for_category "Interior" = 20%float
  ∧ (∀ d, d !! "category" = None → d !! "area_ft2" = Some (VFloat 100%float) →
          area_record_reads (VDict d) 100%float "Interior")
  ∧ (∀ category, records = [(100%float, category)] →
       (lower category = "exterior" → Locals.area_cost l = 1500%float)
       ∧ (lower category = "utility" → Locals.area_cost l = 2500%float)
       ∧ (lower category ≠ "exterior" → lower category ≠ "utility" →
          Locals.area_cost l = 2000%float)).
Proof.
  rewrite compute_locals_unfold. intros [= _ Hl] Hareas Hreads.
  destruct (locals_result_Ok _ _ _ Hl) as (area_list & total_area & Hiter & _ & Hloop & _).
  rewrite Hareas in Hiter. injection Hiter as <-.
  rewrite (area_loop_reads _ _ _ Hreads) in Hloop. injection Hloop as Hcost.
  split; [done|].
  split; [by intros ->|].
  split; [apply rate_for_category_cases|].
  split; [reflexivity|].
  split.
  { intros d Hc Ha. exists d. by rewrite Hc, Ha. }
  intros category ->. unfold sum_area_costs in Hcost. simpl in Hcost.
  destruct (rate_for_category_cases category) as (He & Hu & Hi).
  repeat split.
  - intros H. by rewrite <- Hcost, (He H).
  - intros H. by rewrite <- Hcost, (Hu H).
  - intros H1 H2. by rewrite <- Hcost, (Hi H1 H2).
Qed.

Lemma area_cost_by_category_witness :
  compute_locals Sample.db Sample.exterior100
  = (Sample.exterior100, Ok (Locals.mk 200 300 1500 2000 300 230 2530))
  ∧ lower "ExTeRiOr" = "exterior"
  ∧ Locals.area_cost (Locals.mk 200 300 1500 2000 300 230 2530) = 1500%float.
Proof.
  assert (H : compute_locals Sample.db Sample.exterior100
              = (Sample.exterior100, Ok (Locals.mk 200 300 1500 2000 300 230 2530)))
    by (vm_compute; reflexivity).
  assert (Hareas : Estimate.get_areas Sample.exterior100
                   = VList [Sample.area (VStr "Patio") (VStr "ExTeRiOr") (VInt 100)])
    by reflexivity.
  assert (Hreads : Forall2 (fun area r => area_record_reads area r.1 r.2)
                     [Sample.area (VStr "Patio") (VStr "ExTeRiOr") (VInt 100)]
                     [(100%float, "ExTeRiOr")]).
  { constructor; [|constructor]. eexists. split; [reflexivity|].
    split; vm_compute; reflexivity. }
  split; [exact H|]. split; [reflexivity|].
  destruct (area_cost_by_category _ _ _ _ _ _ H Hareas Hreads)
    as (_ & _ & _ & _ & _ & Hone).
  destruct (Hone "ExTeRiOr" eq_refl) as (Hexterior & _).
  apply Hexterior. reflexivity.
Defined.

(* ===================================================================== *)
(** ** The percentages *)
(* ===================================================================== *)

Lemma py_or_float_None (d : float) : py_or_float None d = d.
Proof. reflexivity. Qed.

Lemma py_or_float_zero (d : float) : py_or_float (Some 0%float) d = d.
Proof. reflexivity. Qed.

(** A percentage that is set and zero is replaced by the default, for every
    estimate: [0.0 or 15.0] is [15.0]. *)
Lemma zero_percentage_is_default (db : Db) (estimate : Estimate.t) (l : Locals.t) :
  locals_result db estimate = Ok l →
  (Estimate.profit_percentage estimate = Some 0%float →
   Locals.profit_amount l = (Locals.subtotal l * (15 / 100))%float)
  ∧ (Estimate.contingency_percentage estimate = Some 0%float →
     Locals.contingency_amount l =
       ((Locals.subtotal l + Locals.profit_amount l) * (10 / 100))%float).
Proof.
  intros Hl.
  destruct (locals_result_Ok _ _ _ Hl) as (_ & _ & _ & _ & _ & _ & _ & _ & Hp & Hc & _).
  split; intros H0; [rewrite Hp, H0 | rewrite Hc, H0]; reflexivity.
Qed.

(** C2: with the profit and the contingency percentage both set to 0 and
    a subtotal of 1000 (materials 700, labor 300, no area), the layers as
    the claim gives them are a profit amount of 1000 * (0 / 100) = 0, a
    contingency amount of (1000 + 0) * (0 / 100) = 0 and a grand total of
    1000; [calculate_estimate_totals] computes and stores 150, 115 and
    1265, the layers of the defaults 15% and 10%. *)
Theorem layers_at_zero_percentages_use_defaults :
  Estimate.profit_percentage Sample.zero_percentages = Some 0%float
  ∧ Estimate.contingency_percentage Sample.zero_percentages = Some 0%float
  ∧ compute_locals Sample.db Sample.zero_percentages
    = (Sample.zero_percentages, Ok (Locals.mk 700 300 0 1000 150 115 1265))
  ∧ calculate_estimate_totals Sample.db Sample.zero_percentages
    = (stored (Locals.mk 700 300 0 1000 150 115 1265) Sample.zero_percentages, Ok tt)
  ∧ Estimate.computed
      (stored (Locals.mk 700 300 0 1000 150 115 1265) Sample.zero_percentages)
    = (Some 1000%float, Some 150%float, Some 115%float, Some 1265%float)
  ∧ (1000 * (0 / 100))%float = 0%float
  ∧ ((1000 + 0) * (0 / 100))%float = 0%float
  ∧ (1000 + 0 + 0)%float = 1000%float.
Proof. vm_compute. repeat split. Qed.

(** C4: with the profit percentage set to 0 and a subtotal of 1000, the
    stored profit amount is 150 and the grand total 1265: the 15% default
    is charged. *)
Theorem zero_profit_percentage_charges_default :
  calculate_estimate_totals Sample.db Sample.zero_profit
  = (stored (Locals.mk 700 300 0 1000 150 115 1265) Sample.zero_profit, Ok tt)
  ∧ Estimate.profit_percentage Sample.zero_profit = Some 0%float
  ∧ Estimate.computed (stored (Locals.mk 700 300 0 1000 150 115 1265) Sample.zero_profit)
    = (Some 1000%float, Some 150%float, Some 115%float, Some 1265%float).
Proof. vm_compute. repeat split. Qed.

(* ===================================================================== *)
(** ** The report against the engine *)
(* ===================================================================== *)

Lemma breakdown_material_step_included (active_bundles : list pyval)
    (material : MaterialItem.t) (breakdown : Breakdown.t) :
  (material_included active_bundles material = false →
   breakdown_material_step active_bundles material breakdown = breakdown)
  ∧ (material_included active_bundles material = true →
     Breakdown.totals (breakdown_material_step active_bundles material breakdown)
     = Totals.add_materials (py_or_float (MaterialItem.total_cost material) 0)
                            (Breakdown.totals breakdown)).
Proof.
  unfold breakdown_material_step, material_included.
  split; intros ->; reflexivity.
Qed.

Lemma breakdown_material_loop_totals (active_bundles : list pyval)
    (materials : list MaterialItem.t) (breakdown : Breakdown.t) :
  let breakdown' := breakdown_material_loop active_bundles materials breakdown in
  Totals.materials (Breakdown.totals breakdown')
  = material_loop active_bundles materials (Totals.materials (Breakdown.totals breakdown))
  ∧ Totals.labor (Breakdown.totals breakdown') = Totals.labor (Breakdown.totals breakdown)
  ∧ Totals.area_costs (Breakdown.totals breakdown')
    = Totals.area_costs (Breakdown.totals breakdown).
Proof.
  revert breakdown. induction materials as [|m rest IH]; intros breakdown; simpl.
  - done.
  - destruct (IH (breakdown_material_step active_bundles m breakdown)) as (Hm & Hl & Ha).
    rewrite Hm, Hl, Ha.
    destruct (breakdown_material_step_included active_bundles m breakdown) as [Hout Hin].
    destruct (material_included active_bundles m).
    + by rewrite (Hin eq_refl).
    + by rewrite (Hout eq_refl).
Qed.

Lemma breakdown_labor_loop_totals (labor_items : list LaborItem.t)
    (breakdown : Breakdown.t) :
  let breakdown' := breakdown_labor_loop labor_items breakdown in
  Totals.materials (Breakdown.totals breakdown')
  = Totals.materials (Breakdown.totals breakdown)
  ∧ Totals.labor (Breakdown.totals breakdown')
    = labor_loop labor_items (Totals.labor (Breakdown.totals breakdown))
  ∧ Totals.area_costs (Breakdown.totals breakdown')
    = Totals.area_costs (Breakdown.totals breakdown).
Proof.
  revert breakdown. induction labor_items as [|x rest IH]; intros breakdown; simpl.
  - done.
  - destruct (IH (breakdown_labor_step x breakdown)) as (Hm & Hl & Ha).
    by rewrite Hm, Hl, Ha.
Qed.

Lemma breakdown_psf_rate_lower (category : pyval) :
  breakdown_psf_rate category = (c ← py_lower category; Ok (psf_rate_of c)).
Proof.
  unfold breakdown_psf_rate, psf_rate_of, mbind, result_bind.
  destruct (py_lower category) as [c|x]; [|reflexivity].
  destruct (String.eqb c "exterior"); [reflexivity|].
  destruct (String.eqb c "utility"); reflexivity.
Qed.

(** One turn of the report's loop, by cases on what the record holds. *)
Lemma breakdown_area_step_unfold (area : pyval) (breakdown : Breakdown.t) :
  breakdown_area_step area breakdown =
  match area with
  | VDict d =>
      let area_ft2 := default (VInt 0) (d !! "area_ft2") in
      let category := default (VStr "Interior") (d !! "category") in
      c ← py_lower category;
      area_cost ← py_mul_float area_ft2 (psf_rate_of c);
      if py_hashable (room_key area) then
        Ok (Breakdown.mk
              (Breakdown.materials breakdown) (Breakdown.labor breakdown)
              (dict_set (Breakdown.area_costs breakdown) (room_key area)
                        (AreaEntry.mk area_ft2 (psf_rate_of c) area_cost category))
              (Totals.add_area_costs area_cost (Breakdown.totals breakdown)))
      else Raise (TypeError_unhashable (room_key area))
  | _ => Raise (AttributeError area "get")
  end.
Proof.
  destruct area; try reflexivity.
  unfold breakdown_area_step. simpl.
  rewrite breakdown_psf_rate_lower.
  unfold mbind, result_bind.
  destruct (py_lower _); reflexivity.
Qed.

Lemma area_step_unfold (area : pyval) (acc : float) :
  area_step area acc =
  match area with
  | VDict d =>
      c ← py_lower (default (VStr "Interior") (d !! "category"));
      area_cost ← py_mul_float (default (VInt 0) (d !! "area_ft2")) (psf_rate_of c);
      Ok (acc + area_cost)%float
  | _ => Raise (AttributeError area "get")
  end.
Proof. destruct area; reflexivity. Qed.

Lemma breakdown_area_step_Ok (area : pyval) (breakdown breakdown' : Breakdown.t) :
  breakdown_area_step area breakdown = Ok breakdown' →
  area_step area (Totals.area_costs (Breakdown.totals breakdown))
  = Ok (Totals.area_costs (Breakdown.totals breakdown'))
  ∧ Totals.materials (Breakdown.totals breakdown')
    = Totals.materials (Breakdown.totals breakdown)
  ∧ Totals.labor (Breakdown.totals breakdown') = Totals.labor (Breakdown.totals breakdown).
Proof.
  rewrite breakdown_area_step_unfold, area_step_unfold.
  destruct area as [| | | | | |d]; try discriminate.
  unfold mbind, result_bind. cbv zeta.
  destruct (py_lower _) as [c|]; [|discriminate].
  destruct (py_mul_float _ _) as [cost|]; [|discriminate].
  destruct (py_hashable _); [|discriminate].
  intros [= <-]. done.
Qed.

Lemma breakdown_area_step_returns (area : pyval) (acc acc' : float)
    (breakdown : Breakdown.t) :
  area_step area acc = Ok acc' →
  py_hashable (room_key area) = true →
  ∃ breakdown', breakdown_area_step area breakdown = Ok breakdown'.
Proof.
  rewrite breakdown_area_step_unfold, area_step_unfold.
  destruct area as [| | | | | |d]; try discriminate.
  unfold mbind, result_bind. cbv zeta.
  destruct (py_lower _) as [c|]; [|discriminate].
  destruct (py_mul_float _ _) as [cost|]; [|discriminate].
  intros _ ->. eauto.
Qed.

Lemma breakdown_area_loop_Ok (areas : list pyval) (breakdown breakdown' : Breakdown.t) :
  breakdown_area_loop areas breakdown = Ok breakdown' →
  area_loop areas (Totals.area_costs (Breakdown.totals breakdown))
  = Ok (Totals.area_costs (Breakdown.totals breakdown'))
  ∧ Totals.materials (Breakdown.totals breakdown')
    = Totals.materials (Breakdown.totals breakdown)
  ∧ Totals.labor (Breakdown.totals breakdown') = Totals.labor (Breakdown.totals breakdown).
Proof.
  revert breakdown. induction areas as [|area rest IH]; intros breakdown; simpl.
  - by intros [= <-].
  - unfold mbind, result_bind.
    destruct (breakdown_area_step area breakdown) as [b1|] eqn:Hstep; [|discriminate].
    intros Hrest. destruct (breakdown_area_step_Ok _ _ _ Hstep) as (Ha & Hm & Hl).
    destruct (IH _ Hrest) as (Ha' & Hm' & Hl').
    rewrite Ha. by rewrite Ha', Hm', Hl', Hm, Hl.
Qed.

Lemma breakdown_area_loop_returns (areas : list pyval) (acc acc' : float)
    (breakdown : Breakdown.t) :
  area_loop areas acc = Ok acc' →
  Forall (fun area => py_hashable (room_key area) = true) areas →
  ∃ breakdown', breakdown_area_loop areas breakdown = Ok breakdown'.
Proof.
  intros Hloop Hrooms. revert acc breakdown Hloop.
  induction Hrooms as [|area rest Hroom _ IH]; intros acc breakdown; simpl.
  - eauto.
  - unfold mbind, result_bind.
    destruct (area_step area acc) as [acc1|] eqn:Hstep; [|discriminate].
    intros Hrest.
    destruct (breakdown_area_step_returns _ _ _ breakdown Hstep Hroom) as (b1 & ->).
    eapply IH, Hrest.
Qed.

(** C5: whenever [calculate_estimate_totals] gets as far as its totals,
    the report [get_cost_breakdown] builds from the same estimate and
    tables carries the same three totals (materials under the same
    inclusion rule, labor, area costs), and it does build one when every
    room is hashable. *)
Theorem breakdown_totals_agree (db : Db) (estimate st : Estimate.t) (l : Locals.t) :
  compute_locals db estimate = (st, Ok l) →
  (∀ breakdown, get_cost_breakdown db estimate = Ok breakdown →
     Totals.materials (Breakdown.totals breakdown) = Locals.material_total l
     ∧ Totals.labor (Breakdown.totals breakdown) = Locals.labor_total l
     ∧ Totals.area_costs (Breakdown.totals breakdown) = Locals.area_cost l)
  ∧ (∀ areas, py_iter (Estimate.get_areas estimate) = Ok areas →
       Forall (fun area => py_hashable (room_key area) = true) areas →
       ∃ breakdown, get_cost_breakdown db estimate = Ok breakdown)
  ∧ (∀ m breakdown,
       (material_included (Estimate.get_active_bundles estimate) m = false →
        breakdown_material_step (Estimate.get_active_bundles estimate) m breakdown
        = breakdown)
       ∧ (material_included (Estimate.get_active_bundles estimate) m = true →
          Breakdown.totals
            (breakdown_material_step (Estimate.get_active_bundles estimate) m breakdown)
          = Totals.add_materials (py_or_float (MaterialItem.total_cost m) 0)
                                 (Breakdown.totals breakdown))).
Proof.
  rewrite compute_locals_unfold. intros [= _ Hl].
  destruct (locals_result_Ok _ _ _ Hl)
    as (area_list & total_area & Hiter & _ & Hloop & Hmat & Hlab & _).
  pose proof (breakdown_material_loop_totals (Estimate.get_active_bundles estimate)
                (query_materials db (Estimate.id estimate)) (breakdown_init estimate))
    as (Hm1 & Hl1 & Ha1).
  pose proof (breakdown_labor_loop_totals (query_labor db (Estimate.id estimate))
                (breakdown_material_loop (Estimate.get_active_bundles estimate)
                   (query_materials db (Estimate.id estimate)) (breakdown_init estimate)))
    as (Hm2 & Hl2 & Ha2).
  cbv zeta in Hm1, Hl1, Ha1, Hm2, Hl2, Ha2.
  split; [|split].
  - intros breakdown. unfold get_cost_breakdown. cbv zeta.
    rewrite Hiter. unfold mbind, result_bind. intros Hb.
    destruct (breakdown_area_loop_Ok _ _ _ Hb) as (Ha3 & Hm3 & Hl3).
    rewrite Hm3, Hl3, Hm2, Hl2, Hm1, Hl1, Hmat, Hlab.
    rewrite Ha2, Ha1 in Ha3. simpl in Ha3. rewrite Hloop in Ha3.
    injection Ha3 as <-. done.
  - intros areas Hiter' Hrooms. rewrite Hiter in Hiter'. injection Hiter' as <-.
    unfold get_cost_breakdown. cbv zeta. rewrite Hiter. unfold mbind, result_bind.
    eapply breakdown_area_loop_returns; eassumption.
  - intros m breakdown. apply breakdown_material_step_included.
Qed.

Lemma breakdown_totals_agree_witness :
  compute_locals Sample.db Sample.kitchen_on
  = (Sample.kitchen_on, Ok (Locals.mk 700 300 1000 2000 300 230 2530))
  ∧ ∃ breakdown,
      get_cost_breakdown Sample.db Sample.kitchen_on = Ok breakdown
      ∧ Totals.materials (Breakdown.totals breakdown) = 700%float
      ∧ Totals.labor (Breakdown.totals breakdown) = 300%float
      ∧ Totals.area_costs (Breakdown.totals breakdown) = 1000%float.
Proof.
  assert (H : compute_locals Sample.db Sample.kitchen_on
              = (Sample.kitchen_on, Ok (Locals.mk 700 300 1000 2000 300 230 2530)))
    by (vm_compute; reflexivity).
  split; [exact H|].
  destruct (breakdown_totals_agree _ _ _ _ H) as (Hsame & Hreturns & _).
  destruct (Hreturns [Sample.interior50] eq_refl) as (breakdown & Hb).
  { constructor; [vm_compute; reflexivity | constructor]. }
  exists breakdown. split; [exact Hb|]. exact (Hsame _ Hb).
Defined.

(* ===================================================================== *)
(** ** Malformed area records in the report *)
(* ===================================================================== *)

(** C6, as stated, fails: a record whose category is the JSON [null]
    makes [get_cost_breakdown] raise. *)
Lemma breakdown_raises_on_null_category :
  get_cost_breakdown Sample.db Sample.null_category
  = Raise (PyExc "AttributeError" "'NoneType' object has no attribute 'lower'").
Proof. vm_compute. reflexivity. Qed.

(** An int area beyond the range of a float is a number the report cannot
    price: the product [area_ft2 * psf_rate] raises. *)
Lemma breakdown_raises_on_huge_area :
  number_value (VInt (10 ^ 400)) = None
  ∧ get_cost_breakdown Sample.db Sample.huge_area
    = Raise (PyExc "OverflowError" "int too large to convert to float").
Proof. vm_compute. split; reflexivity. Qed.

Lemma breakdown_area_step_ok (area : pyval) (breakdown : Breakdown.t) :
  area_record_ok area → ∃ breakdown', breakdown_area_step area breakdown = Ok breakdown'.
Proof.
  intros (d & -> & (c & Hc) & (a & Ha) & Hroom).
  rewrite breakdown_area_step_unfold. cbv zeta. simpl room_key.
  rewrite Hc. simpl. rewrite (py_mul_float_number _ _ _ Ha). simpl.
  rewrite Hroom. eauto.
Qed.

Lemma breakdown_area_loop_ok (areas : list pyval) (breakdown : Breakdown.t) :
  Forall area_record_ok areas →
  ∃ breakdown', breakdown_area_loop areas breakdown = Ok breakdown'.
Proof.
  intros H. revert breakdown. induction H as [|area rest Hok _ IH]; intros breakdown; simpl.
  - eauto.
  - destruct (breakdown_area_step_ok _ breakdown Hok) as (b1 & ->). simpl. apply IH.
Qed.

Lemma py_mul_float_number_value (v : pyval) (rate cost : float) :
  py_mul_float v rate = Ok cost → is_Some (number_value v).
Proof.
  destruct v as [|b|z|f|s|l|d]; simpl; try discriminate; eauto.
  unfold py_float_of_int. destruct (is_infinity (float_of_Z z)); [discriminate|eauto].
Qed.

(** Conversely, a record the report has priced is well formed. *)
Lemma breakdown_area_step_well_formed (area : pyval) (breakdown breakdown' : Breakdown.t) :
  breakdown_area_step area breakdown = Ok breakdown' → area_record_ok area.
Proof.
  rewrite breakdown_area_step_unfold.
  destruct area as [| | | | | |d]; try discriminate.
  cbv zeta. simpl room_key. unfold mbind, result_bind.
  destruct (default (VStr "Interior") (d !! "category")) as [| | | |s| |] eqn:Hc;
    try discriminate.
  simpl py_lower. cbv iota beta.
  destruct (py_mul_float _ _) as [cost|] eqn:Hmul; [|discriminate].
  destruct (py_hashable _) eqn:Hroom; [|discriminate].
  intros _. exists d. split; [reflexivity|].
  split; [by exists s|]. split; [|exact Hroom].
  exact (py_mul_float_number_value _ _ _ Hmul).
Qed.

Lemma breakdown_area_loop_well_formed (areas : list pyval) (breakdown breakdown' : Breakdown.t) :
  breakdown_area_loop areas breakdown = Ok breakdown' → Forall area_record_ok areas.
Proof.
  revert breakdown. induction areas as [|area rest IH]; intros breakdown; simpl.
  - constructor.
  - unfold mbind, result_bind.
    destruct (breakdown_area_step area breakdown) as [b1|] eqn:Hstep; [|discriminate].
    intros Hrest. constructor.
    + exact (breakdown_area_step_well_formed _ _ _ Hstep).
    + exact (IH _ Hrest).
Qed.

(** C6, amended: [get_cost_breakdown] returns a report exactly when every
    area record is a dict whose category is absent or a string, whose area
    is absent or a number with a float value (a float, a bool, or an int
    that converts to a float without overflow) and whose room is absent or
    hashable.  A record without category is priced as 'Interior' at 20, a
    record without area has area 0.  A category that is present and not a
    string raises AttributeError, and an int area that is too large for a
    float raises OverflowError. *)
Theorem breakdown_returns_on_well_formed (db : Db) (estimate : Estimate.t)
    (areas : list pyval) :
  py_iter (Estimate.get_areas estimate) = Ok areas →
  ((∃ breakdown, get_cost_breakdown db estimate = Ok breakdown)
   ↔ Forall area_record_ok areas)
  ∧ (∀ d b b', d !! "category" = None → breakdown_area_step (VDict d) b = Ok b' →
       ∃ cost,
         py_mul_float (default (VInt 0) (d !! "area_ft2")) 20%float = Ok cost
         ∧ Breakdown.area_costs b'
           = dict_set (Breakdown.area_costs b) (room_key (VDict d))
               (AreaEntry.mk (default (VInt 0) (d !! "area_ft2")) 20%float cost
                             (VStr "Interior")))
  ∧ (∀ d b b', d !! "area_ft2" = None → breakdown_area_step (VDict d) b = Ok b' →
       ∃ rate category,
         Breakdown.area_costs b'
         = dict_set (Breakdown.area_costs b) (room_key (VDict d))
             (AreaEntry.mk (VInt 0) rate (0 * rate)%float category))
  ∧ (∀ d v b, d !! "category" = Some v → (∀ s, v ≠ VStr s) →
       breakdown_area_step (VDict d) b = Raise (AttributeError v "lower"))
  ∧ (∀ d c z b, default (VStr "Interior") (d !! "category") = VStr c →
       d !! "area_ft2" = Some (VInt z) → number_value (VInt z) = None →
       breakdown_area_step (VDict d) b = Raise OverflowError_int).
Proof.
  intros Hiter. split; [|split; [|split; [|split]]].
  - unfold get_cost_breakdown. cbv zeta. rewrite Hiter. simpl. split.
    + intros (breakdown & Hb). exact (breakdown_area_loop_well_formed _ _ _ Hb).
    + apply breakdown_area_loop_ok.
  - intros d b b' Hc. rewrite breakdown_area_step_unfold. cbv zeta.
    rewrite Hc. simpl.
    change (psf_rate_of "interior") with 20%float.
    destruct (py_mul_float _ _) as [cost|]; [|discriminate]. simpl.
    destruct (py_hashable _); [|discriminate].
    intros [= <-]. by exists cost.
  - intros d b b' Ha. rewrite breakdown_area_step_unfold. cbv zeta.
    rewrite Ha. simpl.
    destruct (py_lower _) as [c|]; [|discriminate]. simpl.
    destruct (py_hashable _); [|discriminate].
    intros [= <-]. by eexists _, _.
  - intros d v b Hv Hnot. rewrite breakdown_area_step_unfold. cbv zeta.
    rewrite Hv. simpl. destruct v; try reflexivity. by destruct (Hnot s).
  - intros d c z b Hc Hz Hnone. rewrite breakdown_area_step_unfold. cbv zeta.
    rewrite Hc, Hz. simpl. unfold py_float_of_int.
    simpl in Hnone. destruct (is_infinity (float_of_Z z)); [reflexivity|discriminate].
Qed.

Lemma breakdown_returns_on_well_formed_witness :
  py_iter (Estimate.get_areas Sample.bare_record) = Ok [VDict ∅]
  ∧ Forall area_record_ok [VDict ∅]
  ∧ ∃ breakdown, get_cost_breakdown Sample.db Sample.bare_record = Ok breakdown.
Proof.
  assert (Hok : Forall area_record_ok [VDict ∅]).
  { constructor; [|constructor]. exists ∅. split; [reflexivity|].
    split; [by exists "Interior"|]. split; [|reflexivity].
    vm_compute. eauto. }
  split; [reflexivity|]. split; [exact Hok|].
  exact (proj2 (proj1 (breakdown_returns_on_well_formed Sample.db Sample.bare_record
                         [VDict ∅] eq_refl)) Hok).
Defined.

(* ===================================================================== *)
(** ** Failure of the engine *)
(* ===================================================================== *)

(** C7: when [calculate_estimate_totals] fails, the estimate is what it
    was before the call (its four computed fields with it), and the
    exception is an [Exception] whose message is "Failed to calculate
    estimate totals: " followed by the text of the exception raised in
    the body; when it returns, all four fields have been assigned. *)
Theorem failure_is_wrapped_and_atomic (db : Db) (estimate estimate' : Estimate.t)
    (r : result unit) :
  calculate_estimate_totals db estimate = (estimate', r) →
  match r with
  | Raise x =>
      estimate' = estimate
      ∧ Estimate.computed estimate' = Estimate.computed estimate
      ∧ ∃ cause, calculate_body db estimate = (estimate, Raise cause)
                 ∧ x = PyExc "Exception"
                         ("Failed to calculate estimate totals: " ++ py_str_exc cause)
  | Ok _ =>
      ∃ a b c d, Estimate.computed estimate' = (Some a, Some b, Some c, Some d)
                 ∧ calculate_body db estimate = (estimate', Ok tt)
  end.
Proof.
  rewrite calculate_estimate_totals_unfold, calculate_body_unfold.
  destruct (locals_result db estimate) as [l|cause].
  - intros [= <- <-]. rewrite stored_computed. by eexists _, _, _, _.
  - intros [= <- <-]. split; [reflexivity|]. split; [reflexivity|].
    by exists cause.
Qed.

Lemma failure_is_wrapped_and_atomic_witness :
  calculate_estimate_totals Sample.db Sample.null_category
  = (Sample.null_category,
     Raise (PyExc "Exception"
              "Failed to calculate estimate totals: 'NoneType' object has no attribute 'lower'"))
  ∧ ∃ cause,
      calculate_body Sample.db Sample.null_category = (Sample.null_category, Raise cause)
      ∧ PyExc "Exception"
          "Failed to calculate estimate totals: 'NoneType' object has no attribute 'lower'"
        = PyExc "Exception" ("Failed to calculate estimate totals: " ++ py_str_exc cause).
Proof.
  assert (H : calculate_estimate_totals Sample.db Sample.null_category
              = (Sample.null_category,
                 Raise (PyExc "Exception"
                          "Failed to calculate estimate totals: 'NoneType' object has no attribute 'lower'")))
    by (vm_compute; reflexivity).
  split; [exact H|].
  exact (proj2 (proj2 (failure_is_wrapped_and_atomic _ _ _ _ H))).
Defined.

(* ===================================================================== *)
(** ** Rounding *)
(* ===================================================================== *)

Lemma div_half_even_nearest (n d : Z) :
  0 ≤ n → 0 < d → 0 ≤ div_half_even n d ∧ 2 * Z.abs (n - div_half_even n d * d) ≤ d.
Proof.
  intros Hn Hd. unfold div_half_even.
  pose proof (Z.div_mod n d ltac:(lia)) as Hdm.
  pose proof (Z.mod_pos_bound n d Hd) as Hr.
  pose proof (Z.div_pos n d Hn Hd) as Hq.
  set (q := n / d) in *. set (r := n mod d) in *.
  destruct (Z.compare_spec (2 * r) d); [destruct (Z.even q)| |]; nia.
Qed.

Lemma py_round2_finite (x : float) (s : bool) (m : positive) (e : Z) :
  Prim2SF x = S754_finite s m e →
  ∃ k, 0 ≤ k ∧ nearest_hundredth m e k ∧ py_round2 x = hundredths s k.
Proof.
  intros Hx. unfold py_round2, nearest_hundredth. rewrite Hx.
  destruct (Z.leb_spec 0 e) as [He|He].
  - exists (Z.pos m * 2 ^ e * 100). repeat split; [|lia].
    pose proof (Z.pow_nonneg 2 e ltac:(lia)). nia.
  - assert (Hd : 0 < 2 ^ (- e)) by (apply Z.pow_pos_nonneg; lia).
    destruct (div_half_even_nearest (Z.pos m * 100) (2 ^ (- e)) ltac:(lia) Hd) as (Hk & Hnear).
    eexists. repeat split; [exact Hk|].
    replace (100 * Z.pos m) with (Z.pos m * 100) by lia. exact Hnear.
Qed.

Lemma py_round2_not_finite (x : float) :
  (∀ s m e, Prim2SF x ≠ S754_finite s m e) → py_round2 x = x.
Proof.
  intros H. unfold py_round2. destruct (Prim2SF x) eqn:Hx; try reflexivity.
  by destruct (H s m e).
Qed.

(** C8: when [calculate_estimate_totals] returns, each of the four
    computed fields holds [round(v, 2)] of the value [v] computed for it,
    and [round(v, 2)] of a finite [v] is the float nearest to [k / 100]
    for an integer [k] nearest to [100 * v]. *)
Theorem stored_fields_rounded (db : Db) (estimate estimate' : Estimate.t) :
  calculate_estimate_totals db estimate = (estimate', Ok tt) →
  ∃ l,
    compute_locals db estimate = (estimate, Ok l)
    ∧ Estimate.subtotal estimate' = Some (py_round2 (Locals.subtotal l))
    ∧ Estimate.profit_amount estimate' = Some (py_round2 (Locals.profit_amount l))
    ∧ Estimate.contingency_amount estimate'
      = Some (py_round2 (Locals.contingency_amount l))
    ∧ Estimate.grand_total estimate' = Some (py_round2 (Locals.grand_total l))
    ∧ (∀ v s m e, Prim2SF v = S754_finite s m e →
         ∃ k, 0 ≤ k ∧ nearest_hundredth m e k ∧ py_round2 v = hundredths s k).
Proof.
  intros Hcalc. destruct (calculate_Ok _ _ _ _ Hcalc) as (l & Hl & ->).
  exists l. rewrite compute_locals_unfold, Hl.
  repeat split. apply py_round2_finite.
Qed.

Lemma stored_fields_rounded_witness :
  calculate_estimate_totals Sample.fractions_db Sample.fractions
  = (stored (Locals.mk 0.30000000000000004 0 0 0.30000000000000004
                       0.045000000000000005 0.034500000000000003 0.37950000000000006)
            Sample.fractions, Ok tt)
  ∧ Estimate.computed
      (stored (Locals.mk 0.30000000000000004 0 0 0.30000000000000004
                         0.045000000000000005 0.034500000000000003 0.37950000000000006)
              Sample.fractions)
    = (Some 0.3%float, Some 0.05%float, Some 0.03%float, Some 0.38%float).
Proof.
  assert (H : calculate_estimate_totals Sample.fractions_db Sample.fractions
              = (stored (Locals.mk 0.30000000000000004 0 0 0.30000000000000004
                           0.045000000000000005 0.034500000000000003 0.37950000000000006)
                        Sample.fractions, Ok tt))
    by (vm_compute; reflexivity).
  split; [exact H|].
  destruct (stored_fields_rounded _ _ _ H) as (l & Hl & Hs & Hp & Hc & Hg & _).
  vm_compute in Hl. injection Hl as <-.
  unfold Estimate.computed. rewrite Hs, Hp, Hc, Hg.
  vm_compute. reflexivity.
Defined.

(* ===================================================================== *)
(** ** Recomputation *)
(* ===================================================================== *)

(** C9: running [calculate_estimate_totals] again on the estimate it left,
    with the same tables, leaves the same estimate (the same four stored
    values) and ends the same way. *)
Theorem recompute_idempotent (db : Db) (estimate : Estimate.t) :
  calculate_estimate_totals db (calculate_estimate_totals db estimate).1
  = calculate_estimate_totals db estimate.
Proof.
  rewrite !calculate_estimate_totals_unfold.
  destruct (locals_result db estimate) as [l|x] eqn:Hl; simpl.
  - rewrite <- (locals_result_same_inputs db estimate (stored l estimate)
                  (stored_same_inputs l estimate)), Hl.
    by rewrite stored_stored.
  - by rewrite Hl.
Qed.

(* ===================================================================== *)
(** ** The rooms of the report *)
(* ===================================================================== *)

Lemma py_key_eqb_str (k : pyval) (room : string) :
  py_key_eqb k (VStr room) = true ↔ k = VStr room.
Proof.
  split.
  - destruct k; simpl; try discriminate. intros H. apply String.eqb_eq in H. by subst.
  - intros ->. simpl. apply String.eqb_refl.
Qed.

Lemma py_key_eqb_str_l (k : pyval) (room : string) :
  py_key_eqb (VStr room) k = true → k = VStr room.
Proof.
  destruct k; simpl; try discriminate. intros H. apply String.eqb_eq in H. by subst.
Qed.

Lemma entries_at_dict_set_same (d : list (pyval * AreaEntry.t)) (room : string)
    (entry : AreaEntry.t) :
  (length (entries_at d room) ≤ 1)%nat →
  entries_at (dict_set d (VStr room) entry) room = [(VStr room, entry)].
Proof.
  unfold entries_at. induction d as [|[k' v'] rest IH]; simpl; intros Hlen.
  - by rewrite String.eqb_refl.
  - destruct (py_key_eqb k' (VStr room)) eqn:Hk; simpl in *.
    + rewrite Hk. apply py_key_eqb_str in Hk as ->.
      destruct (List.filter _ rest); [reflexivity | simpl in Hlen; lia].
    + rewrite Hk. by apply IH.
Qed.

Lemma entries_at_dict_set_other (d : list (pyval * AreaEntry.t)) (k : pyval)
    (room : string) (entry : AreaEntry.t) :
  k ≠ VStr room → entries_at (dict_set d k entry) room = entries_at d room.
Proof.
  intros Hne. unfold entries_at.
  assert (Hk : py_key_eqb k (VStr room) = false).
  { apply not_true_is_false. by rewrite py_key_eqb_str. }
  induction d as [|[k' v'] rest IH]; simpl.
  - by rewrite Hk.
  - destruct (py_key_eqb k' k) eqn:Hkk; simpl.
    + destruct (py_key_eqb k' (VStr room)) eqn:Hkr; [|reflexivity].
      apply py_key_eqb_str in Hkr as ->.
      apply py_key_eqb_str_l in Hkk. congruence.
    + by rewrite IH.
Qed.

Lemma entries_at_dict_set_length (d : list (pyval * AreaEntry.t)) (k : pyval)
    (room : string) (entry : AreaEntry.t) :
  (length (entries_at d room) ≤ 1)%nat →
  (length (entries_at (dict_set d k entry) room) ≤ 1)%nat.
Proof.
  intros Hlen. destruct k as [| | | |s| |];
    try (rewrite entries_at_dict_set_other; [exact Hlen | discriminate]).
  destruct (String.eqb_spec s room) as [->|Hne].
  - by rewrite entries_at_dict_set_same.
  - rewrite entries_at_dict_set_other; [exact Hlen | congruence].
Qed.

Lemma breakdown_material_loop_area_costs (active_bundles : list pyval)
    (materials : list MaterialItem.t) (b : Breakdown.t) :
  Breakdown.area_costs (breakdown_material_loop active_bundles materials b)
  = Breakdown.area_costs b.
Proof.
  revert b. induction materials as [|m rest IH]; intros b; simpl; [reflexivity|].
  rewrite IH. unfold breakdown_material_step. by destruct (_ || _).
Qed.

Lemma breakdown_labor_loop_area_costs (labor_items : list LaborItem.t) (b : Breakdown.t) :
  Breakdown.area_costs (breakdown_labor_loop labor_items b) = Breakdown.area_costs b.
Proof.
  revert b. induction labor_items as [|x rest IH]; intros b; simpl; [reflexivity|].
  by rewrite IH.
Qed.

(** One turn of the report's loop stores the record's entry under its
    room and adds its cost to the total. *)
Lemma breakdown_area_step_entry (area : pyval) (b b' : Breakdown.t) :
  breakdown_area_step area b = Ok b' →
  ∃ entry,
    area_entry area = Ok entry
    ∧ Breakdown.area_costs b' = dict_set (Breakdown.area_costs b) (room_key area) entry
    ∧ Totals.area_costs (Breakdown.totals b')
      = (Totals.area_costs (Breakdown.totals b) + AreaEntry.total_cost entry)%float.
Proof.
  rewrite breakdown_area_step_unfold. unfold area_entry.
  destruct area as [| | | | | |d]; try discriminate.
  unfold mbind, result_bind. cbv zeta.
  destruct (py_lower _) as [c|]; [|discriminate].
  destruct (py_mul_float _ _) as [cost|]; [|discriminate].
  destruct (py_hashable _); [|discriminate].
  intros [= <-]. eexists. by repeat split.
Qed.

Lemma breakdown_area_loop_entries (areas : list pyval) (b b' : Breakdown.t) :
  breakdown_area_loop areas b = Ok b' →
  ∃ entries,
    Forall2 (fun area entry => area_entry area = Ok entry) areas entries
    ∧ Totals.area_costs (Breakdown.totals b')
      = sum_entry_costs entries (Totals.area_costs (Breakdown.totals b)).
Proof.
  revert b. induction areas as [|area rest IH]; intros b; simpl.
  - intros [= <-]. exists []. by split.
  - unfold mbind, result_bind.
    destruct (breakdown_area_step area b) as [b1|] eqn:Hstep; [|discriminate].
    intros Hrest. destruct (breakdown_area_step_entry _ _ _ Hstep) as (entry & He & _ & Ht).
    destruct (IH _ Hrest) as (entries & Hall & Hsum).
    exists (entry :: entries). split; [by constructor|].
    rewrite Hsum, Ht. reflexivity.
Qed.

Lemma breakdown_area_loop_length (areas : list pyval) (b b' : Breakdown.t)
    (room : string) :
  breakdown_area_loop areas b = Ok b' →
  (length (entries_at (Breakdown.area_costs b) room) ≤ 1)%nat →
  (length (entries_at (Breakdown.area_costs b') room) ≤ 1)%nat.
Proof.
  revert b. induction areas as [|area rest IH]; intros b; simpl.
  - by intros [= <-].
  - unfold mbind, result_bind.
    destruct (breakdown_area_step area b) as [b1|] eqn:Hstep; [|discriminate].
    intros Hrest Hlen. destruct (breakdown_area_step_entry _ _ _ Hstep) as (entry & _ & Hd & _).
    apply (IH _ Hrest). rewrite Hd. by apply entries_at_dict_set_length.
Qed.

Lemma breakdown_area_loop_untouched (areas : list pyval) (b b' : Breakdown.t)
    (room : string) :
  breakdown_area_loop areas b = Ok b' →
  Forall (fun area => room_key area ≠ VStr room) areas →
  entries_at (Breakdown.area_costs b') room = entries_at (Breakdown.area_costs b) room.
Proof.
  intros Hloop Hrooms. revert b Hloop.
  induction Hrooms as [|area rest Hroom _ IH]; intros b; simpl.
  - by intros [= <-].
  - unfold mbind, result_bind.
    destruct (breakdown_area_step area b) as [b1|] eqn:Hstep; [|discriminate].
    intros Hrest. destruct (breakdown_area_step_entry _ _ _ Hstep) as (entry & _ & Hd & _).
    rewrite (IH _ Hrest), Hd. by apply entries_at_dict_set_other.
Qed.

Lemma breakdown_area_loop_last (pre : list pyval) (area : pyval) (post : list pyval)
    (b b' : Breakdown.t) (room : string) :
  breakdown_area_loop (pre ++ area :: post) b = Ok b' →
  (length (entries_at (Breakdown.area_costs b) room) ≤ 1)%nat →
  room_key area = VStr room →
  Forall (fun a => room_key a ≠ VStr room) post →
  ∃ entry, area_entry area = Ok entry
           ∧ entries_at (Breakdown.area_costs b') room = [(VStr room, entry)].
Proof.
  revert b. induction pre as [|a pre IH]; intros b; simpl;
    unfold mbind, result_bind.
  - destruct (breakdown_area_step area b) as [b1|] eqn:Hstep; [|discriminate].
    intros Hrest Hlen Hroom Hpost.
    destruct (breakdown_area_step_entry _ _ _ Hstep) as (entry & He & Hd & _).
    exists entry. split; [exact He|].
    rewrite (breakdown_area_loop_untouched _ _ _ _ Hrest Hpost), Hd, Hroom.
    by apply entries_at_dict_set_same.
  - destruct (breakdown_area_step a b) as [b1|] eqn:Hstep; [|discriminate].
    intros Hrest Hlen Hroom Hpost.
    destruct (breakdown_area_step_entry _ _ _ Hstep) as (entry & _ & Hd & _).
    apply (IH _ Hrest); [|exact Hroom|exact Hpost].
    rewrite Hd. by apply entries_at_dict_set_length.
Qed.

(** C10: in the report of [get_cost_breakdown], a record is stored under
    its room, 'Unknown' when it has none; of the records that share a
    room name only the last one's entry is in [area_costs]; the total
    [totals.area_costs] is the sum over all the records; so the entries
    need not add up to the total. *)
Theorem area_entries_keyed_by_room (db : Db) (estimate : Estimate.t)
    (areas : list pyval) (breakdown : Breakdown.t) :
  py_iter (Estimate.get_areas estimate) = Ok areas →
  get_cost_breakdown db estimate = Ok breakdown →
  (∀ d, d !! "room" = None → room_key (VDict d) = VStr "Unknown")
  ∧ (∀ room pre area post,
       areas = (pre ++ area :: post)%list →
       room_key area = VStr room →
       Forall (fun a => room_key a ≠ VStr room) post →
       ∃ entry, area_entry area = Ok entry
                ∧ entries_at (Breakdown.area_costs breakdown) room = [(VStr room, entry)])
  ∧ (∃ entries,
       Forall2 (fun area entry => area_entry area = Ok entry) areas entries
       ∧ Totals.area_costs (Breakdown.totals breakdown) = sum_entry_costs entries 0%float)
  ∧ (∃ b, get_cost_breakdown Sample.db Sample.shared_room = Ok b
          ∧ sum_entry_costs (Breakdown.area_costs b).*2 0%float = 1500%float
          ∧ Totals.area_costs (Breakdown.totals b) = 2500%float).
Proof.
  intros Hiter. unfold get_cost_breakdown. cbv zeta. rewrite Hiter.
  unfold mbind at 1, result_bind at 1. intros Hloop.
  pose proof (breakdown_material_loop_totals (Estimate.get_active_bundles estimate)
                (query_materials db (Estimate.id estimate)) (breakdown_init estimate))
    as (_ & _ & Ha1).
  pose proof (breakdown_labor_loop_totals (query_labor db (Estimate.id estimate))
                (breakdown_material_loop (Estimate.get_active_bundles estimate)
                   (query_materials db (Estimate.id estimate)) (breakdown_init estimate)))
    as (_ & _ & Ha2).
  cbv zeta in Ha1, Ha2.
  split; [|split; [|split]].
  - intros d Hd. simpl. by rewrite Hd.
  - intros room pre area post -> Hroom Hpost.
    eapply breakdown_area_loop_last; [exact Hloop| |exact Hroom|exact Hpost].
    rewrite breakdown_labor_loop_area_costs, breakdown_material_loop_area_costs.
    simpl. lia.
  - destruct (breakdown_area_loop_entries _ _ _ Hloop) as (entries & Hall & Hsum).
    exists entries. split; [exact Hall|].
    rewrite Hsum, Ha2, Ha1. reflexivity.
  - eexists. split; [vm_compute; reflexivity|]. split; vm_compute; reflexivity.
Qed.

Lemma area_entries_keyed_by_room_witness :
  ∃ breakdown entry,
    get_cost_breakdown Sample.db Sample.shared_room = Ok breakdown
    ∧ area_entry (Sample.area (VStr "Living") (VStr "Exterior") (VInt 100)) = Ok entry
    ∧ entries_at (Breakdown.area_costs breakdown) "Living" = [(VStr "Living", entry)]
    ∧ AreaEntry.total_cost entry = 1500%float.
Proof.
  assert (H : ∃ b, get_cost_breakdown Sample.db Sample.shared_room = Ok b)
    by (eexists; vm_compute; reflexivity).
  destruct H as (breakdown & Hb).
  destruct (area_entries_keyed_by_room Sample.db Sample.shared_room
              [Sample.interior50; Sample.area (VStr "Living") (VStr "Exterior") (VInt 100)]
              breakdown eq_refl Hb) as (_ & Hlast & _).
  destruct (Hlast "Living" [Sample.interior50]
              (Sample.area (VStr "Living") (VStr "Exterior") (VInt 100)) []
              eq_refl) as (entry & He & Hentries).
  { vm_compute. reflexivity. }
  { constructor. }
  exists breakdown, entry. split; [exact Hb|]. split; [exact He|]. split; [exact Hentries|].
  vm_compute in He. injection He as <-. reflexivity.
Defined.

(* ===================================================================== *)
(** ** What the engine reads and what it leaves alone *)
(* ===================================================================== *)

(** X1: whatever the outcome, [calculate_estimate_totals] leaves the id,
    the name, the area records, the active bundles and the two
    percentages of the estimate as they were. *)
Theorem calculate_preserves_inputs (db : Db) (estimate : Estimate.t) :
  let estimate' := (calculate_estimate_totals db estimate).1 in
  Estimate.id estimate' = Estimate.id estimate
  ∧ Estimate.name estimate' = Estimate.name estimate
  ∧ Estimate.areas_json estimate' = Estimate.areas_json estimate
  ∧ Estimate.active_bundles_json estimate' = Estimate.active_bundles_json estimate
  ∧ Estimate.profit_percentage estimate' = Estimate.profit_percentage estimate
  ∧ Estimate.contingency_percentage estimate' = Estimate.contingency_percentage estimate.
Proof.
  cbv zeta. rewrite calculate_estimate_totals_unfold.
  destruct (locals_result db estimate); repeat split.
Qed.

Lemma filter_app_other {A : Type} (p : A → bool) (l1 extra l2 : list A) :
  Forall (fun x => p x = false) extra →
  List.filter p (l1 ++ extra ++ l2)%list = List.filter p (l1 ++ l2)%list.
Proof.
  intros H. rewrite !List.filter_app. f_equal.
  replace (List.filter p extra) with (@nil A); [reflexivity|].
  induction H as [|x rest Hx _ IH]; simpl; [reflexivity|]. by rewrite Hx.
Qed.

Lemma calculate_same_queries (db db' : Db) (estimate : Estimate.t) :
  query_materials db' (Estimate.id estimate) = query_materials db (Estimate.id estimate) →
  query_labor db' (Estimate.id estimate) = query_labor db (Estimate.id estimate) →
  calculate_estimate_totals db' estimate = calculate_estimate_totals db estimate
  ∧ get_cost_breakdown db' estimate = get_cost_breakdown db estimate.
Proof.
  intros Hm Hl. split.
  - rewrite !calculate_estimate_totals_unfold. unfold locals_result.
    by rewrite Hm, Hl.
  - unfold get_cost_breakdown. by rewrite Hm, Hl.
Qed.

(** X2: the rows of other estimates, wherever they stand in the two
    tables, change neither the outcome of [calculate_estimate_totals] nor
    the report of [get_cost_breakdown]. *)
Theorem rows_of_other_estimates_ignored (estimate : Estimate.t)
    (m1 ms m2 : list MaterialItem.t) (l1 ls l2 : list LaborItem.t) :
  Forall (fun m => MaterialItem.estimate_id m ≠ Estimate.id estimate) ms →
  Forall (fun l => LaborItem.estimate_id l ≠ Estimate.id estimate) ls →
  calculate_estimate_totals (mkDb (m1 ++ ms ++ m2) (l1 ++ ls ++ l2)) estimate
  = calculate_estimate_totals (mkDb (m1 ++ m2) (l1 ++ l2)) estimate
  ∧ get_cost_breakdown (mkDb (m1 ++ ms ++ m2) (l1 ++ ls ++ l2)) estimate
    = get_cost_breakdown (mkDb (m1 ++ m2) (l1 ++ l2)) estimate.
Proof.
  intros Hms Hls. apply calculate_same_queries; unfold query_materials, query_labor; simpl.
  - apply filter_app_other. eapply Forall_impl; [exact Hms|].
    intros m Hm. simpl in Hm. by apply Z.eqb_neq.
  - apply filter_app_other. eapply Forall_impl; [exact Hls|].
    intros l Hl. simpl in Hl. by apply Z.eqb_neq.
Qed.

Lemma rows_of_other_estimates_ignored_witness :
  calculate_estimate_totals
    (mkDb ([Sample.material (Some "Kitchen") (Some 500%float)]
           ++ [MaterialItem.mk 2 8 "other" None None None (Some 9999%float) None None]
           ++ [Sample.material None (Some 200%float)])
          ([Sample.labor (Some 300%float)] ++ [] ++ []))
    Sample.kitchen_on
  = calculate_estimate_totals
      (mkDb ([Sample.material (Some "Kitchen") (Some 500%float)]
             ++ [Sample.material None (Some 200%float)])
            ([Sample.labor (Some 300%float)] ++ []))
      Sample.kitchen_on.
Proof.
  refine (proj1 (rows_of_other_estimates_ignored Sample.kitchen_on _ _ _ _ _ _ _ _)).
  - constructor; [|constructor]. simpl. lia.
  - constructor.
Defined.

Lemma material_loop_map (f : MaterialItem.t → MaterialItem.t)
    (active_bundles : list pyval) (materials : list MaterialItem.t) (acc : float) :
  (∀ m, MaterialItem.bundle (f m) = MaterialItem.bundle m
        ∧ MaterialItem.total_cost (f m) = MaterialItem.total_cost m) →
  material_loop active_bundles (f <$> materials) acc
  = material_loop active_bundles materials acc.
Proof.
  intros Hf. revert acc. induction materials as [|m rest IH]; intros acc; simpl.
  - reflexivity.
  - destruct (Hf m) as (Hb & Hc). unfold material_included. rewrite Hb, Hc. apply IH.
Qed.

Lemma labor_loop_map (g : LaborItem.t → LaborItem.t) (labor_items : list LaborItem.t)
    (acc : float) :
  (∀ l, LaborItem.total_cost (g l) = LaborItem.total_cost l) →
  labor_loop (g <$> labor_items) acc = labor_loop labor_items acc.
Proof.
  intros Hg. revert acc. induction labor_items as [|l rest IH]; intros acc; simpl.
  - reflexivity.
  - rewrite Hg. apply IH.
Qed.

Lemma filter_map_same {A : Type} (f : A → A) (p : A → bool) (l : list A) :
  (∀ x, p (f x) = p x) → List.filter p (f <$> l) = f <$> List.filter p l.
Proof.
  intros H. induction l as [|x rest IH]; simpl; [reflexivity|].
  rewrite H. destruct (p x); simpl; [f_equal|]; exact IH.
Qed.

(** X3: the engine reads, of a material, its estimate, its bundle and its
    stored [total_cost], and of a labor item its estimate and its stored
    [total_cost]: rewriting anything else in the rows (unit cost,
    quantity, hours, rate, names, categories) changes nothing in the
    outcome of [calculate_estimate_totals]. *)
Theorem calculate_reads_stored_totals (db : Db) (estimate : Estimate.t)
    (f : MaterialItem.t → MaterialItem.t) (g : LaborItem.t → LaborItem.t) :
  (∀ m, MaterialItem.estimate_id (f m) = MaterialItem.estimate_id m
        ∧ MaterialItem.bundle (f m) = MaterialItem.bundle m
        ∧ MaterialItem.total_cost (f m) = MaterialItem.total_cost m) →
  (∀ l, LaborItem.estimate_id (g l) = LaborItem.estimate_id l
        ∧ LaborItem.total_cost (g l) = LaborItem.total_cost l) →
  calculate_estimate_totals (mkDb (f <$> material_items db) (g <$> labor_items db)) estimate
  = calculate_estimate_totals db estimate.
Proof.
  intros Hf Hg. rewrite !calculate_estimate_totals_unfold.
  assert (Hl : locals_result (mkDb (f <$> material_items db) (g <$> labor_items db)) estimate
               = locals_result db estimate); [|by rewrite Hl].
  unfold locals_result, query_materials, query_labor. simpl.
  rewrite (filter_map_same f), (filter_map_same g).
  - rewrite material_loop_map, labor_loop_map; [reflexivity| |].
    + intros l. apply Hg.
    + intros m. split; apply Hf.
  - intros l. by rewrite (proj1 (Hg l)).
  - intros m. by rewrite (proj1 (Hf m)).
Qed.

Lemma calculate_reads_stored_totals_witness :
  calculate_estimate_totals
    (mkDb ((fun m => MaterialItem.mk (MaterialItem.id m) (MaterialItem.estimate_id m)
                       "renamed" None (Some 1%float) (Some 2%float)
                       (MaterialItem.total_cost m) (MaterialItem.bundle m) (Some "x"))
             <$> material_items Sample.db)
          ((fun l => LaborItem.mk (LaborItem.id l) (LaborItem.estimate_id l) "renamed"
                       (Some 7%float) (Some 9%float) (LaborItem.total_cost l) None)
             <$> labor_items Sample.db))
    Sample.kitchen_on
  = calculate_estimate_totals Sample.db Sample.kitchen_on.
Proof.
  apply (calculate_reads_stored_totals Sample.db Sample.kitchen_on); intros; repeat split.
Defined.

(* ===================================================================== *)
(** ** When the engine returns and when it does not *)
(* ===================================================================== *)

Lemma py_mul_float_Ok (v : pyval) (rate cost : float) :
  py_mul_float v rate = Ok cost →
  ∃ a, number_value v = Some a ∧ cost = (a * rate)%float.
Proof.
  destruct v as [|b|z|f|s|l|d]; simpl; try discriminate.
  - intros [= <-]. eauto.
  - unfold py_float_of_int. destruct (is_infinity (float_of_Z z)); [discriminate|].
    simpl. intros [= <-]. eauto.
  - intros [= <-]. eauto.
Qed.

Lemma area_step_Ok (area : pyval) (acc acc' : float) :
  area_step area acc = Ok acc' →
  ∃ a category, area_record_reads area a category
                ∧ acc' = (acc + a * rate_for_category category)%float.
Proof.
  rewrite area_step_unfold. destruct area as [| | | | | |d]; try discriminate.
  unfold mbind, result_bind.
  destruct (default (VStr "Interior") (d !! "category")) as [| | | |c| |] eqn:Hc;
    try discriminate.
  simpl. destruct (py_mul_float _ _) as [cost|] eqn:Hmul; [|discriminate].
  intros [= <-]. destruct (py_mul_float_Ok _ _ _ Hmul) as (a & Ha & ->).
  exists a, c. split; [|reflexivity]. exists d. by rewrite Hc.
Qed.

Lemma area_loop_Ok (areas : list pyval) (acc acc' : float) :
  area_loop areas acc = Ok acc' →
  ∃ records, Forall2 (fun area r => area_record_reads area r.1 r.2) areas records
             ∧ acc' = sum_area_costs records acc.
Proof.
  revert acc. induction areas as [|area rest IH]; intros acc; simpl.
  - intros [= <-]. exists []. by split.
  - unfold mbind, result_bind.
    destruct (area_step area acc) as [acc1|] eqn:Hstep; [|discriminate].
    intros Hrest. destruct (area_step_Ok _ _ _ Hstep) as (a & c & Hreads & ->).
    destruct (IH _ Hrest) as (records & Hall & ->).
    exists ((a, c) :: records). split; [by constructor | reflexivity].
Qed.

(** X4: whenever [calculate_estimate_totals] returns, every area record was
    a dict with a numeric (or absent) area and a string (or absent)
    category, and the area cost is the sum of area times rate over them:
    a returned total never hides a record that could not be priced. *)
Theorem calculate_returns_only_on_priced_areas (db : Db) (estimate estimate' : Estimate.t) :
  calculate_estimate_totals db estimate = (estimate', Ok tt) →
  ∃ areas records l,
    py_iter (Estimate.get_areas estimate) = Ok areas
    ∧ Forall2 (fun area r => area_record_reads area r.1 r.2) areas records
    ∧ compute_locals db estimate = (estimate, Ok l)
    ∧ Locals.area_cost l = sum_area_costs records 0%float.
Proof.
  intros Hcalc. destruct (calculate_Ok _ _ _ _ Hcalc) as (l & Hl & _).
  destruct (locals_result_Ok _ _ _ Hl) as (areas & total_area & Hiter & _ & Hloop & _).
  destruct (area_loop_Ok _ _ _ Hloop) as (records & Hall & Hsum).
  exists areas, records, l. rewrite compute_locals_unfold, Hl. by repeat split.
Qed.

Lemma calculate_returns_only_on_priced_areas_witness :
  calculate_estimate_totals Sample.db Sample.kitchen_on
  = (stored (Locals.mk 700 300 1000 2000 300 230 2530) Sample.kitchen_on, Ok tt)
  ∧ ∃ areas records l,
      py_iter (Estimate.get_areas Sample.kitchen_on) = Ok areas
      ∧ Forall2 (fun area r => area_record_reads area r.1 r.2) areas records
      ∧ compute_locals Sample.db Sample.kitchen_on = (Sample.kitchen_on, Ok l)
      ∧ Locals.area_cost l = sum_area_costs records 0%float.
Proof.
  assert (H : calculate_estimate_totals Sample.db Sample.kitchen_on
              = (stored (Locals.mk 700 300 1000 2000 300 230 2530) Sample.kitchen_on, Ok tt))
    by (vm_compute; reflexivity).
  split; [exact H|]. exact (calculate_returns_only_on_priced_areas _ _ _ H).
Defined.

Lemma total_area_step_after_pricing (area : pyval) (acc0 : pyval) (acc acc' : float) :
  is_number_acc acc0 →
  area_step area acc = Ok acc' →
  (∃ v t, py_get area "area_ft2" (VInt 0) = Ok v ∧ py_add acc0 v = Ok t ∧ is_number_acc t)
  ∨ (∃ v, py_get area "area_ft2" (VInt 0) = Ok v ∧ py_add acc0 v = Raise OverflowError_int).
Proof.
  intros Hacc Hstep. destruct (area_step_Ok _ _ _ Hstep) as (a & c & (d & -> & Ha & _) & _).
  simpl. destruct acc0 as [| |x|x| | |]; try done;
    destruct (default (VInt 0) (d !! "area_ft2")) as [|b|z|f| | |]; try discriminate; simpl.
  - left. by eexists _, _.
  - left. by eexists _, _.
  - unfold py_float_of_int. destruct (is_infinity (float_of_Z x)); simpl.
    + right. by eexists.
    + left. by eexists _, _.
  - left. by eexists _, _.
  - left. exists (VInt z), (VFloat (x + float_of_Z z)). simpl in *.
    unfold py_float_of_int.
    destruct (is_infinity (float_of_Z z)); [discriminate|]. done.
  - left. by eexists _, _.
Qed.

Lemma total_area_loop_after_pricing (areas : list pyval) (acc0 : pyval) (acc acc' : float) :
  is_number_acc acc0 →
  area_loop areas acc = Ok acc' →
  (∃ t, total_area_loop areas acc0 = Ok t)
  ∨ total_area_loop areas acc0 = Raise OverflowError_int.
Proof.
  revert acc0 acc. induction areas as [|area rest IH]; intros acc0 acc Hacc; simpl.
  - intros _. left. by eexists.
  - unfold mbind, result_bind.
    destruct (area_step area acc) as [acc1|] eqn:Hstep; [|discriminate].
    intros Hrest.
    destruct (total_area_step_after_pricing _ _ _ _ Hacc Hstep)
      as [(v & t & -> & -> & Ht)|(v & -> & ->)].
    + by apply (IH t acc1).
    + by right.
Qed.

(** X5: on an estimate for which [get_cost_breakdown] builds a report,
    [calculate_estimate_totals] can fail in one way only: the sum of line
    29, which it never uses, meets an int too large for a float. *)
Theorem engine_fails_on_reported_estimate_only_by_overflow (db : Db)
    (estimate estimate' : Estimate.t) (breakdown : Breakdown.t) (x : pyexc) :
  get_cost_breakdown db estimate = Ok breakdown →
  calculate_estimate_totals db estimate = (estimate', Raise x) →
  x = PyExc "Exception"
        "Failed to calculate estimate totals: int too large to convert to float".
Proof.
  unfold get_cost_breakdown. cbv zeta.
  rewrite calculate_estimate_totals_unfold. unfold locals_result.
  destruct (py_iter _) as [areas|]; [|discriminate].
  unfold mbind at 1, result_bind at 1. intros Hb.
  destruct (breakdown_area_loop_Ok _ _ _ Hb) as (Hloop & _).
  pose proof (breakdown_material_loop_totals (Estimate.get_active_bundles estimate)
                (query_materials db (Estimate.id estimate)) (breakdown_init estimate))
    as (_ & _ & Ha1).
  pose proof (breakdown_labor_loop_totals (query_labor db (Estimate.id estimate))
                (breakdown_material_loop (Estimate.get_active_bundles estimate)
                   (query_materials db (Estimate.id estimate)) (breakdown_init estimate)))
    as (_ & _ & Ha2).
  cbv zeta in Ha1, Ha2. rewrite Ha2, Ha1 in Hloop. simpl in Hloop.
  unfold mbind, result_bind.
  destruct (total_area_loop_after_pricing areas (VInt 0) _ _ I Hloop) as [(t & ->)| ->].
  - rewrite Hloop. discriminate.
  - by intros [= _ <-].
Qed.

Lemma engine_fails_on_reported_estimate_only_by_overflow_witness :
  (∃ breakdown, get_cost_breakdown Sample.db Overflow.estimate = Ok breakdown)
  ∧ calculate_estimate_totals Sample.db Overflow.estimate
    = (Overflow.estimate,
       Raise (PyExc "Exception"
                "Failed to calculate estimate totals: int too large to convert to float")).
Proof.
  assert (Hb : ∃ breakdown, get_cost_breakdown Sample.db Overflow.estimate = Ok breakdown)
    by (eexists; vm_compute; reflexivity).
  split; [exact Hb|]. destruct Hb as (breakdown & Hb).
  assert (Hc : ∃ x, calculate_estimate_totals Sample.db Overflow.estimate
                    = (Overflow.estimate, Raise x))
    by (eexists; vm_compute; reflexivity).
  destruct Hc as (x & Hc). rewrite Hc.
  by rewrite (engine_fails_on_reported_estimate_only_by_overflow _ _ _ _ _ Hb Hc).
Defined.

(* ===================================================================== *)
(** ** The copied fields and the groups of the report *)
(* ===================================================================== *)

Lemma breakdown_material_loop_copied (active_bundles : list pyval)
    (materials : list MaterialItem.t) (b : Breakdown.t) :
  copied_totals (Breakdown.totals (breakdown_material_loop active_bundles materials b))
  = copied_totals (Breakdown.totals b)
  ∧ Breakdown.labor (breakdown_material_loop active_bundles materials b)
    = Breakdown.labor b.
Proof.
  revert b. induction materials as [|m rest IH]; intros b; simpl; [done|].
  destruct (IH (breakdown_material_step active_bundles m b)) as (-> & ->).
  unfold breakdown_material_step. by destruct (_ || _).
Qed.

Lemma breakdown_labor_loop_copied (labor_items : list LaborItem.t) (b : Breakdown.t) :
  copied_totals (Breakdown.totals (breakdown_labor_loop labor_items b))
  = copied_totals (Breakdown.totals b)
  ∧ Breakdown.materials (breakdown_labor_loop labor_items b) = Breakdown.materials b.
Proof.
  revert b. induction labor_items as [|x rest IH]; intros b; simpl; [done|].
  by destruct (IH (breakdown_labor_step x b)) as (-> & ->).
Qed.

Lemma breakdown_area_loop_copied (areas : list pyval) (b b' : Breakdown.t) :
  breakdown_area_loop areas b = Ok b' →
  copied_totals (Breakdown.totals b') = copied_totals (Breakdown.totals b)
  ∧ Breakdown.materials b' = Breakdown.materials b
  ∧ Breakdown.labor b' = Breakdown.labor b.
Proof.
  revert b. induction areas as [|area rest IH]; intros b; simpl.
  - by intros [= <-].
  - unfold mbind, result_bind.
    destruct (breakdown_area_step area b) as [b1|] eqn:Hstep; [|discriminate].
    intros Hrest. destruct (IH _ Hrest) as (-> & -> & ->).
    rewrite breakdown_area_step_unfold in Hstep.
    destruct area as [| | | | | |d]; try discriminate.
    unfold mbind, result_bind in Hstep. cbv zeta in Hstep.
    destruct (py_lower _) as [c|]; [|discriminate].
    destruct (py_mul_float _ _) as [cost|]; [|discriminate].
    destruct (py_hashable _); [|discriminate].
    by injection Hstep as <-.
Qed.

(** The three groupings and the copied fields of a report, loop by loop. *)
Lemma get_cost_breakdown_Ok (db : Db) (estimate : Estimate.t) (b : Breakdown.t) :
  get_cost_breakdown db estimate = Ok b →
  copied_totals (Breakdown.totals b) = Estimate.computed estimate
  ∧ Breakdown.materials b
    = Breakdown.materials
        (breakdown_material_loop (Estimate.get_active_bundles estimate)
           (query_materials db (Estimate.id estimate)) (breakdown_init estimate))
  ∧ Breakdown.labor b
    = Breakdown.labor
        (breakdown_labor_loop (query_labor db (Estimate.id estimate))
           (breakdown_init estimate)).
Proof.
  unfold get_cost_breakdown. cbv zeta.
  destruct (py_iter _) as [areas|]; [|discriminate].
  unfold mbind, result_bind. intros Hb.
  destruct (breakdown_area_loop_copied _ _ _ Hb) as (-> & -> & ->).
  destruct (breakdown_labor_loop_copied (query_labor db (Estimate.id estimate))
              (breakdown_material_loop (Estimate.get_active_bundles estimate)
                 (query_materials db (Estimate.id estimate)) (breakdown_init estimate)))
    as (-> & ->).
  destruct (breakdown_material_loop_copied (Estimate.get_active_bundles estimate)
              (query_materials db (Estimate.id estimate)) (breakdown_init estimate))
    as (-> & Hlab).
  split; [reflexivity|]. split; [reflexivity|].
  clear Hb Hlab.
  generalize (breakdown_init estimate) as b0.
  generalize (query_materials db (Estimate.id estimate)) as materials.
  intros materials b0.
  assert (H : ∀ ls b1 b2, Breakdown.labor b1 = Breakdown.labor b2 →
              Breakdown.labor (breakdown_labor_loop ls b1)
              = Breakdown.labor (breakdown_labor_loop ls b2)).
  { induction ls as [|x rest IH]; intros b1 b2 H12; simpl; [exact H12|].
    apply IH. simpl. by rewrite H12. }
  apply H. apply breakdown_material_loop_copied.
Qed.

(** X6: the subtotal, profit, contingency and grand total of a report are
    the estimate's stored fields, copied as they are: the report shows
    whatever the last recomputation left, also when the rows or the
    settings have changed since. *)
Theorem report_copies_stored_fields (db : Db) (estimate : Estimate.t)
    (breakdown : Breakdown.t) :
  get_cost_breakdown db estimate = Ok breakdown →
  Totals.subtotal (Breakdown.totals breakdown) = Estimate.subtotal estimate
  ∧ Totals.profit (Breakdown.totals breakdown) = Estimate.profit_amount estimate
  ∧ Totals.contingency (Breakdown.totals breakdown) = Estimate.contingency_amount estimate
  ∧ Totals.grand_total (Breakdown.totals breakdown) = Estimate.grand_total estimate.
Proof.
  intros Hb. destruct (get_cost_breakdown_Ok _ _ _ Hb) as (Hcopied & _).
  unfold copied_totals, Estimate.computed in Hcopied.
  by injection Hcopied as -> -> -> ->.
Qed.

Lemma report_copies_stored_fields_witness :
  ∃ breakdown,
    get_cost_breakdown Sample.db Sample.kitchen_on = Ok breakdown
    ∧ Totals.subtotal (Breakdown.totals breakdown) = Some 0%float
    ∧ Totals.materials (Breakdown.totals breakdown) = 700%float.
Proof.
  assert (H : ∃ b, get_cost_breakdown Sample.db Sample.kitchen_on = Ok b)
    by (eexists; vm_compute; reflexivity).
  destruct H as (breakdown & Hb). exists breakdown. split; [exact Hb|].
  split.
  - by rewrite (proj1 (report_copies_stored_fields _ _ _ Hb)).
  - vm_compute in Hb. by injection Hb as <-.
Defined.

Lemma report_totals_match_locals (db : Db) (estimate : Estimate.t) (l : Locals.t)
    (breakdown : Breakdown.t) :
  locals_result db estimate = Ok l →
  get_cost_breakdown db estimate = Ok breakdown →
  Totals.materials (Breakdown.totals breakdown) = Locals.material_total l
  ∧ Totals.labor (Breakdown.totals breakdown) = Locals.labor_total l
  ∧ Totals.area_costs (Breakdown.totals breakdown) = Locals.area_cost l.
Proof.
  intros Hl.
  destruct (locals_result_Ok _ _ _ Hl)
    as (area_list & total_area & Hiter & _ & Hloop & Hmat & Hlab & _).
  pose proof (breakdown_material_loop_totals (Estimate.get_active_bundles estimate)
                (query_materials db (Estimate.id estimate)) (breakdown_init estimate))
    as (Hm1 & Hl1 & Ha1).
  pose proof (breakdown_labor_loop_totals (query_labor db (Estimate.id estimate))
                (breakdown_material_loop (Estimate.get_active_bundles estimate)
                   (query_materials db (Estimate.id estimate)) (breakdown_init estimate)))
    as (Hm2 & Hl2 & Ha2).
  cbv zeta in Hm1, Hl1, Ha1, Hm2, Hl2, Ha2.
  unfold get_cost_breakdown. cbv zeta.
  rewrite Hiter. unfold mbind, result_bind. intros Hb.
  destruct (breakdown_area_loop_Ok _ _ _ Hb) as (Ha3 & Hm3 & Hl3).
  rewrite Hm3, Hl3, Hm2, Hl2, Hm1, Hl1, Hmat, Hlab.
  rewrite Ha2, Ha1 in Ha3. simpl in Ha3. rewrite Hloop in Ha3.
  injection Ha3 as <-. done.
Qed.

(** X7: a report built right after a successful recomputation is
    consistent: its subtotal is its three totals added and rounded, and
    its profit, contingency and grand total are the layers on that sum. *)
Theorem report_after_recompute_is_consistent (db : Db) (estimate estimate' : Estimate.t)
    (breakdown : Breakdown.t) :
  calculate_estimate_totals db estimate = (estimate', Ok tt) →
  get_cost_breakdown db estimate' = Ok breakdown →
  let t := Breakdown.totals breakdown in
  let subtotal := (Totals.materials t + Totals.labor t + Totals.area_costs t)%float in
  let profit :=
    (subtotal * (py_or_float (Estimate.profit_percentage estimate) 15 / 100))%float in
  let contingency :=
    ((subtotal + profit)
     * (py_or_float (Estimate.contingency_percentage estimate) 10 / 100))%float in
  Totals.subtotal t = Some (py_round2 subtotal)
  ∧ Totals.profit t = Some (py_round2 profit)
  ∧ Totals.contingency t = Some (py_round2 contingency)
  ∧ Totals.grand_total t = Some (py_round2 (subtotal + profit + contingency)).
Proof.
  intros Hcalc Hb. destruct (calculate_Ok _ _ _ _ Hcalc) as (l & Hl & ->).
  assert (Hl' : locals_result db (stored l estimate) = Ok l).
  { by rewrite <- (locals_result_same_inputs db estimate (stored l estimate)
                     (stored_same_inputs l estimate)). }
  destruct (report_totals_match_locals db (stored l estimate) l breakdown Hl' Hb)
    as (Hm & Hlab & Ha).
  destruct (get_cost_breakdown_Ok _ _ _ Hb) as (Hcopied & _).
  rewrite stored_computed in Hcopied. unfold copied_totals in Hcopied.
  injection Hcopied as Hs Hp Hco Hg.
  destruct (locals_result_Ok _ _ _ Hl)
    as (_ & _ & _ & _ & _ & _ & _ & Hsub & Hprofit & Hcont & Hgrand).
  cbv zeta. rewrite Hm, Hlab, Ha, <- Hsub, <- Hprofit, <- Hcont, <- Hgrand.
  done.
Qed.

Lemma report_after_recompute_is_consistent_witness :
  calculate_estimate_totals Sample.db Sample.kitchen_on
  = (stored (Locals.mk 700 300 1000 2000 300 230 2530) Sample.kitchen_on, Ok tt)
  ∧ ∃ breakdown,
      get_cost_breakdown Sample.db
        (stored (Locals.mk 700 300 1000 2000 300 230 2530) Sample.kitchen_on)
      = Ok breakdown
      ∧ Totals.subtotal (Breakdown.totals breakdown)
        = Some (py_round2 (Totals.materials (Breakdown.totals breakdown)
                           + Totals.labor (Breakdown.totals breakdown)
                           + Totals.area_costs (Breakdown.totals breakdown))%float).
Proof.
  assert (H : calculate_estimate_totals Sample.db Sample.kitchen_on
              = (stored (Locals.mk 700 300 1000 2000 300 230 2530) Sample.kitchen_on, Ok tt))
    by (vm_compute; reflexivity).
  split; [exact H|].
  assert (Hb : ∃ b, get_cost_breakdown Sample.db
                      (stored (Locals.mk 700 300 1000 2000 300 230 2530) Sample.kitchen_on)
                    = Ok b)
    by (eexists; vm_compute; reflexivity).
  destruct Hb as (breakdown & Hb). exists breakdown. split; [exact Hb|].
  exact (proj1 (report_after_recompute_is_consistent _ _ _ _ H Hb)).
Defined.

Lemma group_get_append {V : Type} (d : list (string * list V)) (k k' : string) (x : V) :
  group_get (group_append d k x) k'
  = if String.eqb k k' then Some (default [] (group_get d k) ++ [x])%list
    else group_get d k'.
Proof.
  induction d as [|[k0 xs] rest IH]; simpl.
  - by destruct (String.eqb k k').
  - destruct (String.eqb_spec k0 k) as [->|Hne]; simpl.
    + destruct (String.eqb_spec k k') as [->|Hne']; [reflexivity|].
      reflexivity.
    + rewrite IH. destruct (String.eqb_spec k k') as [->|Hne'].
      * by destruct (String.eqb_spec k0 k').
      * reflexivity.
Qed.

Lemma group_append_keys {V : Type} (d : list (string * list V)) (k : string) (x : V) :
  NoDup d.*1 → NoDup (group_append d k x).*1
               ∧ ∀ k', k' ∈ (group_append d k x).*1 ↔ k' = k ∨ k' ∈ d.*1.
Proof.
  induction d as [|[k0 xs] rest IH]; simpl; intros Hnd.
  - split; [apply NoDup_singleton|]. intros k'.
    rewrite list_elem_of_singleton, elem_of_nil. tauto.
  - apply NoDup_cons in Hnd as (Hk0 & Hrest).
    destruct (String.eqb_spec k0 k) as [->|Hne]; simpl.
    + split; [by apply NoDup_cons|]. intros k'. rewrite elem_of_cons. tauto.
    + destruct (IH Hrest) as (Hnd' & Hin). split.
      * apply NoDup_cons. split; [|exact Hnd']. rewrite Hin.
        intros [Heq|Hin0]; [by apply Hne | by apply Hk0].
      * intros k'. rewrite !elem_of_cons, Hin. tauto.
Qed.

Lemma group_get_fold {A V : Type} (label : A → string) (entry : A → V)
    (items : list A) (d : list (string * list V)) (k : string) :
  group_get (fold_left (fun d x => group_append d (label x) (entry x)) items d) k
  = match group_get d k with
    | Some xs =>
        Some (xs ++ (entry <$> List.filter (fun x => String.eqb (label x) k) items))%list
    | None => grouped label entry items k
    end.
Proof.
  revert d. induction items as [|x rest IH]; intros d; simpl.
  - destruct (group_get d k); [by rewrite app_nil_r | reflexivity].
  - rewrite IH, group_get_append. unfold grouped. simpl.
    destruct (String.eqb_spec (label x) k) as [Heq|Hne].
    + rewrite Heq. destruct (group_get d k) as [xs|]; simpl.
      * by rewrite <- app_assoc.
      * reflexivity.
    + destruct (group_get d k); reflexivity.
Qed.

Lemma group_fold_keys {A V : Type} (label : A → string) (entry : A → V)
    (items : list A) (d : list (string * list V)) :
  NoDup d.*1 →
  NoDup (fold_left (fun d x => group_append d (label x) (entry x)) items d).*1.
Proof.
  revert d. induction items as [|x rest IH]; intros d Hnd; simpl; [exact Hnd|].
  apply IH. by apply group_append_keys.
Qed.

Lemma breakdown_material_loop_groups (active_bundles : list pyval)
    (materials : list MaterialItem.t) (b : Breakdown.t) :
  Breakdown.materials (breakdown_material_loop active_bundles materials b)
  = fold_left append_material
      (List.filter (material_included active_bundles) materials) (Breakdown.materials b).
Proof.
  revert b. induction materials as [|m rest IH]; intros b; simpl; [reflexivity|].
  rewrite IH. unfold breakdown_material_step.
  fold (material_included active_bundles m).
  by destruct (material_included active_bundles m).
Qed.

Lemma breakdown_labor_loop_groups (labor_items : list LaborItem.t) (b : Breakdown.t) :
  Breakdown.labor (breakdown_labor_loop labor_items b)
  = fold_left append_labor labor_items (Breakdown.labor b).
Proof.
  revert b. induction labor_items as [|x rest IH]; intros b; simpl; [reflexivity|].
  by rewrite IH.
Qed.

(** X8: in a report, the materials that pass the inclusion rule are
    grouped by bundle name, those without a bundle under 'Miscellaneous':
    under each name stand exactly the included materials of that name, in
    the order of the query, and no name appears twice. *)
Theorem materials_grouped_by_bundle (db : Db) (estimate : Estimate.t)
    (breakdown : Breakdown.t) :
  get_cost_breakdown db estimate = Ok breakdown →
  (∀ k, group_get (Breakdown.materials breakdown) k
        = grouped material_label material_entry
            (List.filter (material_included (Estimate.get_active_bundles estimate))
                         (query_materials db (Estimate.id estimate))) k)
  ∧ NoDup (Breakdown.materials breakdown).*1
  ∧ (∀ m, MaterialItem.bundle m = None ∨ MaterialItem.bundle m = Some "" →
          material_label m = "Miscellaneous")
  ∧ (∀ m bundle, MaterialItem.bundle m = Some bundle → bundle ≠ "" →
          material_label m = bundle).
Proof.
  intros Hb. destruct (get_cost_breakdown_Ok _ _ _ Hb) as (_ & -> & _).
  rewrite breakdown_material_loop_groups. simpl.
  split; [|split; [|split]].
  - intros k. unfold append_material. by rewrite group_get_fold.
  - apply group_fold_keys. constructor.
  - intros m [H|H]; unfold material_label; by rewrite H.
  - intros m bundle H Hne. unfold material_label, py_or_str. rewrite H.
    by destruct (String.eqb_spec bundle "").
Qed.

Lemma materials_grouped_by_bundle_witness :
  ∃ breakdown,
    get_cost_breakdown Sample.db Sample.kitchen_on = Ok breakdown
    ∧ group_get (Breakdown.materials breakdown) "Miscellaneous"
      = Some [material_entry (Sample.material None (Some 200%float))]
    ∧ group_get (Breakdown.materials breakdown) "Bath" = None.
Proof.
  assert (H : ∃ b, get_cost_breakdown Sample.db Sample.kitchen_on = Ok b)
    by (eexists; vm_compute; reflexivity).
  destruct H as (breakdown & Hb). exists breakdown. split; [exact Hb|].
  destruct (materials_grouped_by_bundle _ _ _ Hb) as (Hget & _).
  by rewrite !Hget.
Defined.

(** X9: in a report, all labor items are grouped by category, those
    without one under 'General Labor': under each name stand exactly the
    labor items of that category, in the order of the query, and no name
    appears twice. *)
Theorem labor_grouped_by_category (db : Db) (estimate : Estimate.t)
    (breakdown : Breakdown.t) :
  get_cost_breakdown db estimate = Ok breakdown →
  (∀ k, group_get (Breakdown.labor breakdown) k
        = grouped labor_label labor_entry (query_labor db (Estimate.id estimate)) k)
  ∧ NoDup (Breakdown.labor breakdown).*1
  ∧ (∀ l, LaborItem.category l = None ∨ LaborItem.category l = Some "" →
          labor_label l = "General Labor")
  ∧ (∀ l category, LaborItem.category l = Some category → category ≠ "" →
          labor_label l = category).
Proof.
  intros Hb. destruct (get_cost_breakdown_Ok _ _ _ Hb) as (_ & _ & ->).
  rewrite breakdown_labor_loop_groups. simpl.
  split; [|split; [|split]].
  - intros k. unfold append_labor. by rewrite group_get_fold.
  - apply group_fold_keys. constructor.
  - intros l [H|H]; unfold labor_label; by rewrite H.
  - intros l category H Hne. unfold labor_label, py_or_str. rewrite H.
    by destruct (String.eqb_spec category "").
Qed.

Lemma labor_grouped_by_category_witness :
  ∃ breakdown,
    get_cost_breakdown Sample.db Sample.kitchen_on = Ok breakdown
    ∧ group_get (Breakdown.labor breakdown) "General Labor"
      = Some [labor_entry (Sample.labor (Some 300%float))].
Proof.
  assert (H : ∃ b, get_cost_breakdown Sample.db Sample.kitchen_on = Ok b)
    by (eexists; vm_compute; reflexivity).
  destruct H as (breakdown & Hb). exists breakdown. split; [exact Hb|].
  destruct (labor_grouped_by_category _ _ _ Hb) as (Hget & _).
  by rewrite Hget.
Defined.

(* ===================================================================== *)
(** ** Toggling a bundle *)
(* ===================================================================== *)

Lemma name_eqb_form_value (n name : option string) :
  name_eqb n (form_value name) = true ↔ n = name.
Proof.
  destruct n as [s|], name as [t|]; simpl; split; try done.
  - intros H. apply String.eqb_eq in H. by subst.
  - intros [= ->]. apply String.eqb_refl.
Qed.

Lemma name_eqb_unique (n n' : option string) (x : pyval) :
  name_eqb n x = true → name_eqb n' x = true → n = n'.
Proof.
  destruct n as [s|], n' as [t|], x; simpl; try done.
  intros H1 H2. apply String.eqb_eq in H1, H2. by subst.
Qed.

Lemma py_name_in_occurrences (n : option string) (l : list pyval) :
  py_name_in n l = negb (occurrences n l =? 0)%nat.
Proof.
  unfold py_name_in, occurrences. induction l as [|x rest IH]; simpl; [reflexivity|].
  destruct (name_eqb n x); simpl; [reflexivity | exact IH].
Qed.

Lemma occurrences_app (n : option string) (l1 l2 : list pyval) :
  occurrences n (l1 ++ l2) = (occurrences n l1 + occurrences n l2)%nat.
Proof. unfold occurrences. by rewrite List.filter_app, length_app. Qed.

Lemma occurrences_form_value (n name : option string) :
  occurrences n [form_value name] = if decide (n = name) then 1%nat else 0%nat.
Proof.
  unfold occurrences. simpl. destruct (decide (n = name)) as [->|Hne].
  - by rewrite (proj2 (name_eqb_form_value name name) eq_refl).
  - destruct (name_eqb n (form_value name)) eqn:H; [|reflexivity].
    by apply name_eqb_form_value in H.
Qed.

Lemma occurrences_remove (n name : option string) (l : list pyval) :
  occurrences n (py_list_remove name l)
  = if decide (n = name) then Nat.pred (occurrences n l) else occurrences n l.
Proof.
  unfold occurrences. destruct (decide (n = name)) as [->|Hne].
  - induction l as [|x rest IH]; simpl; [reflexivity|].
    destruct (name_eqb name x) eqn:Hx; simpl; [reflexivity|].
    by rewrite Hx.
  - induction l as [|x rest IH]; simpl; [reflexivity|].
    destruct (name_eqb name x) eqn:Hx; simpl.
    + destruct (name_eqb n x) eqn:Hn; [|reflexivity].
      by destruct (Hne (name_eqb_unique _ _ _ Hn Hx)).
    + destruct (name_eqb n x); simpl; by rewrite IH.
Qed.

Lemma occurrences_toggled (n name : option string) (l : list pyval) :
  occurrences n (toggled name l)
  = if decide (n = name)
    then (if (occurrences name l =? 0)%nat then 1%nat else Nat.pred (occurrences name l))
    else occurrences n l.
Proof.
  unfold toggled. rewrite py_name_in_occurrences.
  destruct (Nat.eqb_spec (occurrences name l) 0) as [H0|H0]; simpl.
  - rewrite occurrences_app, occurrences_form_value.
    destruct (decide (n = name)) as [->|]; lia.
  - rewrite occurrences_remove. by destruct (decide (n = name)) as [->|].
Qed.

Lemma py_list_remove_appended (name : option string) (l : list pyval) :
  occurrences name l = 0%nat → py_list_remove name (l ++ [form_value name]) = l.
Proof.
  unfold occurrences. induction l as [|x rest IH]; simpl.
  - intros _. by rewrite (proj2 (name_eqb_form_value name name) eq_refl).
  - destruct (name_eqb name x); simpl; [discriminate|].
    intros H. by rewrite (IH H).
Qed.

Lemma double_toggle_membership (name : option string) (l : list pyval) :
  (∀ n, (occurrences n l ≤ 1)%nat) →
  ∀ n, py_name_in n (toggled name (toggled name l)) = py_name_in n l.
Proof.
  intros Huniq n. rewrite !py_name_in_occurrences, !occurrences_toggled.
  specialize (Huniq name). destruct (decide (n = name)) as [->|]; [|reflexivity].
  destruct (decide (name = name)); [|done].
  destruct (Nat.eqb_spec (occurrences name l) 0) as [H0|H0]; simpl.
  - done.
  - replace (occurrences name l) with 1%nat by lia. reflexivity.
Qed.

(** X10: on a list of active bundles in which no name stands twice, the
    toggle of lines 196-199 keeps it so, flips the membership of the
    toggled name and of no other, and toggling the same name twice brings
    every membership back (and the very list, when the name was absent). *)
Theorem toggle_flips_membership (name : option string) (active_bundles : list pyval) :
  (∀ n, (occurrences n active_bundles ≤ 1)%nat) →
  (∀ n, (occurrences n (toggled name active_bundles) ≤ 1)%nat)
  ∧ py_name_in name (toggled name active_bundles)
    = negb (py_name_in name active_bundles)
  ∧ (∀ n, n ≠ name →
          py_name_in n (toggled name active_bundles) = py_name_in n active_bundles)
  ∧ (∀ n, py_name_in n (toggled name (toggled name active_bundles))
          = py_name_in n active_bundles)
  ∧ (py_name_in name active_bundles = false →
     toggled name (toggled name active_bundles) = active_bundles).
Proof.
  intros Huniq. split; [|split; [|split; [|split]]].
  - intros n. rewrite occurrences_toggled. specialize (Huniq n).
    pose proof (Huniq' := Huniq). destruct (decide (n = name)) as [->|]; [|lia].
    destruct (occurrences name active_bundles =? 0)%nat; lia.
  - rewrite !py_name_in_occurrences, occurrences_toggled.
    specialize (Huniq name). destruct (decide (name = name)); [|done].
    destruct (Nat.eqb_spec (occurrences name active_bundles) 0) as [H0|H0]; simpl.
    + reflexivity.
    + replace (occurrences name active_bundles) with 1%nat by lia. reflexivity.
  - intros n Hne. rewrite !py_name_in_occurrences, occurrences_toggled.
    by destruct (decide (n = name)).
  - intros n. rewrite !py_name_in_occurrences, !occurrences_toggled.
    specialize (Huniq name). destruct (decide (n = name)) as [->|]; [|reflexivity].
    destruct (decide (name = name)); [|done].
    destruct (Nat.eqb_spec (occurrences name active_bundles) 0) as [H0|H0]; simpl.
    + done.
    + replace (occurrences name active_bundles) with 1%nat by lia. reflexivity.
  - intros Hout. rewrite py_name_in_occurrences in Hout.
    apply negb_false_iff, Nat.eqb_eq in Hout.
    unfold toggled at 2. rewrite py_name_in_occurrences, Hout. simpl.
    unfold toggled. rewrite py_name_in_occurrences, occurrences_app, Hout,
      occurrences_form_value.
    destruct (decide (name = name)); [|done]. simpl.
    by apply py_list_remove_appended.
Qed.

Lemma toggle_flips_membership_witness :
  (∀ n, (occurrences n [VStr "Kitchen"; VStr "Bath"] ≤ 1)%nat)
  ∧ toggled (Some "Kitchen") [VStr "Kitchen"; VStr "Bath"] = [VStr "Bath"]
  ∧ py_name_in (Some "Kitchen") (toggled (Some "Kitchen") [VStr "Kitchen"; VStr "Bath"])
    = false.
Proof.
  assert (H : ∀ n, (occurrences n [VStr "Kitchen"; VStr "Bath"] ≤ 1)%nat).
  { intros [s|]; unfold occurrences; cbn [List.filter name_eqb].
    - destruct (String.eqb_spec "Kitchen" s) as [<-|].
      + cbn. lia.
      + destruct (String.eqb "Bath" s); cbn; lia.
    - cbn. lia. }
  split; [exact H|]. split; [reflexivity|].
  destruct (toggle_flips_membership (Some "Kitchen") _ H) as (_ & Hflip & _).
  rewrite Hflip. reflexivity.
Defined.

Lemma py_str_in_name_in (bundle : string) (l : list pyval) :
  py_str_in bundle l = py_name_in (Some bundle) l.
Proof. reflexivity. Qed.

Lemma material_loop_membership (l1 l2 : list pyval) (materials : list MaterialItem.t)
    (acc : float) :
  (∀ b, py_str_in b l1 = py_str_in b l2) →
  material_loop l1 materials acc = material_loop l2 materials acc.
Proof.
  intros H. revert acc. induction materials as [|m rest IH]; intros acc; simpl.
  - reflexivity.
  - assert (Hm : material_included l1 m = material_included l2 m).
    { unfold material_included. destruct (MaterialItem.bundle m); [|reflexivity].
      by rewrite H. }
    rewrite Hm. apply IH.
Qed.

Lemma locals_result_membership (db : Db) (e1 e2 : Estimate.t) :
  Estimate.id e1 = Estimate.id e2 →
  Estimate.areas_json e1 = Estimate.areas_json e2 →
  Estimate.profit_percentage e1 = Estimate.profit_percentage e2 →
  Estimate.contingency_percentage e1 = Estimate.contingency_percentage e2 →
  (∀ b, py_str_in b (Estimate.get_active_bundles e1)
        = py_str_in b (Estimate.get_active_bundles e2)) →
  locals_result db e1 = locals_result db e2.
Proof.
  intros Hid Ha Hp Hc Hin. unfold locals_result, Estimate.get_areas.
  rewrite Hid, Ha, Hp, Hc.
  by rewrite (material_loop_membership _ _ _ _ Hin).
Qed.

Lemma toggle_bundle_authenticated (estimate_id : Z) (form : gmap string string)
    (w : Web) (estimate : Estimate.t) :
  py_truthy (is_authenticated w) = true →
  estimates w !! estimate_id = Some estimate →
  toggle_bundle estimate_id form w
  = match locals_result (tables w)
            (set_active_bundles
               (toggled (form !! "bundle_name") (Estimate.get_active_bundles estimate))
               estimate) with
    | Ok l =>
        (commit_estimate
           (stored l (set_active_bundles
                        (toggled (form !! "bundle_name")
                                 (Estimate.get_active_bundles estimate))
                        estimate)) w,
         Ok (Redirect "view_estimate" (Some estimate_id)))
    | Raise x => (w, Raise (calculate_failed x))
    end.
Proof.
  intros Hauth Hget. unfold toggle_bundle, login_required. rewrite Hauth. simpl.
  unfold toggle_bundle_view, get_or_404. rewrite Hget. cbv zeta.
  rewrite calculate_estimate_totals_unfold.
  by destruct (locals_result _ _).
Qed.

(** X11: two [toggle_bundle] requests for the same bundle, one after the
    other, leave the estimate with the memberships it had and with the
    four totals a recomputation of the untouched estimate gives, provided
    no name stood twice in its active bundles. *)
Theorem toggle_twice_restores_totals (estimate_id : Z) (form : gmap string string)
    (w w1 w2 : Web) (r1 r2 : response) (estimate : Estimate.t) :
  py_truthy (is_authenticated w) = true →
  estimates w !! estimate_id = Some estimate →
  Estimate.id estimate = estimate_id →
  (∀ n, (occurrences n (Estimate.get_active_bundles estimate) ≤ 1)%nat) →
  toggle_bundle estimate_id form w = (w1, Ok r1) →
  toggle_bundle estimate_id form w1 = (w2, Ok r2) →
  ∃ estimate2,
    estimates w2 !! estimate_id = Some estimate2
    ∧ (∀ n, py_name_in n (Estimate.get_active_bundles estimate2)
            = py_name_in n (Estimate.get_active_bundles estimate))
    ∧ Estimate.computed estimate2
      = Estimate.computed (calculate_estimate_totals (tables w) estimate).1
    ∧ (calculate_estimate_totals (tables w) estimate).2 = Ok tt.
Proof.
  intros Hauth Hget Hid Huniq H1 H2.
  set (name := form !! "bundle_name") in *.
  rewrite (toggle_bundle_authenticated _ _ _ _ Hauth Hget) in H1. fold name in H1.
  destruct (locals_result (tables w) _) as [l1|] eqn:Hl1; [|discriminate].
  injection H1 as <- _.
  set (e1 := stored l1 (set_active_bundles
                          (toggled name (Estimate.get_active_bundles estimate)) estimate))
    in *.
  assert (Hget1 : estimates (commit_estimate e1 w) !! estimate_id = Some e1).
  { unfold commit_estimate. simpl estimates. rewrite Hid. apply lookup_insert_eq. }
  rewrite (toggle_bundle_authenticated _ _ (commit_estimate e1 w) e1 Hauth Hget1) in H2.
  fold name in H2. simpl tables in H2.
  destruct (locals_result (tables w)
              (set_active_bundles (toggled name (Estimate.get_active_bundles e1)) e1))
    as [l2|] eqn:Hl2; [|discriminate].
  injection H2 as <- _.
  pose proof (double_toggle_membership name (Estimate.get_active_bundles estimate)
                Huniq) as Hback.
  assert (Hsame : locals_result (tables w) estimate = Ok l2).
  { rewrite <- Hl2. apply locals_result_membership; try reflexivity.
    intros b. rewrite !py_str_in_name_in. symmetry. apply Hback. }
  eexists. split; [|split; [|split]].
  - unfold commit_estimate. simpl estimates. simpl Estimate.id. rewrite Hid.
    apply lookup_insert_eq.
  - intros n. apply Hback.
  - rewrite calculate_estimate_totals_unfold, Hsame. reflexivity.
  - by rewrite calculate_estimate_totals_unfold, Hsame.
Qed.

Lemma toggle_twice_restores_totals_witness :
  ∃ estimate2,
    estimates (toggle_bundle 7 Site.kitchen_form
                 (toggle_bundle 7 Site.kitchen_form Site.web).1).1 !! 7
    = Some estimate2
    ∧ Estimate.computed estimate2
      = (Some 2000%float, Some 300%float, Some 230%float, Some 2530%float).
Proof.
  assert (Huniq : ∀ n, (occurrences n (Estimate.get_active_bundles Sample.kitchen_on) ≤ 1)%nat).
  { change (Estimate.get_active_bundles Sample.kitchen_on) with [VStr "Kitchen"].
    intros [s|]; unfold occurrences; cbn [List.filter name_eqb].
    - destruct (String.eqb "Kitchen" s); cbn; lia.
    - cbn. lia. }
  assert (H1 : toggle_bundle 7 Site.kitchen_form Site.web
               = ((toggle_bundle 7 Site.kitchen_form Site.web).1,
                  Ok (Redirect "view_estimate" (Some 7))))
    by (vm_compute; reflexivity).
  assert (H2 : toggle_bundle 7 Site.kitchen_form
                 (toggle_bundle 7 Site.kitchen_form Site.web).1
               = ((toggle_bundle 7 Site.kitchen_form
                     (toggle_bundle 7 Site.kitchen_form Site.web).1).1,
                  Ok (Redirect "view_estimate" (Some 7))))
    by (vm_compute; reflexivity).
  destruct (toggle_twice_restores_totals 7 Site.kitchen_form Site.web _ _ _ _
              Sample.kitchen_on eq_refl eq_refl eq_refl Huniq H1 H2)
    as (estimate2 & Hget & _ & Hcomputed & _).
  exists estimate2. split; [exact Hget|].
  rewrite Hcomputed. vm_compute. reflexivity.
Defined.

(* ===================================================================== *)
(** ** Logging in and out *)
(* ===================================================================== *)

Lemma is_authenticated_flash (message category : string) (w : Web) :
  is_authenticated (flash message category w) = is_authenticated w.
Proof. reflexivity. Qed.

(** X12: a session that is not authenticated becomes authenticated by
    [login] exactly when the request is a POST whose password is the one
    of the environment, or 'admin123' when the environment has none; and
    after [logout] a session is not authenticated, whatever it was. *)
Theorem login_opens_only_with_password (method : string)
    (form environ : gmap string string) (w : Web) :
  py_truthy (is_authenticated w) = false →
  (py_truthy (is_authenticated (login method form environ w).1) = true
   ↔ method = "POST"
     ∧ form !! "password" = Some (default "admin123" (environ !! "ADMIN_PASSWORD")))
  ∧ (∀ w0, py_truthy (is_authenticated (logout w0).1) = false)
  ∧ estimates (login method form environ w).1 = estimates w
  ∧ tables (login method form environ w).1 = tables w.
Proof.
  intros Hout. split; [|split; [|split]].
  - unfold login.
    destruct (String.eqb_spec method "POST") as [->|Hmethod].
    + destruct (form !! "password") as [p|] eqn:Hp.
      * destruct (String.eqb_spec p (default "admin123" (environ !! "ADMIN_PASSWORD")))
          as [->|Hne].
        -- split; [done|]. intros _. unfold is_authenticated. simpl.
           rewrite lookup_insert_ne by done. by rewrite lookup_insert_eq.
        -- simpl. rewrite is_authenticated_flash, Hout. split; [discriminate|].
           intros (_ & [= Heq]). by destruct Hne.
      * simpl. rewrite is_authenticated_flash, Hout. split; [discriminate|].
        by intros (_ & [=]).
    + simpl. rewrite Hout. split; [discriminate|]. by intros (Hm & _).
  - intros w0. unfold is_authenticated. simpl. by rewrite lookup_delete_eq.
  - unfold login. destruct (String.eqb method "POST"); [|reflexivity].
    by destruct (match form !! "password" with Some p => _ | None => false end).
  - unfold login. destruct (String.eqb method "POST"); [|reflexivity].
    by destruct (match form !! "password" with Some p => _ | None => false end).
Qed.

Lemma login_opens_only_with_password_witness :
  py_truthy (is_authenticated Site.anonymous) = false
  ∧ py_truthy (is_authenticated
                 (login "POST" {[ "password" := "admin123" ]} ∅ Site.anonymous).1) = true.
Proof.
  split; [reflexivity|].
  apply (login_opens_only_with_password "POST" {[ "password" := "admin123" ]} ∅
           Site.anonymous eq_refl).
  split; reflexivity.
Defined.

Lemma login_required_refuses (view : Web → Web * result response) (w : Web) :
  py_truthy (is_authenticated w) = false →
  login_required view w
  = (flash "Please log in to access this page." "error" w, Ok (Redirect "login" None)).
Proof. intros H. unfold login_required. by rewrite H. Qed.

(** X13: for a session that is not authenticated (after [logout], any
    session), [toggle_bundle], [update_estimate_settings] and
    [duplicate_estimate] do nothing but flash a message and redirect to
    the login page: the estimates and the tables are left as they were. *)
Theorem protected_routes_need_login (w : Web) (estimate_id : Z)
    (form : gmap string string) (py_float : string → option float)
    (new_id : Z) (material_id labor_id : nat → Z) :
  py_truthy (is_authenticated w) = false →
  let refused :=
    (flash "Please log in to access this page." "error" w, Ok (Redirect "login" None)) in
  toggle_bundle estimate_id form w = refused
  ∧ update_estimate_settings py_float estimate_id form w = refused
  ∧ duplicate_estimate new_id material_id labor_id estimate_id w = refused
  ∧ estimates refused.1 = estimates w
  ∧ tables refused.1 = tables w
  ∧ (∀ w0, py_truthy (is_authenticated (logout w0).1) = false
           ∧ estimates (toggle_bundle estimate_id form (logout w0).1).1 = estimates w0
           ∧ tables (toggle_bundle estimate_id form (logout w0).1).1 = tables w0).
Proof.
  intros Hout. cbv zeta.
  unfold toggle_bundle, update_estimate_settings, duplicate_estimate.
  rewrite !(login_required_refuses _ _ Hout).
  split; [reflexivity|]. split; [reflexivity|]. split; [reflexivity|].
  split; [reflexivity|]. split; [reflexivity|].
  intros w0.
  assert (H0 : py_truthy (is_authenticated (logout w0).1) = false).
  { unfold is_authenticated. simpl. by rewrite lookup_delete_eq. }
  split; [exact H0|]. by rewrite !(login_required_refuses _ _ H0).
Qed.

Lemma protected_routes_need_login_witness :
  py_truthy (is_authenticated Site.anonymous) = false
  ∧ estimates (toggle_bundle 7 Site.kitchen_form Site.anonymous).1
    = estimates Site.anonymous.
Proof.
  split; [reflexivity|].
  destruct (protected_routes_need_login Site.anonymous 7 Site.kitchen_form
              Site.py_float 8 Z.of_nat Z.of_nat eq_refl) as (-> & _ & _ & Hsame & _).
  exact Hsame.
Defined.

(* ===================================================================== *)
(** ** Updating the settings *)
(* ===================================================================== *)

Lemma clamp_percentage_cases (x : float) :
  ((x <? 100)%float = false → clamp_percentage x = 100%float)
  ∧ ((x <? 100)%float = true → (0 <? x)%float = false → clamp_percentage x = 0%float)
  ∧ ((x <? 100)%float = true → (0 <? x)%float = true → clamp_percentage x = x).
Proof.
  unfold clamp_percentage. repeat split.
  - by intros ->.
  - by intros -> ->.
  - by intros -> ->.
Qed.

Lemma update_estimate_settings_authenticated (py_float : string → option float)
    (estimate_id : Z) (form : gmap string string) (w : Web) (estimate : Estimate.t)
    (p c : float) :
  py_truthy (is_authenticated w) = true →
  estimates w !! estimate_id = Some estimate →
  form_float py_float form "profit_percentage" 15 = Some p →
  form_float py_float form "contingency_percentage" 10 = Some c →
  update_estimate_settings py_float estimate_id form w
  = match locals_result (tables w)
            (set_percentages (clamp_percentage p) (clamp_percentage c) estimate) with
    | Ok l =>
        (flash "Settings updated successfully!" "success"
           (commit_estimate
              (stored l (set_percentages (clamp_percentage p) (clamp_percentage c) estimate))
              w),
         Ok (Redirect "view_estimate" (Some estimate_id)))
    | Raise x => (w, Raise (calculate_failed x))
    end.
Proof.
  intros Hauth Hget Hp Hc. unfold update_estimate_settings, login_required.
  rewrite Hauth. simpl.
  unfold update_estimate_settings_view, get_or_404. rewrite Hget, Hp, Hc. cbv zeta.
  rewrite calculate_estimate_totals_unfold.
  by destruct (locals_result _ _).
Qed.

(** X14: when [update_estimate_settings] succeeds on two parsed numbers,
    the committed estimate holds each clamped by [max(0, min(100, x))],
    which is 100 unless [x < 100] (so also for NaN), 0 unless [x > 0] and
    [x] otherwise, and its four totals are recomputed with them; a profit
    percentage that is not above 0 is stored as 0 and charged at the
    default 15%. *)
Theorem update_settings_clamps (py_float : string → option float) (estimate_id : Z)
    (form : gmap string string) (w w' : Web) (r : response) (estimate : Estimate.t)
    (p c : float) :
  py_truthy (is_authenticated w) = true →
  estimates w !! estimate_id = Some estimate →
  Estimate.id estimate = estimate_id →
  form_float py_float form "profit_percentage" 15 = Some p →
  form_float py_float form "contingency_percentage" 10 = Some c →
  update_estimate_settings py_float estimate_id form w = (w', Ok r) →
  ∃ estimate' l,
    estimates w' !! estimate_id = Some estimate'
    ∧ Estimate.profit_percentage estimate' = Some (clamp_percentage p)
    ∧ Estimate.contingency_percentage estimate' = Some (clamp_percentage c)
    ∧ ((p <? 100)%float = false → clamp_percentage p = 100%float)
    ∧ ((p <? 100)%float = true → (0 <? p)%float = false → clamp_percentage p = 0%float)
    ∧ ((p <? 100)%float = true → (0 <? p)%float = true → clamp_percentage p = p)
    ∧ compute_locals (tables w)
        (set_percentages (clamp_percentage p) (clamp_percentage c) estimate)
      = (set_percentages (clamp_percentage p) (clamp_percentage c) estimate, Ok l)
    ∧ Estimate.computed estimate'
      = (Some (py_round2 (Locals.subtotal l)), Some (py_round2 (Locals.profit_amount l)),
         Some (py_round2 (Locals.contingency_amount l)),
         Some (py_round2 (Locals.grand_total l)))
    ∧ ((p <? 100)%float = true → (0 <? p)%float = false →
       Estimate.profit_amount estimate'
       = Some (py_round2 (Locals.subtotal l * (15 / 100))%float)).
Proof.
  intros Hauth Hget Hid Hp Hc.
  rewrite (update_estimate_settings_authenticated _ _ _ _ _ _ _ Hauth Hget Hp Hc).
  destruct (locals_result _ _) as [l|] eqn:Hl; [|discriminate].
  intros [= <- _]. eexists _, l.
  destruct (clamp_percentage_cases p) as (Hhigh & Hlow & Hmid).
  split.
  { unfold commit_estimate. simpl estimates. simpl Estimate.id. rewrite Hid.
    apply lookup_insert_eq. }
  split; [reflexivity|]. split; [reflexivity|].
  split; [exact Hhigh|]. split; [exact Hlow|]. split; [exact Hmid|].
  split; [by rewrite compute_locals_unfold, Hl|].
  split; [apply stored_computed|].
  - intros H100 H0. simpl.
    destruct (locals_result_Ok _ _ _ Hl) as (_ & _ & _ & _ & _ & _ & _ & _ & Hprofit & _).
    rewrite Hprofit. simpl Estimate.profit_percentage. by rewrite (Hlow H100 H0).
Qed.

Lemma update_settings_clamps_witness :
  ∃ estimate',
    estimates (update_estimate_settings Site.py_float 7 Site.settings_form Site.web).1 !! 7
    = Some estimate'
    ∧ Estimate.profit_percentage estimate' = Some 0%float
    ∧ Estimate.contingency_percentage estimate' = Some 100%float.
Proof.
  assert (H : update_estimate_settings Site.py_float 7 Site.settings_form Site.web
              = ((update_estimate_settings Site.py_float 7 Site.settings_form Site.web).1,
                 Ok (Redirect "view_estimate" (Some 7))))
    by (vm_compute; reflexivity).
  assert (Hp : form_float Site.py_float Site.settings_form "profit_percentage" 15
               = Some (-5)%float) by (vm_compute; reflexivity).
  assert (Hc : form_float Site.py_float Site.settings_form "contingency_percentage" 10
               = Some nan) by (vm_compute; reflexivity).
  destruct (update_settings_clamps Site.py_float 7 Site.settings_form Site.web _ _
              Sample.kitchen_on (-5)%float nan eq_refl eq_refl eq_refl Hp Hc H)
    as (estimate' & l & Hget & Hprofit & Hcont & _).
  exists estimate'. split; [exact Hget|]. split; [exact Hprofit | exact Hcont].
Defined.

(* ===================================================================== *)
(** ** Duplicating an estimate *)
(* ===================================================================== *)

Lemma copy_materials_loop (active_bundles : list pyval) (new_id : Z) (row_id : nat → Z)
    (materials : list MaterialItem.t) (i : nat) (acc : float) :
  material_loop active_bundles (copy_materials new_id row_id i materials) acc
  = material_loop active_bundles materials acc.
Proof.
  revert i acc. induction materials as [|m rest IH]; intros i acc; simpl; [reflexivity|].
  apply IH.
Qed.

Lemma copy_labor_loop (new_id : Z) (row_id : nat → Z) (labor_items : list LaborItem.t)
    (i : nat) (acc : float) :
  labor_loop (copy_labor new_id row_id i labor_items) acc = labor_loop labor_items acc.
Proof.
  revert i acc. induction labor_items as [|l rest IH]; intros i acc; simpl; [reflexivity|].
  apply IH.
Qed.

Lemma filter_copy_materials (new_id k : Z) (row_id : nat → Z)
    (materials : list MaterialItem.t) (i : nat) :
  List.filter (fun m => MaterialItem.estimate_id m =? k)
              (copy_materials new_id row_id i materials)
  = if new_id =? k then copy_materials new_id row_id i materials else [].
Proof.
  revert i. induction materials as [|m rest IH]; intros i; simpl.
  - by destruct (new_id =? k).
  - rewrite IH. by destruct (new_id =? k).
Qed.

Lemma filter_copy_labor (new_id k : Z) (row_id : nat → Z)
    (labor_items : list LaborItem.t) (i : nat) :
  List.filter (fun l => LaborItem.estimate_id l =? k)
              (copy_labor new_id row_id i labor_items)
  = if new_id =? k then copy_labor new_id row_id i labor_items else [].
Proof.
  revert i. induction labor_items as [|l rest IH]; intros i; simpl.
  - by destruct (new_id =? k).
  - rewrite IH. by destruct (new_id =? k).
Qed.

Lemma filter_none {A : Type} (p : A → bool) (l : list A) :
  Forall (fun x => p x = false) l → List.filter p l = [].
Proof.
  induction 1 as [|x rest Hx _ IH]; simpl; [reflexivity|]. by rewrite Hx.
Qed.

(** The queries on the tables with the copies: the duplicate finds the
    copies, every other estimate what it found before. *)
Lemma tables_with_copies_queries (new_id : Z) (material_id labor_id : nat → Z)
    (original : Estimate.t) (db : Db) :
  Forall (fun m => MaterialItem.estimate_id m ≠ new_id) (material_items db) →
  Forall (fun l => LaborItem.estimate_id l ≠ new_id) (labor_items db) →
  let db' := tables_with_copies new_id material_id labor_id original db in
  query_materials db' new_id
  = copy_materials new_id material_id 0 (query_materials db (Estimate.id original))
  ∧ query_labor db' new_id
    = copy_labor new_id labor_id 0 (query_labor db (Estimate.id original))
  ∧ (∀ k, k ≠ new_id → query_materials db' k = query_materials db k
                       ∧ query_labor db' k = query_labor db k).
Proof.
  intros Hm Hl. cbv zeta. unfold tables_with_copies, query_materials, query_labor. simpl.
  rewrite !List.filter_app, filter_copy_materials, filter_copy_labor, Z.eqb_refl.
  rewrite (filter_none _ (material_items db)), (filter_none _ (labor_items db)).
  - split; [reflexivity|]. split; [reflexivity|].
    intros k Hk. rewrite !List.filter_app, filter_copy_materials, filter_copy_labor.
    destruct (Z.eqb_spec new_id k) as [Heq|_]; [by destruct Hk|].
    by rewrite !app_nil_r.
  - eapply Forall_impl; [exact Hl|]. intros l H. simpl in *. by apply Z.eqb_neq.
  - eapply Forall_impl; [exact Hm|]. intros m H. simpl in *. by apply Z.eqb_neq.
Qed.

Lemma py_or_float_default (x : option float) (d : float) :
  float_truthy d = true → py_or_float (Some (default d x)) d = py_or_float x d.
Proof.
  intros Hd. destruct x as [f|]; simpl; [reflexivity|]. by rewrite Hd.
Qed.

Lemma duplicate_locals (new_id : Z) (material_id labor_id : nat → Z)
    (original : Estimate.t) (db : Db) :
  Forall (fun m => MaterialItem.estimate_id m ≠ new_id) (material_items db) →
  Forall (fun l => LaborItem.estimate_id l ≠ new_id) (labor_items db) →
  locals_result (tables_with_copies new_id material_id labor_id original db)
                (duplicate_row new_id original)
  = locals_result db original.
Proof.
  intros Hm Hl.
  destruct (tables_with_copies_queries new_id material_id labor_id original db Hm Hl)
    as (Hqm & Hql & _).
  unfold locals_result. simpl Estimate.id.
  rewrite Hqm, Hql, copy_materials_loop, copy_labor_loop.
  simpl Estimate.profit_percentage. simpl Estimate.contingency_percentage.
  rewrite !py_or_float_default by reflexivity.
  reflexivity.
Qed.

(** X15: [duplicate_estimate], given an id no row refers to, ends as a
    recomputation of the original would: when that returns, the copy is
    committed under the new id with the four totals it gives, the name
    followed by ' (Copy)', the same area records and active bundles, and
    the original and its rows are as before; when that raises, the same
    exception is raised and nothing is committed. *)
Theorem duplicate_has_totals_of_original (new_id : Z) (material_id labor_id : nat → Z)
    (estimate_id : Z) (w : Web) (original : Estimate.t) :
  py_truthy (is_authenticated w) = true →
  estimates w !! estimate_id = Some original →
  Estimate.id original = estimate_id →
  estimates w !! new_id = None →
  Forall (fun m => MaterialItem.estimate_id m ≠ new_id) (material_items (tables w)) →
  Forall (fun l => LaborItem.estimate_id l ≠ new_id) (labor_items (tables w)) →
  match calculate_estimate_totals (tables w) original with
  | (recomputed, Ok _) =>
      ∃ w' duplicate,
        duplicate_estimate new_id material_id labor_id estimate_id w
        = (w', Ok (Redirect "view_estimate" (Some new_id)))
        ∧ estimates w' !! new_id = Some duplicate
        ∧ Estimate.computed duplicate = Estimate.computed recomputed
        ∧ Estimate.name duplicate = Estimate.name original ++ " (Copy)"
        ∧ Estimate.areas_json duplicate = Estimate.areas_json original
        ∧ Estimate.active_bundles_json duplicate = Estimate.active_bundles_json original
        ∧ estimates w' !! estimate_id = Some original
        ∧ query_materials (tables w') estimate_id = query_materials (tables w) estimate_id
        ∧ query_labor (tables w') estimate_id = query_labor (tables w) estimate_id
  | (_, Raise x) =>
      duplicate_estimate new_id material_id labor_id estimate_id w = (w, Raise x)
  end.
Proof.
  intros Hauth Hget Hid Hfresh Hm Hl.
  assert (Hne : estimate_id ≠ new_id) by (intros ->; congruence).
  unfold duplicate_estimate, login_required. rewrite Hauth. simpl negb. cbv iota.
  unfold duplicate_estimate_view, get_or_404. rewrite Hget. cbv zeta.
  rewrite !calculate_estimate_totals_unfold, (duplicate_locals _ _ _ _ _ Hm Hl).
  destruct (locals_result (tables w) original) as [l|x]; [|reflexivity].
  eexists _, _. split; [reflexivity|].
  destruct (tables_with_copies_queries new_id material_id labor_id original (tables w)
              Hm Hl) as (_ & _ & Hother).
  destruct (Hother estimate_id Hne) as (Hqm & Hql).
  simpl. split; [apply lookup_insert_eq|].
  split; [reflexivity|]. split; [reflexivity|]. split; [reflexivity|].
  split; [reflexivity|].
  split; [by rewrite lookup_insert_ne|].
  split; [exact Hqm | exact Hql].
Qed.

Lemma duplicate_has_totals_of_original_witness :
  ∃ w' duplicate,
    duplicate_estimate 8 Z.of_nat Z.of_nat 7
      (mkWeb {[ "authenticated" := VBool true ]} [] {[ 7 := Sample.kitchen_on ]}
             (mkDb [Sample.material (Some "Kitchen") (Some 500%float);
                    Sample.material None (Some 200%float)]
                   [Sample.labor (Some 300%float)]))
    = (w', Ok (Redirect "view_estimate" (Some 8)))
    ∧ estimates w' !! 8 = Some duplicate
    ∧ Estimate.computed duplicate
      = (Some 2000%float, Some 300%float, Some 230%float, Some 2530%float).
Proof.
  pose proof (duplicate_has_totals_of_original 8 Z.of_nat Z.of_nat 7
                (mkWeb {[ "authenticated" := VBool true ]} [] {[ 7 := Sample.kitchen_on ]}
                       (mkDb [Sample.material (Some "Kitchen") (Some 500%float);
                              Sample.material None (Some 200%float)]
                             [Sample.labor (Some 300%float)]))
                Sample.kitchen_on eq_refl eq_refl eq_refl eq_refl) as H.
  simpl tables in H. simpl material_items in H. simpl labor_items in H.
  assert (Hm : Forall (fun m => MaterialItem.estimate_id m ≠ 8)
                 [Sample.material (Some "Kitchen") (Some 500%float);
                  Sample.material None (Some 200%float)]).
  { repeat constructor; simpl; lia. }
  assert (Hl : Forall (fun l => LaborItem.estimate_id l ≠ 8)
                 [Sample.labor (Some 300%float)]).
  { repeat constructor; simpl; lia. }
  specialize (H Hm Hl).
  destruct (calculate_estimate_totals _ Sample.kitchen_on) as [recomputed [u|x]] eqn:Hc.
  - destruct H as (w' & duplicate & Hd & Hget & Hcomputed & _).
    exists w', duplicate. split; [exact Hd|]. split; [exact Hget|].
    rewrite Hcomputed. vm_compute in Hc. by injection Hc as <- _.
  - vm_compute in Hc. discriminate.
Defined.

(* ===================================================================== *)
(** ** Upload names *)
(* ===================================================================== *)

Lemma endswith_spec (s suffix : string) :
  endswith s suffix = true ↔ ∃ stem, s = stem ++ suffix.
Proof.
  induction s as [|c rest IH]; cbn [endswith].
  - rewrite orb_false_r. split.
    + intros H. apply String.eqb_eq in H. subst. by exists "".
    + intros (stem & H). destruct stem as [|c' stem].
      * change ("" = suffix) in H. subst. apply String.eqb_refl.
      * change ("" = String c' (stem ++ suffix)) in H. discriminate.
  - rewrite orb_true_iff, IH. split.
    + intros [H|(stem & ->)].
      * apply String.eqb_eq in H. subst. by exists "".
      * by exists (String c stem).
    + intros (stem & H). destruct stem as [|c' stem].
      * left. change (String c rest = suffix) in H. subst. apply String.eqb_refl.
      * right. change (String c rest = String c' (stem ++ suffix)) in H.
        injection H as -> ->. by exists stem.
Qed.

Lemma lower_ascii_idempotent (c : ascii) : lower_ascii (lower_ascii c) = lower_ascii c.
Proof. destruct c as [[] [] [] [] [] [] [] []]; reflexivity. Qed.

Lemma lower_idempotent (s : string) : lower (lower s) = lower s.
Proof.
  induction s as [|c rest IH]; simpl; [reflexivity|].
  by rewrite lower_ascii_idempotent, IH.
Qed.

Lemma lower_empty (s : string) : String.eqb (lower s) "" = String.eqb s "".
Proof. by destruct s. Qed.

Lemma endswith_pdf_not_csv (s : string) :
  endswith s ".pdf" = true → endswith s ".csv" = false.
Proof.
  induction s as [|c rest IH]; cbn [endswith]; [discriminate|].
  rewrite orb_true_iff, orb_false_iff. intros [H|H].
  - apply String.eqb_eq in H. injection H as -> ->. split; reflexivity.
  - split; [|by apply IH]. apply String.eqb_neq. intros Heq.
    injection Heq as -> ->. vm_compute in H. discriminate.
Qed.

(** X16: [allowed_file] accepts a name for 'pdf' (for 'csv') exactly when
    it is a non-empty string whose lower-cased form ends in '.pdf'
    ('.csv'); it accepts nothing for any other type; the case of the name
    does not matter; and no name is accepted both as pdf and as csv. *)
Theorem allowed_file_by_extension (filename : option string) (file_type : string) :
  (allowed_file filename file_type = true
   ↔ ∃ name stem,
       filename = Some name
       ∧ ((file_type = "pdf" ∧ lower name = stem ++ ".pdf")
          ∨ (file_type = "csv" ∧ lower name = stem ++ ".csv")))
  ∧ (∀ name, allowed_file (Some (lower name)) file_type
             = allowed_file (Some name) file_type)
  ∧ (allowed_file filename "pdf" = true → allowed_file filename "csv" = false).
Proof.
  split; [|split].
  - unfold allowed_file, str_truthy. destruct filename as [name|]; simpl.
    + destruct (String.eqb_spec name "") as [->|Hne]; simpl.
      * split; [discriminate|].
        intros (name & stem & [= <-] & [(_ & H)|(_ & H)]);
          destruct stem; discriminate.
      * destruct (String.eqb_spec file_type "pdf") as [->|Hpdf].
        -- rewrite endswith_spec. split.
           ++ intros (stem & H). exists name, stem. split; [reflexivity|]. by left.
           ++ intros (n & stem & [= <-] & [(_ & H)|([=] & _)]). by exists stem.
        -- destruct (String.eqb_spec file_type "csv") as [->|Hcsv].
           ++ rewrite endswith_spec. split.
              ** intros (stem & H). exists name, stem. split; [reflexivity|]. by right.
              ** intros (n & stem & [= <-] & [([=] & _)|(_ & H)]). by exists stem.
           ++ split; [discriminate|].
              intros (n & stem & _ & [(H & _)|(H & _)]); by subst.
    + split; [discriminate|]. by intros (n & stem & [=] & _).
  - intros name. unfold allowed_file, str_truthy. simpl.
    by rewrite lower_empty, lower_idempotent.
  - unfold allowed_file, str_truthy. destruct filename as [name|]; simpl; [|discriminate].
    destruct (String.eqb name ""); simpl; [discriminate|].
    apply endswith_pdf_not_csv.
Qed.

Lemma allowed_file_by_extension_witness :
  allowed_file (Some "Plan.A.PDF") "pdf" = true
  ∧ allowed_file (Some "Plan.A.PDF") "csv" = false.
Proof.
  split; [reflexivity|].
  by apply (allowed_file_by_extension (Some "Plan.A.PDF") "csv").
Defined.

(* ===================================================================== *)
(** ** The entries of the report are priced *)
(* ===================================================================== *)

Lemma dict_set_Forall {V : Type} (R : pyval * V → Prop) (d : list (pyval * V))
    (k : pyval) (v : V) :
  (∀ k' v', R (k', v') → R (k', v)) → R (k, v) → Forall R d → Forall R (dict_set d k v).
Proof.
  intros Hkey Hnew. induction 1 as [|[k' v'] rest Hhead Hrest IH]; simpl.
  - by constructor.
  - destruct (py_key_eqb k' k); constructor; try done. by apply (Hkey k' v').
Qed.

Lemma breakdown_area_step_priced (area : pyval) (b b' : Breakdown.t) :
  breakdown_area_step area b = Ok b' →
  Forall priced_entry (Breakdown.area_costs b) →
  Forall priced_entry (Breakdown.area_costs b').
Proof.
  rewrite breakdown_area_step_unfold.
  destruct area as [| | | | | |d]; try discriminate.
  unfold mbind, result_bind. cbv zeta.
  destruct (default (VStr "Interior") (d !! "category")) as [| | | |c| |] eqn:Hc;
    try discriminate.
  simpl py_lower. cbv iota beta.
  destruct (py_mul_float _ _) as [cost|] eqn:Hmul; [|discriminate].
  destruct (py_hashable _) eqn:Hhash; [|discriminate].
  intros [= <-] Hold. simpl Breakdown.area_costs.
  destruct (py_mul_float_Ok _ _ _ Hmul) as (a & Ha & ->).
  apply dict_set_Forall; [| |exact Hold].
  - intros k' v' (Hk & _). split; [exact Hk|]. by exists a, c.
  - split; [exact Hhash|]. by exists a, c.
Qed.

Lemma breakdown_area_loop_priced (areas : list pyval) (b b' : Breakdown.t) :
  breakdown_area_loop areas b = Ok b' →
  Forall priced_entry (Breakdown.area_costs b) →
  Forall priced_entry (Breakdown.area_costs b').
Proof.
  revert b. induction areas as [|area rest IH]; intros b; simpl.
  - by intros [= <-].
  - unfold mbind, result_bind.
    destruct (breakdown_area_step area b) as [b1|] eqn:Hstep; [|discriminate].
    intros Hrest Hold. apply (IH _ Hrest). by apply (breakdown_area_step_priced _ _ _ Hstep).
Qed.

(** X17: every entry of [area_costs] in a report has a hashable key, a
    string category, the rate 15, 25 or 20 of that category, and as cost
    its numeric area times that rate. *)
Theorem report_entries_are_priced (db : Db) (estimate : Estimate.t)
    (breakdown : Breakdown.t) :
  get_cost_breakdown db estimate = Ok breakdown →
  Forall priced_entry (Breakdown.area_costs breakdown)
  ∧ Forall (fun item => AreaEntry.psf_rate item.2 = 15%float
                        ∨ AreaEntry.psf_rate item.2 = 25%float
                        ∨ AreaEntry.psf_rate item.2 = 20%float)
           (Breakdown.area_costs breakdown).
Proof.
  unfold get_cost_breakdown. cbv zeta.
  destruct (py_iter _) as [areas|]; [|discriminate].
  unfold mbind, result_bind. intros Hb.
  assert (H : Forall priced_entry (Breakdown.area_costs breakdown)).
  { apply (breakdown_area_loop_priced _ _ _ Hb).
    rewrite breakdown_labor_loop_area_costs, breakdown_material_loop_area_costs.
    constructor. }
  split; [exact H|].
  eapply Forall_impl; [exact H|].
  intros item (_ & a & c & _ & _ & Hrate & _). rewrite Hrate.
  unfold rate_for_category.
  destruct (String.eqb (lower c) "exterior"); [by left|].
  destruct (String.eqb (lower c) "utility"); [right; by left | right; by right].
Qed.

Lemma report_entries_are_priced_witness :
  ∃ breakdown,
    get_cost_breakdown Sample.db Sample.shared_room = Ok breakdown
    ∧ Forall priced_entry (Breakdown.area_costs breakdown).
Proof.
  assert (H : ∃ b, get_cost_breakdown Sample.db Sample.shared_room = Ok b)
    by (eexists; vm_compute; reflexivity).
  destruct H as (breakdown & Hb). exists breakdown. split; [exact Hb|].
  exact (proj1 (report_entries_are_priced _ _ _ Hb)).
Defined.

(* ===================================================================== *)
(** ** A toggle without a bundle name *)
(* ===================================================================== *)

(** X18: a [toggle_bundle] request without the field 'bundle_name' puts
    [None] into the active bundles (or takes it out), which no material
    matches: the estimate is committed with the totals a recomputation of
    the untouched estimate gives, and fails as that would. *)
Theorem toggle_without_name_keeps_totals (estimate_id : Z) (form : gmap string string)
    (w : Web) (estimate : Estimate.t) :
  py_truthy (is_authenticated w) = true →
  estimates w !! estimate_id = Some estimate →
  Estimate.id estimate = estimate_id →
  form !! "bundle_name" = None →
  match calculate_estimate_totals (tables w) estimate with
  | (recomputed, Ok _) =>
      ∃ w' estimate',
        toggle_bundle estimate_id form w
        = (w', Ok (Redirect "view_estimate" (Some estimate_id)))
        ∧ estimates w' !! estimate_id = Some estimate'
        ∧ Estimate.get_active_bundles estimate'
          = toggled None (Estimate.get_active_bundles estimate)
        ∧ (∀ bundle, py_str_in bundle (Estimate.get_active_bundles estimate')
                     = py_str_in bundle (Estimate.get_active_bundles estimate))
        ∧ Estimate.computed estimate' = Estimate.computed recomputed
  | (_, Raise x) => toggle_bundle estimate_id form w = (w, Raise x)
  end.
Proof.
  intros Hauth Hget Hid Hform.
  rewrite (toggle_bundle_authenticated _ _ _ _ Hauth Hget), Hform.
  assert (Hin : ∀ bundle,
            py_str_in bundle (toggled None (Estimate.get_active_bundles estimate))
            = py_str_in bundle (Estimate.get_active_bundles estimate)).
  { intros bundle. rewrite !py_str_in_name_in, !py_name_in_occurrences,
      occurrences_toggled. by destruct (decide (Some bundle = None)). }
  rewrite calculate_estimate_totals_unfold.
  rewrite (locals_result_membership (tables w)
             (set_active_bundles (toggled None (Estimate.get_active_bundles estimate))
                                 estimate) estimate) by done.
  destruct (locals_result (tables w) estimate) as [l|x]; [|reflexivity].
  eexists _, _. split; [reflexivity|].
  split.
  { unfold commit_estimate. simpl estimates. simpl Estimate.id. rewrite Hid.
    apply lookup_insert_eq. }
  split; [reflexivity|]. split; [exact Hin | reflexivity].
Qed.

Lemma toggle_without_name_keeps_totals_witness :
  ∃ w' estimate',
    toggle_bundle 7 ∅ Site.web = (w', Ok (Redirect "view_estimate" (Some 7)))
    ∧ estimates w' !! 7 = Some estimate'
    ∧ Estimate.get_active_bundles estimate' = [VStr "Kitchen"; VNone]
    ∧ Estimate.computed estimate'
      = (Some 2000%float, Some 300%float, Some 230%float, Some 2530%float).
Proof.
  pose proof (toggle_without_name_keeps_totals 7 ∅ Site.web Sample.kitchen_on
                eq_refl eq_refl eq_refl eq_refl) as H.
  destruct (calculate_estimate_totals (tables Site.web) Sample.kitchen_on)
    as [recomputed [u|x]] eqn:Hc.
  - destruct H as (w' & estimate' & Ht & Hget & Hactive & _ & Hcomputed).
    exists w', estimate'. split; [exact Ht|]. split; [exact Hget|].
    split; [exact Hactive|].
    rewrite Hcomputed. vm_compute in Hc. by injection Hc as <- _.
  - vm_compute in Hc. discriminate.
Defined.

(* ===================================================================== *)
(** ** The spend ledger *)
(* ===================================================================== *)

Lemma add_to_first_other (ledger ledger' : list OpenAIUsage.t) (m m' : string)
    (cost : float) :
  add_to_first ledger m cost = Ok ledger' → m' ≠ m →
  usage_first ledger' m' = usage_first ledger m'.
Proof.
  revert ledger'. induction ledger as [|u rest IH]; intros ledger'; simpl.
  - by intros [= <-].
  - destruct (String.eqb_spec (OpenAIUsage.month u) m) as [Hm|Hm].
    + destruct (OpenAIUsage.total_spent u); [|discriminate].
      intros [= <-] Hne. simpl. rewrite Hm.
      by destruct (String.eqb_spec m m').
    + unfold mbind, result_bind.
      destruct (add_to_first rest m cost) as [rest'|] eqn:Hrest; [|discriminate].
      intros [= <-] Hne. simpl. by rewrite (IH _ eq_refl Hne).
Qed.

Lemma add_to_first_month (ledger ledger' : list OpenAIUsage.t) (m : string)
    (cost : float) (u : OpenAIUsage.t) :
  add_to_first ledger m cost = Ok ledger' → usage_first ledger m = Some u →
  ∃ t u', OpenAIUsage.total_spent u = Some t
          ∧ usage_first ledger' m = Some u'
          ∧ OpenAIUsage.total_spent u' = Some (t + cost)%float
          ∧ OpenAIUsage.id u' = OpenAIUsage.id u
          ∧ length ledger' = length ledger.
Proof.
  revert ledger'. induction ledger as [|u0 rest IH]; intros ledger'; simpl; [discriminate|].
  destruct (String.eqb_spec (OpenAIUsage.month u0) m) as [Hm|Hm].
  - destruct (OpenAIUsage.total_spent u0) as [t|] eqn:Ht; [|discriminate].
    intros [= <-] [= <-]. exists t. eexists. split; [exact Ht|].
    simpl. rewrite Hm, String.eqb_refl. by repeat split.
  - unfold mbind, result_bind.
    destruct (add_to_first rest m cost) as [rest'|] eqn:Hrest; [|discriminate].
    intros [= <-] Hu. destruct (IH _ eq_refl Hu) as (t & u' & Ht & Hget & Hsum & Hid & Hlen).
    exists t, u'. simpl. destruct (String.eqb_spec (OpenAIUsage.month u0) m); [done|].
    repeat split; try done. by rewrite Hlen.
Qed.

Lemma usage_first_app (l1 l2 : list OpenAIUsage.t) (m : string) :
  usage_first (l1 ++ l2) m
  = match usage_first l1 m with Some u => Some u | None => usage_first l2 m end.
Proof.
  induction l1 as [|u rest IH]; simpl; [reflexivity|].
  by destruct (String.eqb (OpenAIUsage.month u) m).
Qed.

(** X19: [update_spend_tracking] adds the cost to the month's first row,
    or opens the month with a row holding [0.0 + cost] when it has none,
    and never adds a row to a month that has one; the rows that
    [check_spend_limit] reads for any other month, and so its outcome for
    that month, are untouched. *)
Theorem spend_is_tracked_per_month (new_id : Z) (current_month : string) (cost : float)
    (ledger ledger' : list OpenAIUsage.t) :
  update_spend_tracking new_id current_month cost ledger = Ok ledger' →
  (∃ usage',
     usage_first ledger' current_month = Some usage'
     ∧ match usage_first ledger current_month with
       | Some usage =>
           ∃ t, OpenAIUsage.total_spent usage = Some t
                ∧ OpenAIUsage.total_spent usage' = Some (t + cost)%float
                ∧ length ledger' = length ledger
       | None =>
           OpenAIUsage.total_spent usage' = Some (0 + cost)%float
           ∧ length ledger' = S (length ledger)
       end)
  ∧ (∀ month, month ≠ current_month →
       usage_first ledger' month = usage_first ledger month
       ∧ ∀ cap cap_text, check_spend_limit cap cap_text month ledger'
                         = check_spend_limit cap cap_text month ledger).
Proof.
  unfold update_spend_tracking.
  destruct (usage_first ledger current_month) as [u|] eqn:Hfirst.
  - intros Hadd. split.
    + destruct (add_to_first_month _ _ _ _ _ Hadd Hfirst)
        as (t & u' & Ht & Hget & Hsum & _ & Hlen).
      exists u'. split; [exact Hget|]. by exists t.
    + intros month Hne. pose proof (add_to_first_other _ _ _ _ _ Hadd Hne) as Hsame.
      split; [exact Hsame|]. intros cap cap_text. unfold check_spend_limit.
      by rewrite Hsame.
  - intros [= <-]. split.
    + eexists. rewrite usage_first_app, Hfirst. simpl. rewrite String.eqb_refl.
      split; [reflexivity|]. split; [reflexivity|].
      rewrite length_app. simpl. lia.
    + intros month Hne.
      assert (Hsame : usage_first
                        (ledger ++ [OpenAIUsage.mk new_id current_month
                                                   (Some (0 + cost)%float)]) month
                      = usage_first ledger month).
      { rewrite usage_first_app. destruct (usage_first ledger month); [reflexivity|].
        simpl. by destruct (String.eqb_spec current_month month). }
      split; [exact Hsame|]. intros cap cap_text. unfold check_spend_limit.
      by rewrite Hsame.
Qed.

Lemma spend_is_tracked_per_month_witness :
  update_spend_tracking 2 "2026-11" 0.02%float
    [OpenAIUsage.mk 1 "2026-10" (Some 49.99%float)]
  = Ok [OpenAIUsage.mk 1 "2026-10" (Some 49.99%float);
        OpenAIUsage.mk 2 "2026-11" (Some 0.02%float)]
  ∧ check_spend_limit 50 "50.0" "2026-10"
      [OpenAIUsage.mk 1 "2026-10" (Some 49.99%float);
       OpenAIUsage.mk 2 "2026-11" (Some 0.02%float)]
    = Ok tt.
Proof.
  assert (H : update_spend_tracking 2 "2026-11" 0.02%float
                [OpenAIUsage.mk 1 "2026-10" (Some 49.99%float)]
              = Ok [OpenAIUsage.mk 1 "2026-10" (Some 49.99%float);
                    OpenAIUsage.mk 2 "2026-11" (Some 0.02%float)])
    by (vm_compute; reflexivity).
  split; [exact H|].
  destruct (spend_is_tracked_per_month _ _ _ _ _ H) as (_ & Hother).
  destruct (Hother "2026-10") as (_ & Hcheck); [discriminate|].
  rewrite Hcheck. vm_compute. reflexivity.
Defined.

(* ===================================================================== *)
(** ** The active bundles count by membership *)
(* ===================================================================== *)

Lemma breakdown_material_loop_membership (l1 l2 : list pyval)
    (materials : list MaterialItem.t) (b : Breakdown.t) :
  (∀ bundle, py_str_in bundle l1 = py_str_in bundle l2) →
  breakdown_material_loop l1 materials b = breakdown_material_loop l2 materials b.
Proof.
  intros H. revert b. induction materials as [|m rest IH]; intros b; simpl.
  - reflexivity.
  - assert (Hm : breakdown_material_step l1 m b = breakdown_material_step l2 m b).
    { unfold breakdown_material_step. destruct (MaterialItem.bundle m); [|reflexivity].
      by rewrite H. }
    rewrite Hm. apply IH.
Qed.

Lemma py_str_in_app (bundle : string) (l1 l2 : list pyval) :
  py_str_in bundle (l1 ++ l2) = py_str_in bundle l1 || py_str_in bundle l2.
Proof. unfold py_str_in. apply existsb_app. Qed.

(** X20: the active bundles count only through the names they hold: with
    any list holding the same strings, in another order, repeated, or
    among values that are not strings, [calculate_estimate_totals] stores
    the same four totals and ends the same way and [get_cost_breakdown]
    builds the same report. *)
Theorem active_bundles_count_by_membership (db : Db) (estimate : Estimate.t)
    (bundles : list pyval) :
  (∀ bundle, py_str_in bundle bundles
             = py_str_in bundle (Estimate.get_active_bundles estimate)) →
  Estimate.computed (calculate_estimate_totals db (set_active_bundles bundles estimate)).1
  = Estimate.computed (calculate_estimate_totals db estimate).1
  ∧ (calculate_estimate_totals db (set_active_bundles bundles estimate)).2
    = (calculate_estimate_totals db estimate).2
  ∧ get_cost_breakdown db (set_active_bundles bundles estimate)
    = get_cost_breakdown db estimate
  ∧ (∀ bundle l1 l2, py_str_in bundle (l1 ++ l2) = py_str_in bundle (l2 ++ l1))
  ∧ (∀ bundle l, py_str_in bundle (l ++ l) = py_str_in bundle l)
  ∧ (∀ bundle x l, (∀ s, x ≠ VStr s) → py_str_in bundle (x :: l) = py_str_in bundle l).
Proof.
  intros H.
  assert (Hl : locals_result db (set_active_bundles bundles estimate)
               = locals_result db estimate)
    by (by apply locals_result_membership).
  rewrite !calculate_estimate_totals_unfold, Hl.
  split; [by destruct (locals_result db estimate)|].
  split; [by destruct (locals_result db estimate)|].
  split.
  { unfold get_cost_breakdown. cbv zeta. simpl Estimate.id.
    change (Estimate.get_active_bundles (set_active_bundles bundles estimate))
      with bundles.
    by rewrite (breakdown_material_loop_membership _ _ _ _ H). }
  split; [intros; rewrite !py_str_in_app; apply orb_comm|].
  split; [intros; rewrite py_str_in_app; apply orb_diag|].
  intros bundle x l Hx. unfold py_str_in. simpl.
  destruct x; try reflexivity. by destruct (Hx s).
Qed.

Lemma active_bundles_count_by_membership_witness :
  Estimate.computed
    (calculate_estimate_totals Sample.db
       (set_active_bundles [VInt 3; VStr "Kitchen"; VNone; VStr "Kitchen"]
                           Sample.kitchen_on)).1
  = Estimate.computed (calculate_estimate_totals Sample.db Sample.kitchen_on).1.
Proof.
  apply (active_bundles_count_by_membership Sample.db Sample.kitchen_on
           [VInt 3; VStr "Kitchen"; VNone; VStr "Kitchen"]).
  intros bundle. change (Estimate.get_active_bundles Sample.kitchen_on) with [VStr "Kitchen"].
  unfold py_str_in. cbn [existsb]. by destruct (String.eqb "Kitchen" bundle).
Defined.

(* ===================================================================== *)
(** ** Nothing is lost in the groups *)
(* ===================================================================== *)

Lemma group_size_append {V : Type} (d : list (string * list V)) (k : string) (x : V) :
  group_size (group_append d k x) = S (group_size d).
Proof.
  unfold group_size. induction d as [|[k' xs] rest IH]; [reflexivity|].
  cbn [group_append]. destruct (String.eqb k' k).
  - change (length ((xs ++ [x]) ++ concat rest.*2) = S (length (xs ++ concat rest.*2))).
    rewrite !length_app. simpl. lia.
  - change (length (xs ++ concat (group_append rest k x).*2)
            = S (length (xs ++ concat rest.*2))).
    rewrite !length_app, IH. lia.
Qed.

Lemma group_size_fold {A V : Type} (label : A → string) (entry : A → V)
    (items : list A) (d : list (string * list V)) :
  group_size (fold_left (fun d x => group_append d (label x) (entry x)) items d)
  = (group_size d + length items)%nat.
Proof.
  revert d. induction items as [|x rest IH]; intros d; simpl; [lia|].
  rewrite IH, group_size_append. lia.
Qed.

(** X21: a report holds, over all its groups, as many material entries as
    there are materials passing the inclusion rule, and as many labor
    entries as there are labor items: grouping neither drops nor repeats a
    row. *)
Theorem report_groups_hold_every_row (db : Db) (estimate : Estimate.t)
    (breakdown : Breakdown.t) :
  get_cost_breakdown db estimate = Ok breakdown →
  group_size (Breakdown.materials breakdown)
  = length (List.filter (material_included (Estimate.get_active_bundles estimate))
                        (query_materials db (Estimate.id estimate)))
  ∧ group_size (Breakdown.labor breakdown)
    = length (query_labor db (Estimate.id estimate)).
Proof.
  intros Hb. destruct (get_cost_breakdown_Ok _ _ _ Hb) as (_ & -> & ->).
  rewrite breakdown_material_loop_groups, breakdown_labor_loop_groups.
  unfold append_material, append_labor. by rewrite !group_size_fold.
Qed.

Lemma report_groups_hold_every_row_witness :
  ∃ breakdown,
    get_cost_breakdown Sample.db Sample.kitchen_off = Ok breakdown
    ∧ group_size (Breakdown.materials breakdown) = 1%nat
    ∧ group_size (Breakdown.labor breakdown) = 1%nat.
Proof.
  assert (H : ∃ b, get_cost_breakdown Sample.db Sample.kitchen_off = Ok b)
    by (eexists; vm_compute; reflexivity).
  destruct H as (breakdown & Hb). exists breakdown. split; [exact Hb|].
  destruct (report_groups_hold_every_row _ _ _ Hb) as (-> & ->). by split.
Defined.

(* ===================================================================== *)
(** ** When the report is refused *)
(* ===================================================================== *)

Lemma breakdown_area_loop_hashable (areas : list pyval) (b b' : Breakdown.t) :
  breakdown_area_loop areas b = Ok b' →
  Forall (fun area => py_hashable (room_key area) = true) areas.
Proof.
  revert b. induction areas as [|area rest IH]; intros b; simpl.
  - constructor.
  - unfold mbind, result_bind.
    destruct (breakdown_area_step area b) as [b1|] eqn:Hstep; [|discriminate].
    intros Hrest. constructor; [|by apply (IH b1)].
    rewrite breakdown_area_step_unfold in Hstep.
    destruct area as [| | | | | |d]; try discriminate.
    unfold mbind, result_bind in Hstep. cbv zeta in Hstep.
    destruct (py_lower _) as [c|]; [|discriminate].
    destruct (py_mul_float _ _) as [cost|]; [|discriminate].
    by destruct (py_hashable _).
Qed.

(** X22: on an estimate for which [calculate_estimate_totals] returns,
    [get_cost_breakdown] builds a report exactly when the room of every
    area record is hashable (not a list, not a dict). *)
Theorem report_refused_only_for_unhashable_room (db : Db) (estimate estimate' : Estimate.t)
    (areas : list pyval) :
  calculate_estimate_totals db estimate = (estimate', Ok tt) →
  py_iter (Estimate.get_areas estimate) = Ok areas →
  ((∃ breakdown, get_cost_breakdown db estimate = Ok breakdown)
   ↔ Forall (fun area => py_hashable (room_key area) = true) areas).
Proof.
  intros Hcalc Hiter. destruct (calculate_Ok _ _ _ _ Hcalc) as (l & Hl & _).
  destruct (locals_result_Ok _ _ _ Hl) as (areas' & _ & Hiter' & _ & Hloop & _).
  rewrite Hiter in Hiter'. injection Hiter' as <-.
  unfold get_cost_breakdown. cbv zeta. rewrite Hiter. unfold mbind, result_bind.
  split.
  - intros (breakdown & Hb). by apply (breakdown_area_loop_hashable _ _ _ Hb).
  - intros Hrooms. by eapply breakdown_area_loop_returns.
Qed.

Lemma report_refused_only_for_unhashable_room_witness :
  calculate_estimate_totals Sample.db
    (Sample.estimate (VList [Sample.area (VList []) (VStr "Interior") (VFloat 50)])
                     [] None None)
  = ((calculate_estimate_totals Sample.db
        (Sample.estimate (VList [Sample.area (VList []) (VStr "Interior") (VFloat 50)])
                         [] None None)).1, Ok tt)
  ∧ ¬ ∃ breakdown,
        get_cost_breakdown Sample.db
          (Sample.estimate (VList [Sample.area (VList []) (VStr "Interior") (VFloat 50)])
                           [] None None)
        = Ok breakdown.
Proof.
  assert (H : calculate_estimate_totals Sample.db
                (Sample.estimate (VList [Sample.area (VList []) (VStr "Interior") (VFloat 50)])
                                 [] None None)
              = ((calculate_estimate_totals Sample.db
                    (Sample.estimate
                       (VList [Sample.area (VList []) (VStr "Interior") (VFloat 50)])
                       [] None None)).1, Ok tt))
    by (vm_compute; reflexivity).
  split; [exact H|].
  rewrite (report_refused_only_for_unhashable_room _ _ _ _ H eq_refl).
  intros Hrooms. apply Forall_cons in Hrooms as (Hroom & _).
  vm_compute in Hroom. discriminate.
Defined.

(* ===================================================================== *)
(** ** Estimates without area records *)
(* ===================================================================== *)

(** X23: on an estimate without area records (a NULL column or an empty
    list) neither function can fail: [calculate_estimate_totals] returns,
    with an area cost of 0, and [get_cost_breakdown] returns a report with
    no area entry and an area total of 0. *)
Theorem no_area_records_never_fail (db : Db) (estimate : Estimate.t) :
  Estimate.areas_json estimate = None ∨ Estimate.areas_json estimate = Some (VList []) →
  (∃ l, calculate_estimate_totals db estimate = (stored l estimate, Ok tt)
        ∧ Locals.area_cost l = 0%float
        ∧ Locals.subtotal l
          = (Locals.material_total l + Locals.labor_total l + 0)%float)
  ∧ (∃ breakdown, get_cost_breakdown db estimate = Ok breakdown
                  ∧ Breakdown.area_costs breakdown = []
                  ∧ Totals.area_costs (Breakdown.totals breakdown) = 0%float).
Proof.
  intros Hareas.
  assert (Hget : Estimate.get_areas estimate = VList []).
  { unfold Estimate.get_areas. by destruct Hareas as [-> | ->]. }
  split.
  - rewrite calculate_estimate_totals_unfold. unfold locals_result. rewrite Hget. simpl.
    eexists. split; [reflexivity|]. by split.
  - unfold get_cost_breakdown. cbv zeta. rewrite Hget. simpl.
    eexists. split; [reflexivity|].
    rewrite breakdown_labor_loop_area_costs, breakdown_material_loop_area_costs.
    split; [reflexivity|].
    destruct (breakdown_labor_loop_totals (query_labor db (Estimate.id estimate))
                (breakdown_material_loop (Estimate.get_active_bundles estimate)
                   (query_materials db (Estimate.id estimate)) (breakdown_init estimate)))
      as (_ & _ & ->).
    by destruct (breakdown_material_loop_totals (Estimate.get_active_bundles estimate)
                   (query_materials db (Estimate.id estimate)) (breakdown_init estimate))
      as (_ & _ & ->).
Qed.

Lemma no_area_records_never_fail_witness :
  ∃ l, calculate_estimate_totals Sample.db Sample.thousand
       = (stored l Sample.thousand, Ok tt)
       ∧ Locals.area_cost l = 0%float.
Proof.
  destruct (no_area_records_never_fail Sample.db Sample.thousand (or_intror eq_refl))
    as ((l & Hc & Ha & _) & _).
  by exists l.
Defined.

(* ===================================================================== *)
(** ** Requests that change nothing *)
(* ===================================================================== *)

(** X24: [update_estimate_settings] is all or nothing on its form: when
    either percentage is not a number, the other is not applied; the
    request only flashes 'Invalid percentage values...' and redirects to
    the estimate.  And for an id that no estimate has, the three routes
    raise [NotFound] and change nothing. *)
Theorem invalid_requests_change_nothing (py_float : string → option float)
    (estimate_id : Z) (form : gmap string string) (w : Web) :
  py_truthy (is_authenticated w) = true →
  (∀ estimate,
     estimates w !! estimate_id = Some estimate →
     form_float py_float form "profit_percentage" 15 = None
     ∨ form_float py_float form "contingency_percentage" 10 = None →
     update_estimate_settings py_float estimate_id form w
     = (flash "Invalid percentage values. Please enter numbers only." "error" w,
        Ok (Redirect "view_estimate" (Some estimate_id))))
  ∧ (estimates w !! estimate_id = None →
     ∀ new_id material_id labor_id,
       toggle_bundle estimate_id form w = (w, Raise NotFound)
       ∧ update_estimate_settings py_float estimate_id form w = (w, Raise NotFound)
       ∧ duplicate_estimate new_id material_id labor_id estimate_id w
         = (w, Raise NotFound)).
Proof.
  intros Hauth. split.
  - intros estimate Hget Hbad.
    unfold update_estimate_settings, login_required. rewrite Hauth. simpl negb. cbv iota.
    unfold update_estimate_settings_view, get_or_404. rewrite Hget.
    destruct Hbad as [-> | ->]; [reflexivity|].
    by destruct (form_float py_float form "profit_percentage" 15).
  - intros Hnone new_id material_id labor_id.
    unfold toggle_bundle, update_estimate_settings, duplicate_estimate, login_required.
    rewrite Hauth. simpl negb. cbv iota.
    unfold toggle_bundle_view, update_estimate_settings_view, duplicate_estimate_view,
      get_or_404.
    by rewrite Hnone.
Qed.

Lemma invalid_requests_change_nothing_witness :
  update_estimate_settings Site.py_float 7 Forms.half_valid_form Site.web
  = (flash "Invalid percentage values. Please enter numbers only." "error" Site.web,
     Ok (Redirect "view_estimate" (Some 7))).
Proof.
  destruct (invalid_requests_change_nothing Site.py_float 7 Forms.half_valid_form Site.web
              eq_refl) as (Hinvalid & _).
  apply (Hinvalid Sample.kitchen_on); [reflexivity|].
  right. vm_compute. reflexivity.
Defined.
